(** * BHAROSA KYC verification system: hashing utility, validation
      middleware, IPFS batch upload and the KYC submission pipeline.

    Shallow embedding of
      backend/src/utils/hashUtils.js          (sha256, hashDocumentNumber,
                                               hashUserId, createMerkleRoot)
      backend/src/middleware/validateKYC.js   (validateKYCSubmission)
      backend/src/utils/ipfsClient.js         (uploadToIPFS,
                                               uploadMultipleToIPFS)
      backend/src/utils/blockchainClient.js   (registerKYCOnBlockchain)
      backend/src/controllers/kycController.js (submitKYC,
                                               processAIVerification,
                                               issueAriesCredential,
                                               registerOnBlockchain)

    JavaScript strings are modelled as [string] (a sequence of bytes, the
    UTF-8 encoding that [crypto]'s [update] hashes), dates as [Z]
    milliseconds since the epoch, JavaScript numbers that are only passed
    through or compared as [Q]. *)

From Stdlib Require Import List String Ascii ZArith QArith Qround Bool Lia Arith.
From Equations Require Import Equations.
Import ListNotations.

Local Close Scope Q_scope.
Local Close Scope Z_scope.
Local Open Scope nat_scope.
Local Open Scope list_scope.
Local Open Scope string_scope.

(** ** JavaScript helpers *)

Module JS.

(** [!s] on a string: the empty string is the only falsy string. *)
Definition falsy (s : string) : bool :=
  match s with EmptyString => true | String _ _ => false end.

(** [!x] where [x] may also be [undefined]. *)
Definition falsy_opt (o : option string) : bool :=
  match o with None => true | Some s => falsy s end.

(** [a || b] where [a] is a string or [undefined] and [b] a string. *)
Definition or_else (a : option string) (b : string) : string :=
  match a with
  | Some (String c s) => String c s
  | _ => b
  end.

(** [x || 0] on a number that may be [undefined]. *)
Definition or_zero (x : option Q) : Q :=
  match x with Some q => q | None => 0%Q end.

(** Decimal rendering of an integer, as in a template literal. *)
Fixpoint digits_fuel (fuel : nat) (n : Z) (acc : string) : string :=
  match fuel with
  | O => acc
  | S f =>
      let d := ascii_of_nat (48 + Z.to_nat (n mod 10)) in
      if (n <? 10)%Z then String d acc
      else digits_fuel f (n / 10)%Z (String d acc)
  end.

Definition string_of_Z (n : Z) : string :=
  if (n <? 0)%Z
  then "-" ++ digits_fuel (S (Z.to_nat (Z.log2 (- n)))) (- n)%Z ""
  else digits_fuel (S (Z.to_nat (Z.log2 n))) n "".

(** [x.toFixed(0)]: the nearest integer, the larger one on a tie. *)
Definition toFixed0 (x : Q) : string :=
  if Qle_bool 0 x
  then string_of_Z (Qfloor (x + (1 # 2)))
  else "-" ++ string_of_Z (Qfloor ((- x) + (1 # 2))).

(** The double-quote character, as a string. *)
Definition dquote : string := String (ascii_of_nat 34) EmptyString.

(** The outcome of a call that may throw an [Error] with a message. *)
Inductive outcome (A : Type) : Type :=
| Returns (a : A)
| Throws (message : string).
Arguments Returns {A} a.
Arguments Throws {A} message.

End JS.

Export JS.

(** ** SHA-256 (FIPS 180-4), the function behind
       [crypto.createHash('sha256').update(data).digest('hex')] *)

Module SHA256.

Local Open Scope Z_scope.

Definition wrap (x : Z) : Z := Z.land x 4294967295.
Definition add32 (a b : Z) : Z := wrap (a + b).
Definition rotr (n x : Z) : Z :=
  Z.lor (Z.shiftr x n) (wrap (Z.shiftl x (32 - n))).
Definition Ch (x y z : Z) : Z :=
  Z.lxor (Z.land x y) (Z.land (Z.lxor x 4294967295) z).
Definition Maj (x y z : Z) : Z :=
  Z.lxor (Z.lxor (Z.land x y) (Z.land x z)) (Z.land y z).
Definition bigSigma0 (x : Z) : Z :=
  Z.lxor (Z.lxor (rotr 2 x) (rotr 13 x)) (rotr 22 x).
Definition bigSigma1 (x : Z) : Z :=
  Z.lxor (Z.lxor (rotr 6 x) (rotr 11 x)) (rotr 25 x).
Definition smallSigma0 (x : Z) : Z :=
  Z.lxor (Z.lxor (rotr 7 x) (rotr 18 x)) (Z.shiftr x 3).
Definition smallSigma1 (x : Z) : Z :=
  Z.lxor (Z.lxor (rotr 17 x) (rotr 19 x)) (Z.shiftr x 10).

(** Round constants, in decimal. *)
Definition round_constants : list Z :=
  [1116352408; 1899447441; 3049323471; 3921009573; 961987163; 1508970993;
   2453635748; 2870763221; 3624381080; 310598401; 607225278; 1426881987;
   1925078388; 2162078206; 2614888103; 3248222580; 3835390401; 4022224774;
   264347078; 604807628; 770255983; 1249150122; 1555081692; 1996064986;
   2554220882; 2821834349; 2952996808; 3210313671; 3336571891; 3584528711;
   113926993; 338241895; 666307205; 773529912; 1294757372; 1396182291;
   1695183700; 1986661051; 2177026350; 2456956037; 2730485921; 2820302411;
   3259730800; 3345764771; 3516065817; 3600352804; 4094571909; 275423344;
   430227734; 506948616; 659060556; 883997877; 958139571; 1322822218;
   1537002063; 1747873779; 1955562222; 2024104815; 2227730452; 2361852424;
   2428436474; 2756734187; 3204031479; 3329325298].

Record regs : Type := mkRegs
  { ra : Z; rb : Z; rc : Z; rd : Z; re : Z; rf : Z; rg : Z; rh : Z }.

Definition initial_regs : regs :=
  mkRegs 1779033703 3144134277 1013904242 2773480762
         1359893119 2600822924 528734635 1541459225.

(** One round: consumes the oldest word of the 16-word window and
    extends the window by the next word of the message schedule. *)
Definition round (st : regs * list Z) (k : Z) : regs * list Z :=
  let (r, win) := st in
  let w := nth 0 win 0 in
  let t1 := add32 (add32 (add32 (add32 (rh r) (bigSigma1 (re r)))
                                (Ch (re r) (rf r) (rg r))) k) w in
  let t2 := add32 (bigSigma0 (ra r)) (Maj (ra r) (rb r) (rc r)) in
  let next := add32 (add32 (add32 (smallSigma1 (nth 14 win 0)) (nth 9 win 0))
                           (smallSigma0 (nth 1 win 0))) w in
  (mkRegs (add32 t1 t2) (ra r) (rb r) (rc r) (add32 (rd r) t1)
          (re r) (rf r) (rg r),
   (tl win ++ [next])%list).

Definition compress (r : regs) (block : list Z) : regs :=
  let r' := fst (fold_left round round_constants (r, block)) in
  mkRegs (add32 (ra r) (ra r')) (add32 (rb r) (rb r'))
         (add32 (rc r) (rc r')) (add32 (rd r) (rd r'))
         (add32 (re r) (re r')) (add32 (rf r) (rf r'))
         (add32 (rg r) (rg r')) (add32 (rh r) (rh r')).

Definition bytes_of_string (s : string) : list Z :=
  map (fun c => Z.of_nat (nat_of_ascii c)) (list_ascii_of_string s).

(** Big-endian bytes of [x], [n] of them. *)
Fixpoint be_bytes (n : nat) (x : Z) : list Z :=
  match n with
  | O => []
  | S m => Z.land (Z.shiftr x (8 * Z.of_nat m)) 255 :: be_bytes m x
  end.

Definition pad (msg : list Z) : list Z :=
  let len := Z.of_nat (List.length msg) in
  let zeros := Z.to_nat ((55 - len) mod 64) in
  (msg ++ [128] ++ repeat 0 zeros ++ be_bytes 8 (8 * len))%list.

(** Words of a padded message, four bytes each. *)
Fixpoint words (fuel : nat) (bs : list Z) : list Z :=
  match fuel, bs with
  | S f, b0 :: b1 :: b2 :: b3 :: rest =>
      (b0 * 16777216 + b1 * 65536 + b2 * 256 + b3) :: words f rest
  | _, _ => []
  end.

Fixpoint blocks (fuel : nat) (ws : list Z) (r : regs) : regs :=
  match fuel, ws with
  | S f, _ :: _ => blocks f (skipn 16 ws) (compress r (firstn 16 ws))
  | _, _ => r
  end.

Definition hex_digit (d : Z) : ascii :=
  if d <? 10 then ascii_of_nat (48 + Z.to_nat d)
  else ascii_of_nat (87 + Z.to_nat d).

Definition nibble (x : Z) (i : Z) : ascii :=
  hex_digit (Z.land (Z.shiftr x (4 * i)) 15).

Definition hex8 (x : Z) (rest : string) : string :=
  String (nibble x 7) (String (nibble x 6) (String (nibble x 5)
  (String (nibble x 4) (String (nibble x 3) (String (nibble x 2)
  (String (nibble x 1) (String (nibble x 0) rest))))))).

Definition hex_of_regs (r : regs) : string :=
  hex8 (ra r) (hex8 (rb r) (hex8 (rc r) (hex8 (rd r)
  (hex8 (re r) (hex8 (rf r) (hex8 (rg r) (hex8 (rh r) ""))))))).

Definition digest (s : string) : regs :=
  let bs := pad (bytes_of_string s) in
  let ws := words (List.length bs) bs in
  blocks (List.length ws) ws initial_regs.

Definition sha256 (s : string) : string := hex_of_regs (digest s).

End SHA256.

Example sha256_empty_string :
  SHA256.sha256 "" =
  "e3b0c44298fc1c149afbf4c8996fb92427ae41e4649b934ca495991b7852b855".
Proof. vm_compute. reflexivity. Qed.

Example sha256_abc :
  SHA256.sha256 "abc" =
  "ba7816bf8f01cfea414140de5dae2223b00361a396177a9cb410ff61f20015ad".
Proof. vm_compute. reflexivity. Qed.

Example sha256_two_blocks :
  SHA256.sha256
    "aaaaaaaaaaaaaaaaaaaaaaaaaaaaaaaaaaaaaaaaaaaaaaaaaaaaaaaaaaaaaaaaaaaaaa" =
  "6bd5e5034855a11241f0dee8fc72850ffd9955b28347a86428b5fa19119f6ad0".
Proof. vm_compute. reflexivity. Qed.

Example string_of_Z_examples :
  string_of_Z 0 = "0" /\ string_of_Z 11 = "11" /\ string_of_Z 1024 = "1024"
  /\ string_of_Z (-7) = "-7" /\ toFixed0 (21 # 2) = "11"
  /\ toFixed0 (661 # 60) = "11" /\ toFixed0 (104 # 10) = "10".
Proof. vm_compute. repeat split. Qed.

(** ** Hashing utility (hashUtils.js)

    The functions are stated over any hash function [sha256]; the
    repository's one is [SHA256.sha256]. *)

Section Hashing.

Variable sha256 : string -> string.

(** [hashDocumentNumber(documentNumber, documentType)]:
    [combined = `${documentType}:${documentNumber}`]. *)
Definition hashDocumentNumber (documentNumber documentType : string) : string :=
  let combined := documentType ++ ":" ++ documentNumber in
  sha256 combined.

(** [hashUserId(userId) = sha256(`user:${userId}`)]. *)
Definition hashUserId (userId : string) : string :=
  sha256 ("user:" ++ userId).

(** [hashFile(fileBuffer)]: SHA-256 of the buffer, in hex. *)
Definition hashFile (fileBuffer : string) : string := sha256 fileBuffer.

(** The [for (let i = 0; i < hashes.length; i += 2)] loop of
    [createMerkleRoot]; [fuel] bounds the number of iterations. *)
Fixpoint pair_loop (fuel : nat) (hashes : list string) (i : nat)
         (newLevel : list string) : list string :=
  match fuel with
  | O => newLevel
  | S f =>
      if Nat.ltb i (List.length hashes) then
        let left := nth i hashes "" in
        let right := or_else (nth_error hashes (i + 1)) left in
        pair_loop f hashes (i + 2) (newLevel ++ [sha256 (left ++ right)])%list
      else newLevel
  end.

(** One level: the loop run from [i = 0] on an empty [newLevel]; the
    length of the list is enough fuel (see [pair_loop_fuel]). *)
Definition newLevel (hashes : list string) : list string :=
  pair_loop (List.length hashes) hashes 0 [].

(** The same level by recursion on the list, two elements at a time. *)
Fixpoint pairUp (hashes : list string) : list string :=
  match hashes with
  | [] => []
  | [l] => [sha256 (l ++ l)]
  | l :: r :: rest =>
      sha256 (l ++ or_else (Some r) l) :: pairUp rest
  end.

Lemma skipn_nth_cons (l : list string) (i : nat) :
  i < List.length l -> skipn i l = nth i l "" :: skipn (S i) l.
Proof.
  revert i. induction l as [|x l IH]; intros i Hi; simpl in Hi.
  - lia.
  - destruct i as [|i]; [reflexivity|].
    simpl. apply IH. lia.
Qed.

Lemma nth_error_skipn_hd (l : list string) (i : nat) :
  nth_error l i = hd_error (skipn i l).
Proof.
  revert i. induction l as [|x l IH]; intros [|i]; simpl; auto.
Qed.

Lemma skipn_S_tl (l : list string) (i : nat) :
  skipn (S i) l = tl (skipn i l).
Proof.
  revert i. induction l as [|x l IH]; intros [|i]; try reflexivity.
  change (skipn (S i) l = tl (skipn i l)). apply IH.
Qed.

(** With enough fuel the loop leaves by its condition and computes
    [pairUp] of the part of the list not yet visited. *)
Lemma pair_loop_pairUp (fuel : nat) (hashes : list string) :
  forall i acc,
    List.length hashes <= i + 2 * fuel ->
    pair_loop fuel hashes i acc = (acc ++ pairUp (skipn i hashes))%list.
Proof.
  induction fuel as [|f IH]; intros i acc Hfuel; simpl.
  - rewrite skipn_all2 by lia. simpl. rewrite app_nil_r. reflexivity.
  - destruct (Nat.ltb_spec i (List.length hashes)) as [Hlt|Hge].
    + rewrite IH by lia.
      rewrite (skipn_nth_cons hashes i Hlt).
      replace (i + 1) with (S i) by lia.
      replace (i + 2) with (S (S i)) by lia.
      rewrite nth_error_skipn_hd.
      rewrite (skipn_S_tl hashes (S i)).
      destruct (skipn (S i) hashes) as [|r rest]; simpl.
      * rewrite <- app_assoc. reflexivity.
      * rewrite <- app_assoc. reflexivity.
    + rewrite skipn_all2 by lia. simpl. rewrite app_nil_r. reflexivity.
Qed.

Lemma newLevel_pairUp (hashes : list string) : newLevel hashes = pairUp hashes.
Proof.
  unfold newLevel. rewrite pair_loop_pairUp by lia. reflexivity.
Qed.

(** More fuel than the length changes nothing: the bound is never what
    stops the loop. *)
Lemma pair_loop_fuel (fuel : nat) (hashes : list string) :
  List.length hashes <= fuel ->
  pair_loop fuel hashes 0 [] = newLevel hashes.
Proof.
  intros H. unfold newLevel. rewrite !pair_loop_pairUp by lia. reflexivity.
Qed.

Lemma pairUp_length_aux (n : nat) :
  forall hashes, List.length hashes <= n ->
    List.length (pairUp hashes) = Nat.div2 (S (List.length hashes)).
Proof.
  induction n as [|n IH]; intros hashes Hn.
  - destruct hashes; simpl in *; [reflexivity | lia].
  - destruct hashes as [|a [|b rest]]; try reflexivity.
    simpl in Hn. cbn [pairUp List.length]. rewrite IH by lia. reflexivity.
Qed.

Lemma newLevel_length (hashes : list string) :
  List.length (newLevel hashes) = Nat.div2 (S (List.length hashes)).
Proof.
  rewrite newLevel_pairUp. apply (pairUp_length_aux (List.length hashes)). lia.
Qed.

Lemma div2_S_lt (n : nat) : 2 <= n -> Nat.div2 (S n) < n.
Proof.
  intros H. pose proof (Nat.div2_odd (S n)) as E.
  destruct (Nat.odd (S n)); simpl Nat.b2n in E; lia.
Qed.

Lemma newLevel_shorter (h1 h2 : string) (rest : list string) :
  List.length (newLevel (h1 :: h2 :: rest)) < List.length (h1 :: h2 :: rest).
Proof.
  rewrite newLevel_length. apply div2_S_lt. simpl. lia.
Qed.

(** [createMerkleRoot] on an array: the recursive call is on [newLevel],
    which is shorter than [hashes]. *)
Equations createMerkleRoot_array (hashes : list string) : string
  by wf (List.length hashes) lt :=
  createMerkleRoot_array [] := sha256 "empty";
  createMerkleRoot_array [h] := h;
  createMerkleRoot_array (h1 :: h2 :: rest) :=
    createMerkleRoot_array (newLevel (h1 :: h2 :: rest)).
Next Obligation. apply newLevel_shorter. Qed.

(** [createMerkleRoot(hashes)]; [None] is a missing ([null] or
    [undefined]) argument, caught by [!hashes]. *)
Definition createMerkleRoot (hashes : option (list string)) : string :=
  match hashes with
  | None => sha256 "empty"
  | Some l => createMerkleRoot_array l
  end.

(** The same function with the depth of the recursion bounded by
    [fuel]; [None] when the bound is reached before a result. *)
Fixpoint createMerkleRoot_fuel (fuel : nat) (hashes : option (list string))
  : option string :=
  match fuel with
  | O => None
  | S f =>
      match hashes with
      | None | Some [] => Some (sha256 "empty")
      | Some [h] => Some h
      | Some l => createMerkleRoot_fuel f (Some (newLevel l))
      end
  end.

(** *** The algorithm in the words of the specification *)

(** Pair adjacent hashes, hash each pair's concatenation, duplicate the
    last hash when the level has odd length. *)
Fixpoint merkleLevel (hashes : list string) : list string :=
  match hashes with
  | [] => []
  | [h] => [sha256 (h ++ h)]
  | a :: b :: rest => sha256 (a ++ b) :: merkleLevel rest
  end.

(** Recurse over levels until one hash remains; the hash of the sentinel
    for an empty list. [fuel] bounds the number of levels. *)
Fixpoint merkleRootSpec (fuel : nat) (hashes : list string) : string :=
  match hashes with
  | [] => sha256 "empty"
  | [h] => h
  | _ =>
      match fuel with
      | O => ""
      | S f => merkleRootSpec f (merkleLevel hashes)
      end
  end.

End Hashing.

(** ** Requests of the submission endpoint *)

(** A file as multer stores it in [req.files[field][i]]. *)
Record UploadedFile : Type := mkUploadedFile
  { path : string;
    size : Z;
    mimetype : string;
    originalname : string }.

(** [req.files]: an object from field names to arrays of files, with its
    keys in insertion order. *)
Definition Files : Type := list (string * list UploadedFile).

(** [files[key]]. *)
Fixpoint files_get (files : Files) (key : string) : option (list UploadedFile) :=
  match files with
  | [] => None
  | (k, v) :: rest => if String.eqb k key then Some v else files_get rest key
  end.

(** The request as it reaches the handlers: [req.user.id] set by the
    authentication middleware, [req.body] and [req.files] by the upload
    middleware. *)
Record Request : Type := mkRequest
  { req_user_id : string;
    body_documentType : option string;
    body_documentNumber : option string;
    req_files : option Files;
    req_ip : string;
    req_user_agent : string }.

(** ** Validation middleware (validateKYC.js) *)

Module Validation.

Definition isDigit (c : ascii) : bool :=
  let n := nat_of_ascii c in Nat.leb 48 n && Nat.leb n 57.

Definition isUpper (c : ascii) : bool :=
  let n := nat_of_ascii c in Nat.leb 65 n && Nat.leb n 90.

Definition isLower (c : ascii) : bool :=
  let n := nat_of_ascii c in Nat.leb 97 n && Nat.leb n 122.

(** [cls{n}] at the head of [s]: the rest of the string when the first
    [n] characters are all in the class. *)
Fixpoint eat (cls : ascii -> bool) (n : nat) (s : string) : option string :=
  match n with
  | O => Some s
  | S m =>
      match s with
      | String c rest => if cls c then eat cls m rest else None
      | EmptyString => None
      end
  end.

Definition and_then (o : option string) (k : string -> option string)
  : option string :=
  match o with Some s => k s | None => None end.

(** [$] in a pattern without the [m] flag: the end of the input. *)
Definition at_end (o : option string) : bool :=
  match o with Some EmptyString => true | _ => false end.

Fixpoint all_chars (cls : ascii -> bool) (s : string) : bool :=
  match s with
  | EmptyString => true
  | String c rest => cls c && all_chars cls rest
  end.

(** [/^\d{12}$/] *)
Definition aadhaar_pattern (s : string) : bool := at_end (eat isDigit 12 s).

(** [/^[A-Z]{5}[0-9]{4}[A-Z]{1}$/] *)
Definition pan_pattern (s : string) : bool :=
  at_end (and_then (and_then (eat isUpper 5 s) (eat isDigit 4)) (eat isUpper 1)).

(** [/^[A-Z]{1}[0-9]{7}$/] *)
Definition passport_pattern (s : string) : bool :=
  at_end (and_then (eat isUpper 1 s) (eat isDigit 7)).

(** [/^[A-Z]{2}[0-9]{13}$/] *)
Definition driving_license_pattern (s : string) : bool :=
  at_end (and_then (eat isUpper 2 s) (eat isDigit 13)).

(** [/^[A-Z0-9]{6,20}$/] *)
Definition national_id_pattern (s : string) : bool :=
  all_chars (fun c => isUpper c || isDigit c) s
  && Nat.leb 6 (String.length s) && Nat.leb (String.length s) 20.

Record Rules : Type := mkRules
  { numberPattern : string -> bool;
    requiredFields : list string;
    maxFileSize : Z;
    allowedFormats : list string }.

Definition image_formats : list string :=
  ["image/jpeg"; "image/jpg"; "image/png"].

Definition five_megabytes : Z := (5 * 1024 * 1024)%Z.

Definition DOCUMENT_RULES : list (string * Rules) :=
  [ ("aadhaar",
     mkRules aadhaar_pattern ["front"; "selfie"] five_megabytes image_formats);
    ("pan",
     mkRules pan_pattern ["front"; "selfie"] five_megabytes image_formats);
    ("passport",
     mkRules passport_pattern ["front"; "back"; "selfie"]
             five_megabytes image_formats);
    ("driving_license",
     mkRules driving_license_pattern ["front"; "back"; "selfie"]
             five_megabytes image_formats);
    ("national_id",
     mkRules national_id_pattern ["front"; "selfie"]
             five_megabytes image_formats) ].

(** [DOCUMENT_RULES[documentType]] *)
Fixpoint rules_get (table : list (string * Rules)) (k : string) : option Rules :=
  match table with
  | [] => None
  | (k', r) :: rest => if String.eqb k' k then Some r else rules_get rest k
  end.

(** [Object.keys(DOCUMENT_RULES)] *)
Definition validTypes : list string := map fst DOCUMENT_RULES.

(** [xs.includes(x)] on strings *)
Definition includes (xs : list string) (x : string) : bool :=
  existsb (String.eqb x) xs.

(** [xs.join(', ')] *)
Fixpoint join (sep : string) (xs : list string) : string :=
  match xs with
  | [] => ""
  | [x] => x
  | x :: rest => x ++ sep ++ join sep rest
  end.

(** What the middleware answers when it does not call [next()]. *)
Record ErrorResponse : Type := mkErrorResponse
  { http_status : nat;
    message : string;
    errors : list string }.

Definition validation_failed (errs : list string) : ErrorResponse :=
  mkErrorResponse 400 "Validation failed" errs.

(** Validation 5, the loop over [rules.requiredFields]. *)
Fixpoint required_file_errors (documentType : string) (files : Files)
         (fields : list string) : list string :=
  match fields with
  | [] => []
  | field :: rest =>
      let fileKey := "documentImages[" ++ field ++ "]" in
      let missing :=
        match files_get files fileKey with
        | None | Some [] => true
        | Some (_ :: _) => false
        end in
      if missing
      then (field ++ " image is required for " ++ documentType)
             :: required_file_errors documentType files rest
      else required_file_errors documentType files rest
  end.

Section FileChecks.

(** [path.extname(name).toLowerCase()], Node's library function. *)
Variable extnameLower : string -> string.

(** The three checks on one file of Validation 6. *)
Definition one_file_errors (rules : Rules) (key : string) (file : UploadedFile)
  : list string :=
  let too_large :=
    if (maxFileSize rules <? size file)%Z
    then [key ++ " exceeds maximum size of "
              ++ string_of_Z (maxFileSize rules / 1024 / 1024) ++ "MB"]
    else [] in
  let bad_format :=
    if negb (includes (allowedFormats rules) (mimetype file))
    then [key ++ " must be in one of these formats: "
              ++ join ", " (allowedFormats rules)]
    else [] in
  let bad_extension :=
    if negb (includes [".jpg"; ".jpeg"; ".png"]
                      (extnameLower (originalname file)))
    then [key ++ " has invalid extension. Must be .jpg, .jpeg, or .png"]
    else [] in
  List.app too_large (List.app bad_format bad_extension).

(** Validation 6, the loop over [Object.entries(files)];
    [fileArray[0]] of an empty array is [undefined] and reading its
    [size] throws. *)
Fixpoint file_errors (rules : Rules) (entries : Files) : outcome (list string) :=
  match entries with
  | [] => Returns []
  | (key, fileArray) :: rest =>
      match fileArray with
      | [] => Throws "Cannot read properties of undefined (reading 'size')"
      | file :: _ =>
          match file_errors rules rest with
          | Returns errs => Returns (List.app (one_file_errors rules key file) errs)
          | Throws m => Throws m
          end
      end
  end.

(** [validateKYCSubmission(req, res, next)]: [inl] is the response sent
    instead of calling [next()], [inr tt] is the call of [next()]. *)
Definition validateKYCSubmission (req : Request) : ErrorResponse + unit :=
  match body_documentType req with
  | None | Some EmptyString =>
      inl (validation_failed ["documentType is required"])
  | Some documentType =>
  match body_documentNumber req with
  | None | Some EmptyString =>
      inl (validation_failed ["documentNumber is required"])
  | Some documentNumber =>
  if negb (includes validTypes documentType) then
    inl (validation_failed
           ["Invalid documentType " ++ dquote ++ documentType ++ dquote
              ++ ". Must be one of: " ++ join ", " validTypes])
  else
  match rules_get DOCUMENT_RULES documentType with
  | None => inl (mkErrorResponse 500 "Validation error"
                   ["Cannot read properties of undefined (reading 'numberPattern')"])
  | Some rules =>
  if negb (numberPattern rules documentNumber) then
    inl (validation_failed ["Invalid " ++ documentType ++ " number format"])
  else
  match req_files req with
  | None | Some [] => inl (validation_failed ["No files uploaded"])
  | Some files =>
  match required_file_errors documentType files (requiredFields rules) with
  | (_ :: _) as errs => inl (validation_failed errs)
  | [] =>
  match file_errors rules files with
  | Throws m => inl (mkErrorResponse 500 "Validation error" [m])
  | Returns ((_ :: _) as errs) =>
      inl (mkErrorResponse 400 "File validation failed" errs)
  | Returns [] => inr tt
  end end end end end end.

End FileChecks.

(** [sanitizeFileMetadata]: every file's [originalname] loses the
    characters outside [[a-zA-Z0-9._-]]. *)
Definition safe_char (c : ascii) : bool :=
  isLower c || isUpper c || isDigit c
  || Ascii.eqb c "."%char || Ascii.eqb c "_"%char || Ascii.eqb c "-"%char.

Fixpoint keep_chars (cls : ascii -> bool) (s : string) : string :=
  match s with
  | EmptyString => EmptyString
  | String c rest =>
      if cls c then String c (keep_chars cls rest) else keep_chars cls rest
  end.

Definition sanitize_file (f : UploadedFile) : UploadedFile :=
  mkUploadedFile (path f) (size f) (mimetype f)
                 (keep_chars safe_char (originalname f)).

Definition sanitizeFileMetadata (req : Request) : Request :=
  mkRequest (req_user_id req) (body_documentType req) (body_documentNumber req)
            (option_map (map (fun kv => (fst kv, map sanitize_file (snd kv))))
                        (req_files req))
            (req_ip req) (req_user_agent req).

End Validation.

(** ** IPFS client (ipfsClient.js) *)

Module Ipfs.

(** The module's configuration, read from the process environment. *)
Record Config : Type := mkConfig
  { IPFS_PROVIDER : string;
    ENABLE_IPFS : bool;
    FALLBACK_TO_LOCAL : bool }.

(** The metadata object passed along with a file. *)
Record Metadata : Type := mkMetadata
  { md_kycRecordId : string;
    md_documentType : string;
    md_uploadedAt : Z;
    md_filename : option string }.

(** What [uploadToPinata], [uploadToInfura] and [uploadToLocalIPFS]
    return. *)
Record PinResult : Type := mkPinResult
  { pin_cid : option string;
    pin_size : Z;
    pin_timestamp : string }.

(** What [uploadToIPFS] returns. *)
Record UploadResult : Type := mkUploadResult
  { cid : option string;
    up_size : option Z;
    up_timestamp : option string;
    provider : string;
    fileHash : string;
    localPath : string;
    up_error : option string }.

(** An element of the array [uploadMultipleToIPFS] returns:
    [{ filePath, success: true, ...result }] or
    [{ filePath, success: false, error }]. *)
Record BatchEntry : Type := mkBatchEntry
  { filePath : string;
    success : bool;
    e_cid : option string;
    e_size : option Z;
    e_timestamp : option string;
    e_provider : option string;
    e_fileHash : option string;
    e_localPath : option string;
    e_error : option string }.

Definition uploaded_entry (filePath : string) (r : UploadResult) : BatchEntry :=
  mkBatchEntry filePath true (cid r) (up_size r) (up_timestamp r)
               (Some (provider r)) (Some (fileHash r)) (Some (localPath r))
               (up_error r).

Definition failed_entry (filePath : string) (message : string) : BatchEntry :=
  mkBatchEntry filePath false None None None None None None (Some message).

Definition is_separator (c : ascii) : bool :=
  Ascii.eqb c "/"%char || Ascii.eqb c (ascii_of_nat 92).

(** [filePath.split(/[\\/]/).pop()]: what follows the last separator. *)
Fixpoint last_segment (s : string) (acc : string) : string :=
  match s with
  | EmptyString => acc
  | String c rest =>
      if is_separator c then last_segment rest EmptyString
      else last_segment rest (acc ++ String c EmptyString)
  end.

Definition lower_char (c : ascii) : ascii :=
  if Validation.isUpper c then ascii_of_nat (nat_of_ascii c + 32) else c.

Fixpoint lower (s : string) : string :=
  match s with
  | EmptyString => EmptyString
  | String c rest => String (lower_char c) (lower rest)
  end.

(** [{ ...metadata, filename: filePath.split(/[\\/]/).pop() }] *)
Definition file_metadata (metadata : Metadata) (filePath : string) : Metadata :=
  mkMetadata (md_kycRecordId metadata) (md_documentType metadata)
             (md_uploadedAt metadata)
             (Some (last_segment filePath EmptyString)).

Section Client.

(** The world outside the process: the file system and the pinning
    services. A call of a service answers and changes the world. *)
Variable World : Type.
Variable readFileSync : World -> string -> outcome string.
Variable pin :
  string -> string -> Metadata -> World -> outcome PinResult * World.
Variable sha256 : string -> string.
Variable config : Config.

(** [calculateFileHash(filePath)] *)
Definition calculateFileHash (w : World) (filePath : string) : outcome string :=
  match readFileSync w filePath with
  | Returns buffer => Returns (sha256 buffer)
  | Throws m => Throws m
  end.

(** The [switch (IPFS_PROVIDER.toLowerCase())]. *)
Definition provider_upload (filePath : string) (metadata : Metadata) (w : World)
  : outcome PinResult * World :=
  let p := lower (IPFS_PROVIDER config) in
  if String.eqb p "pinata" then pin "pinata" filePath metadata w
  else if String.eqb p "infura" then pin "infura" filePath metadata w
  else if String.eqb p "local" then pin "local" filePath metadata w
  else (Throws ("Unknown IPFS provider: " ++ IPFS_PROVIDER config), w).

(** The [try] block of [uploadToIPFS]. *)
Definition upload_attempt (filePath : string) (metadata : Metadata) (w : World)
  : outcome UploadResult * World :=
  match calculateFileHash w filePath with
  | Throws m => (Throws m, w)
  | Returns fileHash =>
      match provider_upload filePath metadata w with
      | (Returns r, w') =>
          (Returns (mkUploadResult (pin_cid r) (Some (pin_size r))
                                   (Some (pin_timestamp r))
                                   (IPFS_PROVIDER config) fileHash filePath None),
           w')
      | (Throws m, w') => (Throws m, w')
      end
  end.

(** [uploadToIPFS(filePath, metadata)] *)
Definition uploadToIPFS (filePath : string) (metadata : Metadata) (w : World)
  : outcome UploadResult * World :=
  if negb (ENABLE_IPFS config) then
    match calculateFileHash w filePath with
    | Returns h =>
        (Returns (mkUploadResult None None None "disabled" h filePath None), w)
    | Throws m => (Throws m, w)
    end
  else
    match upload_attempt filePath metadata w with
    | (Returns r, w') => (Returns r, w')
    | (Throws m, w') =>
        if FALLBACK_TO_LOCAL config then
          match calculateFileHash w' filePath with
          | Returns h =>
              (Returns (mkUploadResult None None None "fallback-local" h
                                       filePath (Some m)), w')
          | Throws m' => (Throws m', w')
          end
        else (Throws ("IPFS upload failed: " ++ m), w')
    end.

(** One iteration of the loop of [uploadMultipleToIPFS]: the [try]
    with its [catch]. *)
Definition upload_one (filePath : string) (metadata : Metadata) (w : World)
  : BatchEntry * World :=
  match uploadToIPFS filePath (file_metadata metadata filePath) w with
  | (Returns result, w') => (uploaded_entry filePath result, w')
  | (Throws m, w') => (failed_entry filePath m, w')
  end.

(** The [for (const filePath of filePaths)] loop, [results] being the
    array built so far. *)
Fixpoint upload_loop (filePaths : list string) (metadata : Metadata)
         (results : list BatchEntry) (w : World) : list BatchEntry * World :=
  match filePaths with
  | [] => (results, w)
  | filePath :: rest =>
      let (entry, w') := upload_one filePath metadata w in
      upload_loop rest metadata (List.app results [entry]) w'
  end.

(** [uploadMultipleToIPFS(filePaths, metadata)] *)
Definition uploadMultipleToIPFS (filePaths : list string) (metadata : Metadata)
           (w : World) : outcome (list BatchEntry) * World :=
  let (results, w') := upload_loop filePaths metadata [] w in
  (Returns results, w').

(** The worlds in which the successive files are uploaded. *)
Fixpoint world_before (filePaths : list string) (metadata : Metadata)
         (w : World) (i : nat) : World :=
  match i, filePaths with
  | S j, filePath :: rest =>
      world_before rest metadata (snd (upload_one filePath metadata w)) j
  | _, _ => w
  end.

End Client.

(** [getIPFSGatewayUrl(cid)] *)
Definition getIPFSGatewayUrl (cid : option string) : option string :=
  match cid with
  | None | Some EmptyString => None
  | Some c => Some ("https://gateway.pinata.cloud/ipfs/" ++ c)
  end.

End Ipfs.

(** ** Persistent data (models/KYCRecord.js, models/User.js) *)

(** [status] of a KYC record, the enum of the schema. *)
Inductive Status : Type :=
| submitted
| ai_processing
| ai_verified
| credential_issued
| blockchain_registered
| completed
| rejected.

(** [aiVerification.status] *)
Inductive AiStatus : Type :=
| AI_pending | AI_processing | AI_verified | AI_failed.

(** The status of one step of [aiVerification.steps]. *)
Inductive StepStatus : Type :=
| step_pending | step_processing | step_completed | step_failed.

(** [kycStatus] of a user. *)
Inductive KycStatus : Type :=
| kyc_pending | kyc_in_progress | kyc_verified | kyc_rejected.

Definition Status_eqb (a b : Status) : bool :=
  match a, b with
  | submitted, submitted | ai_processing, ai_processing
  | ai_verified, ai_verified | credential_issued, credential_issued
  | blockchain_registered, blockchain_registered
  | completed, completed | rejected, rejected => true
  | _, _ => false
  end.

(** An object with the optional keys [front], [back] and [selfie]. *)
Record Triple : Type := mkTriple
  { front : option string;
    back : option string;
    selfie : option string }.

Definition no_triple : Triple := mkTriple None None None.

Record IpfsStorage : Type := mkIpfsStorage
  { ipfs_enabled : bool;
    ipfs_frontCID : option string;
    ipfs_backCID : option string;
    ipfs_selfieCID : option string;
    ipfs_frontHash : option string;
    ipfs_backHash : option string;
    ipfs_selfieHash : option string;
    ipfs_provider : option string;
    ipfs_uploadedAt : option Z;
    ipfs_gatewayUrls : Triple }.

Record Steps : Type := mkSteps
  { qualityCheck : StepStatus;
    tamperingDetection : StepStatus;
    ocrExtraction : StepStatus;
    documentValidation : StepStatus;
    faceMatching : StepStatus;
    finalDecision : StepStatus }.

Record AiVerification : Type := mkAiVerification
  { ai_status : AiStatus;
    ai_confidenceScore : option Q;
    ai_faceMatchScore : option Q;
    ai_ocrData : option string;
    ai_verifiedAt : option Z;
    ai_errors : list string;
    ai_steps : Steps }.

(** [credentialData], the attributes of the credential. *)
Record CredentialData : Type := mkCredentialData
  { cd_fullName : option string;
    cd_documentType : string;
    cd_documentNumber : string }.

(** [ariesCredential], with the four paths of the schema. The update
    objects of the controller also name [ariesCredential.mock] and
    [ariesCredential.error]; the schema declares neither, and Mongoose,
    whose schemas are strict unless told otherwise, drops such paths from
    an update: no stored record holds them. *)
Record AriesCredential : Type := mkAriesCredential
  { cred_credentialId : option string;
    cred_credentialExchangeId : option string;
    cred_issuedAt : option Z;
    cred_credentialData : option CredentialData }.

Record BlockchainVerification : Type := mkBlockchainVerification
  { transactionHash : option string;
    blockNumber : option Z;
    verificationHash : option string;
    registeredAt : option Z }.

Record KYCRecord : Type := mkKYCRecord
  { _id : string;
    userId : string;
    documentType : string;
    documentNumber : string;
    documentNumberHash : option string;
    userIdHash : option string;
    fileHashes : Triple;
    merkleRoot : option string;
    documentImages : Triple;
    ipfsStorage : IpfsStorage;
    aiVerification : AiVerification;
    ariesCredential : AriesCredential;
    blockchainVerification : BlockchainVerification;
    status : Status;
    rejectionReason : option string;
    submittedAt : Z;
    completedAt : option Z;
    meta_ipAddress : string;
    meta_userAgent : string }.

Record User : Type := mkUser
  { user_id : string;
    fullName : string;
    kycStatus : KycStatus;
    kycRecordId : option string }.

(** The schema's defaults for the sub-documents of a new record. *)
Definition default_ipfsStorage : IpfsStorage :=
  mkIpfsStorage false None None None None None None None None no_triple.

Definition default_steps : Steps :=
  mkSteps step_pending step_pending step_pending step_pending step_pending
          step_pending.

Definition default_aiVerification : AiVerification :=
  mkAiVerification AI_pending None None None None [] default_steps.

Definition default_ariesCredential : AriesCredential :=
  mkAriesCredential None None None None.

Definition default_blockchainVerification : BlockchainVerification :=
  mkBlockchainVerification None None None None.

(** *** Field updates, one per path of an update object *)

Definition set_status (s : Status) (r : KYCRecord) : KYCRecord :=
  mkKYCRecord (_id r) (userId r) (documentType r) (documentNumber r)
    (documentNumberHash r) (userIdHash r) (fileHashes r) (merkleRoot r)
    (documentImages r) (ipfsStorage r) (aiVerification r) (ariesCredential r)
    (blockchainVerification r) s (rejectionReason r) (submittedAt r)
    (completedAt r) (meta_ipAddress r) (meta_userAgent r).

Definition set_rejectionReason (x : option string) (r : KYCRecord) : KYCRecord :=
  mkKYCRecord (_id r) (userId r) (documentType r) (documentNumber r)
    (documentNumberHash r) (userIdHash r) (fileHashes r) (merkleRoot r)
    (documentImages r) (ipfsStorage r) (aiVerification r) (ariesCredential r)
    (blockchainVerification r) (status r) x (submittedAt r)
    (completedAt r) (meta_ipAddress r) (meta_userAgent r).

Definition set_completedAt (x : option Z) (r : KYCRecord) : KYCRecord :=
  mkKYCRecord (_id r) (userId r) (documentType r) (documentNumber r)
    (documentNumberHash r) (userIdHash r) (fileHashes r) (merkleRoot r)
    (documentImages r) (ipfsStorage r) (aiVerification r) (ariesCredential r)
    (blockchainVerification r) (status r) (rejectionReason r) (submittedAt r)
    x (meta_ipAddress r) (meta_userAgent r).

Definition set_ipfsStorage (x : IpfsStorage) (r : KYCRecord) : KYCRecord :=
  mkKYCRecord (_id r) (userId r) (documentType r) (documentNumber r)
    (documentNumberHash r) (userIdHash r) (fileHashes r) (merkleRoot r)
    (documentImages r) x (aiVerification r) (ariesCredential r)
    (blockchainVerification r) (status r) (rejectionReason r) (submittedAt r)
    (completedAt r) (meta_ipAddress r) (meta_userAgent r).

Definition set_aiVerification (x : AiVerification) (r : KYCRecord) : KYCRecord :=
  mkKYCRecord (_id r) (userId r) (documentType r) (documentNumber r)
    (documentNumberHash r) (userIdHash r) (fileHashes r) (merkleRoot r)
    (documentImages r) (ipfsStorage r) x (ariesCredential r)
    (blockchainVerification r) (status r) (rejectionReason r) (submittedAt r)
    (completedAt r) (meta_ipAddress r) (meta_userAgent r).

Definition set_ariesCredential (x : AriesCredential) (r : KYCRecord) : KYCRecord :=
  mkKYCRecord (_id r) (userId r) (documentType r) (documentNumber r)
    (documentNumberHash r) (userIdHash r) (fileHashes r) (merkleRoot r)
    (documentImages r) (ipfsStorage r) (aiVerification r) x
    (blockchainVerification r) (status r) (rejectionReason r) (submittedAt r)
    (completedAt r) (meta_ipAddress r) (meta_userAgent r).

Definition set_blockchainVerification (x : BlockchainVerification) (r : KYCRecord)
  : KYCRecord :=
  mkKYCRecord (_id r) (userId r) (documentType r) (documentNumber r)
    (documentNumberHash r) (userIdHash r) (fileHashes r) (merkleRoot r)
    (documentImages r) (ipfsStorage r) (aiVerification r) (ariesCredential r)
    x (status r) (rejectionReason r) (submittedAt r)
    (completedAt r) (meta_ipAddress r) (meta_userAgent r).

(** ['aiVerification.status'] *)
Definition set_ai_status (s : AiStatus) (r : KYCRecord) : KYCRecord :=
  let a := aiVerification r in
  set_aiVerification
    (mkAiVerification s (ai_confidenceScore a) (ai_faceMatchScore a)
                      (ai_ocrData a) (ai_verifiedAt a) (ai_errors a) (ai_steps a)) r.

(** ['aiVerification.errors'] *)
Definition set_ai_errors (es : list string) (r : KYCRecord) : KYCRecord :=
  let a := aiVerification r in
  set_aiVerification
    (mkAiVerification (ai_status a) (ai_confidenceScore a) (ai_faceMatchScore a)
                      (ai_ocrData a) (ai_verifiedAt a) es (ai_steps a)) r.

(** ['aiVerification.steps.qualityCheck'] *)
Definition set_ai_qualityCheck (s : StepStatus) (r : KYCRecord) : KYCRecord :=
  let a := aiVerification r in
  let st := ai_steps a in
  set_aiVerification
    (mkAiVerification (ai_status a) (ai_confidenceScore a) (ai_faceMatchScore a)
       (ai_ocrData a) (ai_verifiedAt a) (ai_errors a)
       (mkSteps s (tamperingDetection st) (ocrExtraction st)
                (documentValidation st) (faceMatching st) (finalDecision st))) r.

Definition set_kycStatus (s : KycStatus) (u : User) : User :=
  mkUser (user_id u) (fullName u) s (kycRecordId u).

(** *** The database *)

Record DB : Type := mkDB
  { records : list KYCRecord;
    users : list User }.

(** [KYCRecord.findById(id)] *)
Definition findById (db : DB) (id : string) : option KYCRecord :=
  find (fun r => String.eqb (_id r) id) (records db).

(** [User.findById(id)], what [populate('userId')] looks up. *)
Definition findUserById (db : DB) (id : string) : option User :=
  find (fun u => String.eqb (user_id u) id) (users db).

Fixpoint update_first {A : Type} (p : A -> bool) (f : A -> A) (l : list A) : list A :=
  match l with
  | [] => []
  | x :: rest => if p x then f x :: rest else x :: update_first p f rest
  end.

(** [KYCRecord.findByIdAndUpdate(id, update)] with [update] as the
    function that sets the paths of the update object. *)
Definition findByIdAndUpdate (id : string) (update : KYCRecord -> KYCRecord) (db : DB)
  : DB :=
  mkDB (update_first (fun r => String.eqb (_id r) id) update (records db))
       (users db).

(** [User.findByIdAndUpdate(id, update)] *)
Definition User_findByIdAndUpdate (id : string) (update : User -> User) (db : DB)
  : DB :=
  mkDB (records db)
       (update_first (fun u => String.eqb (user_id u) id) update (users db)).

(** [KYCRecord.create(doc)] *)
Definition KYCRecord_create (doc : KYCRecord) (db : DB) : DB :=
  mkDB (List.app (records db) [doc]) (users db).

(** A record with the user that [populate('userId')] puts in its
    [userId] field ([None]: no such user, the field is [null]). *)
Definition Populated : Type := (KYCRecord * option User)%type.

Definition populate (db : DB) (r : option KYCRecord) : option Populated :=
  match r with
  | Some rec => Some (rec, findUserById db (userId rec))
  | None => None
  end.

(** ** Ledger client (blockchainClient.js) *)

(** [blockchainData], the object the controller passes to
    [registerKYCOnBlockchain]. *)
Record BlockchainData : Type := mkBlockchainData
  { bd_documentType : string;
    bd_documentNumber : string;
    bd_documentNumberHash : option string;
    bd_userIdHash : option string;
    bd_fileHashes : Triple;
    bd_merkleRoot : option string;
    bd_aiConfidence : option Q;
    bd_faceMatchScore : option Q;
    bd_ipfsCIDs : option Triple }.

(** [hashData], the object whose JSON text is hashed into the
    verification hash. *)
Record HashData : Type := mkHashData
  { hd_userIdHash : string;
    hd_documentNumberHash : option string;
    hd_documentType : string;
    hd_timestamp : Z;
    hd_aiConfidence : Q;
    hd_faceMatchScore : Q;
    hd_ipfs : option Triple;
    hd_fileHashes : Triple;
    hd_merkleRoot : option string }.

(** The arguments of [contract.registerVerification]. *)
Record ContractCall : Type := mkContractCall
  { cc_verificationHash : string;
    cc_userId : string;
    cc_documentType : string }.

(** What the chain answers: a mined transaction, or an error with its
    [code] being ['NETWORK_ERROR'] or not. *)
Inductive ChainOutcome : Type :=
| Mined (receipt_hash : string) (receipt_blockNumber : Z) (gasUsed : string)
| ChainError (network_error : bool) (message : string).

(** What [registerKYCOnBlockchain] returns. *)
Record LedgerResult : Type := mkLedgerResult
  { lr_transactionHash : string;
    lr_blockNumber : Z;
    lr_verificationHash : string;
    lr_gasUsed : string }.

(** What the AI provider returns. *)
Record AIResult : Type := mkAIResult
  { verified : bool;
    confidenceScore : option Q;
    faceMatchScore : option Q;
    ocrData : option string;
    ai_result_errors : option (list string) }.

(** ** The environment of the controller: configuration, clock and the
       answers of the external collaborators *)

Record Env : Type := mkEnv
  { (** [Date.now()] at the [n]-th step of a run *)
    clock : nat -> Z;
    (** [fs.readFileSync(path)] *)
    readFileSync : string -> outcome string;
    (** the [_id] given to the next created record *)
    newObjectId : string;
    ipfs_config : Ipfs.Config;
    (** the pinning service named by the first argument, on a path *)
    ipfs_pin : string -> string -> outcome Ipfs.PinResult;
    (** [isDummyModeEnabled()] *)
    DUMMY_AI_VERIFICATION : bool;
    (** [verifyDocuments(documents, documentType, documentNumber)] *)
    verifyDocuments : Triple -> string -> string -> outcome AIResult;
    (** [process.env.SKIP_ARIES_CREDENTIAL === 'true'] *)
    SKIP_ARIES_CREDENTIAL : bool;
    (** [process.env.NODE_ENV === 'development'] *)
    NODE_ENV_development : bool;
    (** [createConnectionInvitation()] *)
    createConnectionInvitation : outcome unit;
    (** [initializeBlockchain()]: [Some m] when it throws *)
    initializeBlockchain_error : option string;
    (** [contract.registerVerification(...)] followed by [tx.wait()] *)
    chain : ContractCall -> ChainOutcome;
    (** [ethers.keccak256(ethers.toUtf8Bytes(JSON.stringify(hashData)))] *)
    keccak256_json : HashData -> string }.

(** A string or [undefined] is truthy when it is a non-empty string. *)
Definition truthy (o : option string) : bool := negb (falsy_opt o).

Definition keep_truthy (o : option string) : option string :=
  if truthy o then o else None.

(** The [hashData] object of [registerKYCOnBlockchain]. *)
Definition build_hashData (userId : string) (verificationData : BlockchainData)
           (timestamp : Z) : HashData :=
  mkHashData
    (or_else (bd_userIdHash verificationData) (hashUserId SHA256.sha256 userId))
    (bd_documentNumberHash verificationData)
    (bd_documentType verificationData)
    timestamp
    (or_zero (bd_aiConfidence verificationData))
    (or_zero (bd_faceMatchScore verificationData))
    (bd_ipfsCIDs verificationData)
    (bd_fileHashes verificationData)
    (keep_truthy (bd_merkleRoot verificationData)).

(** The call of the contract made by [registerKYCOnBlockchain]. *)
Definition contract_call (env : Env) (userId : string)
           (verificationData : BlockchainData) (timestamp : Z) : ContractCall :=
  mkContractCall
    (keccak256_json env (build_hashData userId verificationData timestamp))
    userId
    (or_else (Some (bd_documentType verificationData)) "national_id").

(** [registerKYCOnBlockchain(userId, verificationData)], with
    [timestamp] the value of [Date.now()]. *)
Definition registerKYCOnBlockchain (env : Env) (userId : string)
           (verificationData : BlockchainData) (timestamp : Z)
  : outcome LedgerResult :=
  match initializeBlockchain_error env with
  | Some m => Throws ("Blockchain error: " ++ m)
  | None =>
      let call := contract_call env userId verificationData timestamp in
      match chain env call with
      | Mined h b g => Returns (mkLedgerResult h b (cc_verificationHash call) g)
      | ChainError true _ => Throws "Blockchain network is not reachable"
      | ChainError false m => Throws ("Blockchain error: " ++ m)
      end
  end.

(** The calls of [contract.registerVerification] that
    [registerKYCOnBlockchain] makes: none when the initialization fails. *)
Definition contract_calls (env : Env) (userId : string)
           (verificationData : BlockchainData) (timestamp : Z) : list ContractCall :=
  match initializeBlockchain_error env with
  | Some _ => []
  | None => [contract_call env userId verificationData timestamp]
  end.

(** ** KYC controller (kycController.js): [submitKYC] *)

(** What [submitKYC] answers. *)
Inductive SubmitResponse : Type :=
| Response_400 (message : string)
| Response_in_progress (currentStatus : Status) (existing_submittedAt : Z)
                       (kycRecordId : string)
| Response_201 (kycRecordId : string) (record_status : Status)
               (record_submittedAt : Z) (record_documentType : string)
| Response_error (statusCode : nat) (message error errorType : string).

(** The arguments of the background call of [processAIVerification]. *)
Record Task : Type := mkTask
  { task_kycRecordId : string;
    task_documentImages : Triple;
    task_documentType : string;
    task_documentNumber : string }.

(** The [$in] list of the query of [submitKYC]. *)
Definition in_flight (s : Status) : bool :=
  match s with
  | submitted | ai_processing | ai_verified | credential_issued => true
  | blockchain_registered | completed | rejected => false
  end.

(** [KYCRecord.findOne({ userId, status: { $in: [...] } })] *)
Definition findOne_in_flight (db : DB) (uid : string) : option KYCRecord :=
  find (fun r => String.eqb (userId r) uid && in_flight (status r)) (records db).

(** [(now - submittedAt) / 60000] *)
Definition elapsedMinutes (now submitted : Z) : Q :=
  Qmake (now - submitted) 60000.

(** [existingKYC.status === 'ai_processing' && elapsedMinutes > 10] *)
Definition is_stuck (existing : KYCRecord) (now : Z) : bool :=
  Status_eqb (status existing) ai_processing
  && negb (Qle_bool (elapsedMinutes now (submittedAt existing)) (10 # 1)).

(** The update that auto-fails a stuck record. *)
Definition stuck_update (now : Z) (existing : KYCRecord) (r : KYCRecord) : KYCRecord :=
  set_completedAt (Some now)
    (set_rejectionReason
       (Some ("AI verification timeout after "
                ++ toFixed0 (elapsedMinutes now (submittedAt existing))
                ++ " minutes. Please resubmit."))
       (set_ai_errors ["Processing timeout - verification took too long"]
          (set_ai_status AI_failed (set_status rejected r)))).

(** [files[key][0].path]; [None] when the array is empty and reading
    [path] of [undefined] throws. *)
Definition first_path (files : Files) (key : string) : option string :=
  match files_get files key with
  | Some (f :: _) => Some (path f)
  | _ => None
  end.

(** The enum of [documentType] in the schema of a KYC record. *)
Definition schema_documentTypes : list string :=
  ["passport"; "driving_license"; "national_id"; "aadhaar"].

Definition enum_message (value : string) : string :=
  "`" ++ value ++ "` is not a valid enum value for path `documentType`.".

(** [Object.values(fileHashes)]: the keys were set in the order [front],
    [selfie], [back]. *)
Definition fileHash_values (h : Triple) : list string :=
  let opt o := match o with Some x => [x] | None => [] end in
  List.app (opt (front h)) (List.app (opt (selfie h)) (opt (back h))).

(** The part of [submitKYC] after the check of the in-flight record:
    hashing, creation of the record, update of the user. *)
Definition create_submission (env : Env) (now : Z) (uid docType docNumber : string)
           (files : Files) (req : Request) (db : DB)
  : SubmitResponse * DB * option Task :=
  match first_path files "documentImages[front]",
        first_path files "documentImages[selfie]" with
  | Some frontPath, Some selfiePath =>
      match (match files_get files "documentImages[back]" with
             | None => Returns None
             | Some (f :: _) => Returns (Some (path f))
             | Some [] => Throws "Cannot read properties of undefined (reading 'path')"
             end) with
      | Throws m => (Response_error 500 "Failed to submit KYC" m "TypeError", db, None)
      | Returns backPath =>
          let images := mkTriple (Some frontPath) backPath (Some selfiePath) in
          let numberHash :=
            hashDocumentNumber SHA256.sha256 docNumber docType in
          let uidHash := hashUserId SHA256.sha256 uid in
          let hashed :=
            match readFileSync env frontPath with
            | Throws m => Throws m
            | Returns fb =>
                match readFileSync env selfiePath with
                | Throws m => Throws m
                | Returns sb =>
                    if truthy backPath then
                      match readFileSync env (or_else backPath EmptyString) with
                      | Throws m => Throws m
                      | Returns bb =>
                          Returns (mkTriple (Some (hashFile SHA256.sha256 fb))
                                            (Some (hashFile SHA256.sha256 bb))
                                            (Some (hashFile SHA256.sha256 sb)))
                      end
                    else
                      Returns (mkTriple (Some (hashFile SHA256.sha256 fb)) None
                                        (Some (hashFile SHA256.sha256 sb)))
                end
            end in
          match hashed with
          | Throws m =>
              (Response_error 500 "Failed to submit KYC"
                              ("File hashing failed: " ++ m) "Error", db, None)
          | Returns hashes =>
              let root :=
                createMerkleRoot SHA256.sha256 (Some (fileHash_values hashes)) in
              if negb (Validation.includes schema_documentTypes docType) then
                (Response_error 400
                   ("Validation failed: " ++ enum_message docType)
                   ("KYCRecord validation failed: documentType: "
                      ++ enum_message docType)
                   "ValidationError", db, None)
              else
                let kycRecord :=
                  mkKYCRecord (newObjectId env) uid docType docNumber
                    (Some numberHash) (Some uidHash) hashes
                    (Some root) images default_ipfsStorage
                    default_aiVerification default_ariesCredential
                    default_blockchainVerification submitted None now None
                    (req_ip req) (req_user_agent req) in
                let db1 := KYCRecord_create kycRecord db in
                let db2 :=
                  User_findByIdAndUpdate uid
                    (fun u => mkUser (user_id u) (fullName u) kyc_in_progress
                                     (Some (_id kycRecord))) db1 in
                (Response_201 (_id kycRecord) (status kycRecord)
                              (submittedAt kycRecord) (documentType kycRecord),
                 db2,
                 Some (mkTask (_id kycRecord) images docType docNumber))
          end
      end
  | _, _ =>
      (Response_error 500 "Failed to submit KYC"
                      "Cannot read properties of undefined (reading 'path')"
                      "TypeError", db, None)
  end.

(** [submitKYC(req, res)], with [now] the clock at the time of the
    request. The result is the response, the database it leaves and the
    background task it starts. The function is one call from its first
    line to its answer, with nothing running between its awaits;
    [Submit.step] below is the call between its awaits. *)
Definition submitKYC (env : Env) (now : Z) (req : Request) (db : DB)
  : SubmitResponse * DB * option Task :=
  let uid := req_user_id req in
  match body_documentType req, body_documentNumber req with
  | Some (String c1 s1 as docType), Some (String c2 s2 as docNumber) =>
      match req_files req with
      | None => (Response_400 "Please upload ID front image and selfie", db, None)
      | Some files =>
          match files_get files "documentImages[front]",
                files_get files "documentImages[selfie]" with
          | Some _, Some _ =>
              match findOne_in_flight db uid with
              | Some existingKYC =>
                  if is_stuck existingKYC now then
                    create_submission env now uid docType docNumber files req
                      (findByIdAndUpdate (_id existingKYC)
                                         (stuck_update now existingKYC) db)
                  else
                    (Response_in_progress (status existingKYC)
                                          (submittedAt existingKYC)
                                          (_id existingKYC), db, None)
              | None =>
                  create_submission env now uid docType docNumber files req db
              end
          | _, _ =>
              (Response_400 "Please upload ID front image and selfie", db, None)
          end
      end
  | _, _ => (Response_400 "Please provide document type and number", db, None)
  end.

(** ** KYC controller: the background pipeline

    [processAIVerification], [issueAriesCredential] and
    [registerOnBlockchain] are asynchronous: they run until an [await],
    are suspended there, and are resumed later. The pipeline is a machine
    whose state says at which [await] it is suspended; one step resumes
    it and runs it to the next [await]. The database operation or the
    external call of an [await] takes effect when it is issued. The
    callback of [setTimeout] is a second, smaller machine; its steps
    interleave with those of the pipeline.

    The database itself is taken to answer every operation; the calls of
    [performanceTracker] and of the loggers change no record and are left
    out (their [await]s are kept as suspension points). *)

(** [ipfsData]: the upload results of the three images. *)
Record IpfsData : Type := mkIpfsData
  { d_front : option Ipfs.BatchEntry;
    d_back : option Ipfs.BatchEntry;
    d_selfie : option Ipfs.BatchEntry }.

(** [ipfsResults.find(r => r.filePath === p)] *)
Definition find_result (results : list Ipfs.BatchEntry) (p : option string)
  : option Ipfs.BatchEntry :=
  match p with
  | Some p' => find (fun r => String.eqb (Ipfs.filePath r) p') results
  | None => None
  end.

(** [x?.cid] and the like *)
Definition opt_field {A B : Type} (f : A -> option B) (x : option A) : option B :=
  match x with Some a => f a | None => None end.

(** Calls that leave the controller. *)
Inductive ExternalCall : Type :=
| Call_uploadMultipleToIPFS (filePaths : list string)
| Call_verifyDocuments (documents : Triple) (docType docNumber : string)
| Call_createConnectionInvitation
| Call_registerKYCOnBlockchain (uid : string) (payload : BlockchainData)
| Call_registerVerification (call : ContractCall).

Inductive Timer : Type :=
| timer_unset | timer_armed | timer_cleared | timer_fired.

(** [clearTimeout(timeoutId)] *)
Definition clearTimeout (t : Timer) : Timer :=
  match t with
  | timer_armed => timer_cleared
  | other => other
  end.

(** Where the pipeline is suspended. *)
Inductive PC : Type :=
| P_start
| P_set_processing
| P_ipfs (ipfsResults : list Ipfs.BatchEntry)
| P_set_quality (ipfsData : IpfsData)
| P_ai (ipfsData : IpfsData) (aiResult : outcome AIResult)
| P_save_ai (aiResult : AIResult) (kycRecord : option Populated)
| P_user_rejected
| P_catch_endSession (message : string)
| P_catch_update
| A_mock_update
| A_invitation (kycRecord : KYCRecord) (user : option User)
| A_real_update
| A_fallback_update
| A_failed_update
| B_find (kycRecord : option Populated)
| B_register (user : User) (blockchainResult : outcome LedgerResult)
| B_completed_update (user : User)
| B_user_verified
| B_endSession
| B_catch_endSession (message : string)
| B_catch_update
| P_done.

(** Where the callback of the timer is suspended. *)
Inductive HandlerPC : Type :=
| H_idle
| H_await_write
| H_await_find (kycRecord : option Populated)
| H_await_user
| H_await_endSession
| H_done.

Record Machine : Type := mkMachine
  { m_db : DB;
    m_timer : Timer;
    m_handler : HandlerPC;
    m_pc : PC;
    m_calls : list ExternalCall;
    m_ticks : nat }.

(** The machine when [submitKYC] has just called [processAIVerification]. *)
Definition start_machine (db : DB) : Machine :=
  mkMachine db timer_unset H_idle P_start [] 0.

(** *** The update objects of the pipeline *)

(** The update of the timer's callback. *)
Definition timeout_update (now : Z) (r : KYCRecord) : KYCRecord :=
  set_completedAt (Some now)
    (set_rejectionReason
       (Some "AI verification timeout. The verification process took too long. Please try again with clearer images.")
       (set_ai_errors
          ["Processing timeout - AI verification exceeded maximum time limit"]
          (set_ai_status AI_failed (set_status rejected r)))).

Definition processing_update (r : KYCRecord) : KYCRecord :=
  set_ai_status AI_processing (set_status ai_processing r).

Definition quality_update (r : KYCRecord) : KYCRecord :=
  set_ai_qualityCheck step_processing
    (set_ai_status AI_processing (set_status ai_processing r)).

Definition all_steps_completed : Steps :=
  mkSteps step_completed step_completed step_completed step_completed
          step_completed step_completed.

(** [updateData], written after the AI provider has answered. *)
Definition ai_update (now : Z) (aiResult : AIResult) (d : IpfsData) (r : KYCRecord)
  : KYCRecord :=
  let frontCID := opt_field Ipfs.e_cid (d_front d) in
  let backCID := opt_field Ipfs.e_cid (d_back d) in
  let selfieCID := opt_field Ipfs.e_cid (d_selfie d) in
  set_ipfsStorage
    (mkIpfsStorage (truthy frontCID) frontCID backCID selfieCID
       (opt_field Ipfs.e_fileHash (d_front d))
       (opt_field Ipfs.e_fileHash (d_back d))
       (opt_field Ipfs.e_fileHash (d_selfie d))
       (opt_field Ipfs.e_provider (d_front d))
       (Some now)
       (mkTriple (Ipfs.getIPFSGatewayUrl frontCID)
                 (Ipfs.getIPFSGatewayUrl backCID)
                 (Ipfs.getIPFSGatewayUrl selfieCID)))
    (set_rejectionReason
       (if verified aiResult then None else Some "AI verification failed")
       (set_aiVerification
          (mkAiVerification
             (if verified aiResult then AI_verified else AI_failed)
             (confidenceScore aiResult) (faceMatchScore aiResult)
             (ocrData aiResult) (Some now)
             (match ai_result_errors aiResult with Some es => es | None => [] end)
             all_steps_completed)
          (set_status (if verified aiResult then ai_verified else rejected) r))).

(** The update of the [catch] of [processAIVerification]. *)
Definition ai_error_update (message : string) (r : KYCRecord) : KYCRecord :=
  set_rejectionReason (Some ("AI verification error: " ++ message))
    (set_ai_errors [message]
       (set_ai_status AI_failed (set_status rejected r))).

Definition credential_ids (now : Z) : string * string :=
  ("cred-" ++ string_of_Z now, "cred-ex-" ++ string_of_Z now).

(** [credentialData] of [issueAriesCredential]. *)
Definition credentialData_of (kycRecord : KYCRecord) (user : User) : CredentialData :=
  mkCredentialData (Some (fullName user)) (documentType kycRecord)
                   (documentNumber kycRecord).

(** The update that records an issued credential. What is stored is
    the same for the development credential and for the one of the Aries
    flow: the path [ariesCredential.mock] of the former is not a path of
    the schema. *)
Definition credential_update (now : Z) (data : CredentialData) (r : KYCRecord)
  : KYCRecord :=
  set_ariesCredential
    (mkAriesCredential (Some (fst (credential_ids now)))
                       (Some (snd (credential_ids now)))
                       (Some now) (Some data))
    (set_status credential_issued r).

(** The update of the [catch] of [issueAriesCredential] in development;
    of its paths, [ariesCredential.error] and [ariesCredential.mock] are
    not paths of the schema and are not stored. *)
Definition credential_fallback_update (now : Z) (r : KYCRecord) : KYCRecord :=
  set_ariesCredential
    (mkAriesCredential (Some (fst (credential_ids now)))
                       (Some (snd (credential_ids now)))
                       (Some now)
                       (cred_credentialData (ariesCredential r)))
    (set_status credential_issued r).

(** The update of the [catch] of [issueAriesCredential] in production. *)
Definition credential_failed_update (message : string) (r : KYCRecord) : KYCRecord :=
  set_rejectionReason (Some ("Credential issuance failed: " ++ message))
    (set_status ai_verified r).

(** [blockchainData] of [registerOnBlockchain]. *)
Definition blockchainData_of (kycRecord : KYCRecord) : BlockchainData :=
  mkBlockchainData
    (documentType kycRecord)
    (documentNumber kycRecord)
    (documentNumberHash kycRecord)
    (userIdHash kycRecord)
    (fileHashes kycRecord)
    (merkleRoot kycRecord)
    (ai_confidenceScore (aiVerification kycRecord))
    (ai_faceMatchScore (aiVerification kycRecord))
    (if ipfs_enabled (ipfsStorage kycRecord)
     then Some (mkTriple (ipfs_frontCID (ipfsStorage kycRecord))
                         (ipfs_backCID (ipfsStorage kycRecord))
                         (ipfs_selfieCID (ipfsStorage kycRecord)))
     else None).

(** The update after a successful registration. *)
Definition completed_update (now : Z) (res : LedgerResult) (r : KYCRecord) : KYCRecord :=
  set_completedAt (Some now)
    (set_blockchainVerification
       (mkBlockchainVerification (Some (lr_transactionHash res))
                                 (Some (lr_blockNumber res))
                                 (Some (lr_verificationHash res))
                                 (Some now))
       (set_status completed r)).

(** The update of the [catch] of [registerOnBlockchain]. *)
Definition blockchain_failed_update (message : string) (r : KYCRecord) : KYCRecord :=
  set_rejectionReason (Some ("Blockchain registration failed: " ++ message))
    (set_status credential_issued r).

(** What [performDummyAIVerification] returns. *)
Definition dummy_result : AIResult :=
  mkAIResult true (Some (955 # 1000)%Q) (Some (923 # 1000)%Q)
             (Some "dummy") (Some []).

(** *** The steps of the pipeline *)

Section Steps.

Variable env : Env.
Variable task : Task.

Definition with_pc (pc : PC) (m : Machine) : Machine :=
  mkMachine (m_db m) (m_timer m) (m_handler m) pc (m_calls m) (S (m_ticks m)).

Definition with_db (db : DB) (m : Machine) : Machine :=
  mkMachine db (m_timer m) (m_handler m) (m_pc m) (m_calls m) (m_ticks m).

Definition with_timer (t : Timer) (m : Machine) : Machine :=
  mkMachine (m_db m) t (m_handler m) (m_pc m) (m_calls m) (m_ticks m).

Definition with_handler (h : HandlerPC) (m : Machine) : Machine :=
  mkMachine (m_db m) (m_timer m) h (m_pc m) (m_calls m) (S (m_ticks m)).

Definition log_calls (cs : list ExternalCall) (m : Machine) : Machine :=
  mkMachine (m_db m) (m_timer m) (m_handler m) (m_pc m)
            (List.app (m_calls m) cs) (m_ticks m).

(** [Date.now()] during the step that [m] is about to take. *)
Definition now (m : Machine) : Z := clock env (m_ticks m).

(** [KYCRecord.findByIdAndUpdate(kycRecordId, update)] *)
Definition write (update : KYCRecord -> KYCRecord) (m : Machine) : Machine :=
  with_db (findByIdAndUpdate (task_kycRecordId task) update (m_db m)) m.

(** [KYCRecord.findById(kycRecordId).populate('userId')] *)
Definition read_populated (m : Machine) : option Populated :=
  populate (m_db m) (findById (m_db m) (task_kycRecordId task)).

(** [uploadMultipleToIPFS(filesToUpload, metadata)], which always
    returns the array built by its loop. The IPFS client sees the file
    system and the pinning services of [env]; its world is the list of
    the paths handed to a pinning service. *)
Definition ipfs_upload (filePaths : list string) (metadata : Ipfs.Metadata)
  : list Ipfs.BatchEntry :=
  fst (Ipfs.upload_loop (list string)
         (fun _ p => readFileSync env p)
         (fun provider p _ w => (ipfs_pin env provider p, List.app w [p]))
         SHA256.sha256 (ipfs_config env) filePaths metadata [] []).

(** [filesToUpload] *)
Definition filesToUpload (images : Triple) : list string :=
  let opt o := match keep_truthy o with Some x => [x] | None => [] end in
  List.app (opt (front images)) (List.app (opt (back images)) (opt (selfie images))).

(** The [catch] of [processAIVerification] up to its first [await]. *)
Definition enter_catch (message : string) (m : Machine) : Machine :=
  with_pc (P_catch_endSession message) (with_timer (clearTimeout (m_timer m)) m).

(** [registerOnBlockchain(kycRecordId)] up to its first [await]. *)
Definition enter_registerOnBlockchain (m : Machine) : Machine :=
  with_pc (B_find (read_populated m)) m.

(** The [catch] of [issueAriesCredential] up to its first [await]. *)
Definition aries_catch (message : string) (m : Machine) : Machine :=
  if NODE_ENV_development env
  then with_pc A_fallback_update
               (write (credential_fallback_update (now m)) m)
  else with_pc A_failed_update (write (credential_failed_update message) m).

(** [issueAriesCredential(kycRecord)] up to its first [await]. *)
Definition enter_issueAriesCredential (kycRecord : option Populated) (m : Machine)
  : Machine :=
  match kycRecord with
  | None => enter_catch "Cannot read properties of null (reading '_id')" m
  | Some (rec, user) =>
      if SKIP_ARIES_CREDENTIAL env || NODE_ENV_development env then
        match user with
        | None => aries_catch "Cannot read properties of null (reading 'fullName')" m
        | Some u =>
            with_pc A_mock_update
              (write (credential_update (now m) (credentialData_of rec u)) m)
        end
      else
        with_pc (A_invitation rec user) (log_calls [Call_createConnectionInvitation] m)
  end.

(** The [catch] of [registerOnBlockchain] up to its first [await]. *)
Definition blockchain_catch (message : string) (m : Machine) : Machine :=
  with_pc (B_catch_endSession message) m.

(** One step of the pipeline: resume it where it is suspended and run
    it to its next [await]. *)
Definition pipeline_step (m : Machine) : Machine :=
  match m_pc m with
  | P_start =>
      with_pc P_set_processing (write processing_update (with_timer timer_armed m))
  | P_set_processing =>
      let paths := filesToUpload (task_documentImages task) in
      let metadata :=
        Ipfs.mkMetadata (task_kycRecordId task) (task_documentType task)
                        (now m) None in
      with_pc (P_ipfs (ipfs_upload paths metadata))
              (log_calls [Call_uploadMultipleToIPFS paths] m)
  | P_ipfs ipfsResults =>
      let images := task_documentImages task in
      let ipfsData :=
        mkIpfsData (find_result ipfsResults (front images))
                   (find_result ipfsResults (back images))
                   (find_result ipfsResults (selfie images)) in
      with_pc (P_set_quality ipfsData) (write quality_update m)
  | P_set_quality ipfsData =>
      if DUMMY_AI_VERIFICATION env then
        with_pc (P_ai ipfsData (Returns dummy_result)) m
      else
        with_pc (P_ai ipfsData
                      (verifyDocuments env (task_documentImages task)
                                       (task_documentType task)
                                       (task_documentNumber task)))
                (log_calls [Call_verifyDocuments (task_documentImages task)
                                                 (task_documentType task)
                                                 (task_documentNumber task)] m)
  | P_ai ipfsData (Throws message) => enter_catch message m
  | P_ai ipfsData (Returns aiResult) =>
      let m' := write (ai_update (now m) aiResult ipfsData) m in
      with_pc (P_save_ai aiResult (read_populated m')) m'
  | P_save_ai aiResult kycRecord =>
      let m' := with_timer (clearTimeout (m_timer m)) m in
      if verified aiResult then enter_issueAriesCredential kycRecord m'
      else
        match kycRecord with
        | None => enter_catch "Cannot read properties of null (reading 'userId')" m'
        | Some (_, None) =>
            enter_catch "Cannot read properties of null (reading '_id')" m'
        | Some (_, Some u) =>
            with_pc P_user_rejected
              (with_db (User_findByIdAndUpdate (user_id u)
                          (set_kycStatus kyc_rejected) (m_db m')) m')
        end
  | P_user_rejected => with_pc P_done m
  | P_catch_endSession message =>
      with_pc P_catch_update (write (ai_error_update message) m)
  | P_catch_update => with_pc P_done m
  | A_mock_update => enter_registerOnBlockchain m
  | A_invitation rec user =>
      match createConnectionInvitation env with
      | Throws message => aries_catch message m
      | Returns _ =>
          match user with
          | None =>
              aries_catch "Cannot read properties of null (reading 'fullName')" m
          | Some u =>
              with_pc A_real_update
                (write (credential_update (now m) (credentialData_of rec u)) m)
          end
      end
  | A_real_update => enter_registerOnBlockchain m
  | A_fallback_update => enter_registerOnBlockchain m
  | A_failed_update => with_pc P_done m
  | B_find None =>
      blockchain_catch "Cannot read properties of null (reading 'documentType')" m
  | B_find (Some (_, None)) =>
      blockchain_catch "Cannot read properties of null (reading '_id')" m
  | B_find (Some (rec, Some u)) =>
      let blockchainData := blockchainData_of rec in
      with_pc (B_register u
                 (registerKYCOnBlockchain env (user_id u) blockchainData (now m)))
        (log_calls
           (Call_registerKYCOnBlockchain (user_id u) blockchainData
              :: map Call_registerVerification
                     (contract_calls env (user_id u) blockchainData (now m)))
           m)
  | B_register u (Returns blockchainResult) =>
      with_pc (B_completed_update u)
              (write (completed_update (now m) blockchainResult) m)
  | B_register u (Throws message) => blockchain_catch message m
  | B_completed_update u =>
      with_pc B_user_verified
        (with_db (User_findByIdAndUpdate (user_id u) (set_kycStatus kyc_verified)
                                         (m_db m)) m)
  | B_user_verified => with_pc B_endSession m
  | B_endSession => with_pc P_done m
  | B_catch_endSession message =>
      with_pc B_catch_update (write (blockchain_failed_update message) m)
  | B_catch_update => with_pc P_done m
  | P_done => m
  end.

(** The pipeline run for [n] steps, the timer never firing. *)
Fixpoint run_pipeline (n : nat) (m : Machine) : Machine :=
  match n with
  | O => m
  | S k => run_pipeline k (pipeline_step m)
  end.

(** No path through the pipeline has more [await]s than this. *)
Definition enough_steps : nat := 16.

(** *** The timer *)

(** The timer fires: its callback runs to its first [await], the
    unconditional update of the record. *)
Definition timer_fires (m : Machine) : option Machine :=
  match m_timer m with
  | timer_armed =>
      Some (with_handler H_await_write
              (write (timeout_update (now m)) (with_timer timer_fired m)))
  | _ => None
  end.

(** One step of the callback. *)
Definition handler_step (m : Machine) : option Machine :=
  match m_handler m with
  | H_await_write => Some (with_handler (H_await_find (read_populated m)) m)
  | H_await_find (Some (_, Some u)) =>
      Some (with_handler H_await_user
              (with_db (User_findByIdAndUpdate (user_id u)
                          (set_kycStatus kyc_rejected) (m_db m)) m))
  | H_await_find (Some (_, None)) => Some (with_handler H_done m)
  | H_await_find None => Some (with_handler H_await_endSession m)
  | H_await_user => Some (with_handler H_await_endSession m)
  | H_await_endSession => Some (with_handler H_done m)
  | H_idle | H_done => None
  end.

(** What the event loop may run next. *)
Inductive Event : Type :=
| ev_pipeline
| ev_timer
| ev_handler.

Definition pipeline_running (m : Machine) : bool :=
  match m_pc m with P_done => false | _ => true end.

(** One event; [None] when the event cannot happen in [m]. *)
Definition exec (m : Machine) (e : Event) : option Machine :=
  match e with
  | ev_pipeline => if pipeline_running m then Some (pipeline_step m) else None
  | ev_timer => timer_fires m
  | ev_handler => handler_step m
  end.

(** A schedule of events, from left to right. *)
Fixpoint run_schedule (m : Machine) (es : list Event) : option Machine :=
  match es with
  | [] => Some m
  | e :: rest =>
      match exec m e with
      | Some m' => run_schedule m' rest
      | None => None
      end
  end.

End Steps.

(** The status of the task's record in a machine. *)
Definition record_status (task : Task) (m : Machine) : option Status :=
  option_map status (findById (m_db m) (task_kycRecordId task)).

(** ** The submission route (routes/kycRoutes.js)

    [router.post('/submit', protect, uploadKYCDocuments,
    sanitizeFileMetadata, validateKYCSubmission, submitKYC)]: the request
    is the one left by [protect] and [uploadKYCDocuments]. *)

Inductive RouteResponse : Type :=
| Validation_response (r : Validation.ErrorResponse)
| Submit_response (r : SubmitResponse).

Definition submit_route (extnameLower : string -> string) (env : Env) (now : Z)
           (req : Request) (db : DB) : RouteResponse * DB * option Task :=
  let req' := Validation.sanitizeFileMetadata req in
  match Validation.validateKYCSubmission extnameLower req' with
  | inl response => (Validation_response response, db, None)
  | inr _ =>
      let '(response, db', task) := submitKYC env now req' db in
      (Submit_response response, db', task)
  end.

(** ** The invalid submissions, in the words of the specification *)

(** A required image is missing: no file was uploaded for the field. *)
Definition file_missing (files : option Files) (field : string) : bool :=
match files with
| None => true
| Some fs =>
    match files_get fs ("documentImages[" ++ field ++ "]") with
    | None | Some [] => true
    | Some (_ :: _) => false
    end
end.

(** The document type is not a recognized one, or the document number
    does not match the pattern of the type, or an image the type requires
    is missing. *)
Definition invalid_submission (req : Request) : bool :=
match body_documentType req with
| None => true
| Some t =>
    match Validation.rules_get Validation.DOCUMENT_RULES t with
    | None => true
    | Some rules =>
        match body_documentNumber req with
        | None => true
        | Some n => negb (Validation.numberPattern rules n)
        end
        || existsb (file_missing (req_files req)) (Validation.requiredFields rules)
    end
end.

(** ** Program points of the pipeline *)

(** The pipeline is suspended between [setTimeout] and [clearTimeout]:
    the only program points at which the timer can be armed. *)
Definition timer_window (pc : PC) : bool :=
match pc with
| P_set_processing | P_ipfs _ | P_set_quality _ | P_ai _ _ | P_save_ai _ _ => true
| _ => false
end.

(** The pipeline has issued the update to [completed]. *)
Definition after_completion (pc : PC) : bool :=
match pc with
| B_completed_update _ | B_user_verified | B_endSession | P_done => true
| _ => false
end.

(** The record of the task is in the database. *)
Definition record_exists (task : Task) (m : Machine) : Prop :=
exists r, findById (m_db m) (task_kycRecordId task) = Some r.

(** What holds of every machine reached from the start: the record is
    there; the timer is armed only inside its window; and when the
    pipeline has just issued the update to [completed], the record is
    [completed]. *)
Definition invariant (task : Task) (m : Machine) : Prop :=
record_exists task m
/\ (m_timer m = timer_armed -> timer_window (m_pc m) = true)
/\ (forall u, m_pc m = B_completed_update u ->
              record_status task m = Some completed).

(** Once [completed] is written nothing writes the status again: the
    pipeline only updates the user and the timer can no longer fire. *)
Definition settled (task : Task) (m : Machine) : Prop :=
after_completion (m_pc m) = true
/\ m_timer m <> timer_armed
/\ record_status task m = Some completed.

(** An upper bound of the number of resumptions the pipeline still
    needs at a program point. *)
Definition remaining_steps (pc : PC) : nat :=
match pc with
| P_start => 13
| P_set_processing => 12
| P_ipfs _ => 11
| P_set_quality _ => 10
| P_ai _ _ => 9
| P_save_ai _ _ => 8
| A_invitation _ _ => 7
| A_mock_update | A_real_update | A_fallback_update => 6
| B_find _ => 5
| B_register _ _ => 4
| B_completed_update _ => 3
| B_user_verified => 2
| B_endSession => 1
| B_catch_endSession _ => 2
| B_catch_update => 1
| P_catch_endSession _ => 2
| P_catch_update => 1
| P_user_rejected => 1
| A_failed_update => 1
| P_done => 0
end.

(** ** Credential offer (ariesClient.js) *)

(** The attributes of the credential preview that [issueKYCCredential]
    sends to the Aries agent, [verificationDate] being the time of the
    call. *)
Definition issueKYCCredential_attributes (data : CredentialData)
           (verificationDate : string) : list (string * option string) :=
[ ("fullName", cd_fullName data);
  ("documentType", Some (cd_documentType data));
  ("documentNumber", Some (cd_documentNumber data));
  ("verificationDate", Some verificationDate);
  ("verificationStatus", Some "verified");
  ("issuer", Some "Bharosa KYC System") ].

(** A payload with another value in its [documentNumber] field. *)
Definition with_documentNumber (plaintext : string) (p : BlockchainData)
  : BlockchainData :=
mkBlockchainData (bd_documentType p) plaintext (bd_documentNumberHash p)
                 (bd_userIdHash p) (bd_fileHashes p) (bd_merkleRoot p)
                 (bd_aiConfidence p) (bd_faceMatchScore p) (bd_ipfsCIDs p).

(** The payloads handed to the ledger client in a list of calls. *)
Fixpoint ledger_payloads (calls : list ExternalCall) : list BlockchainData :=
match calls with
| [] => []
| Call_registerKYCOnBlockchain _ payload :: rest => payload :: ledger_payloads rest
| _ :: rest => ledger_payloads rest
end.

(** A call of the credential issuer or of the ledger. *)
Definition issuer_or_ledger_call (c : ExternalCall) : bool :=
match c with
| Call_createConnectionInvitation
| Call_registerKYCOnBlockchain _ _
| Call_registerVerification _ => true
| Call_uploadMultipleToIPFS _ | Call_verifyDocuments _ _ _ => false
end.

(** ** Sample data: a user, requests and stub collaborators *)

Module Sample.

Definition alice : User := mkUser "u1" "Alice" kyc_pending None.

Definition image (p : string) : UploadedFile :=
mkUploadedFile p 1000 "image/jpeg" "photo.jpg".

Definition two_images : Files :=
[ ("documentImages[front]", [image "/uploads/front.jpg"]);
  ("documentImages[selfie]", [image "/uploads/selfie.jpg"]) ].

(** An aadhaar submission with a front image and a selfie. *)
Definition request : Request :=
mkRequest "u1" (Some "aadhaar") (Some "123456789012") (Some two_images)
          "10.0.0.1" "agent".

(** The same submission with a document type that is not recognized. *)
Definition bad_type_request : Request :=
mkRequest "u1" (Some "voter_id") (Some "123456789012") (Some two_images)
          "10.0.0.1" "agent".

(** Stub collaborators: the files can be read, the pinning service
    answers, and the AI provider and the chain answer as told. *)
Definition env (ai : outcome AIResult) (ch : ChainOutcome) : Env :=
mkEnv (fun n => (1700000000000 + Z.of_nat n)%Z)
      (fun p => Returns ("bytes of " ++ p))
      "rec2"
      (Ipfs.mkConfig "pinata" true true)
      (fun _ p => Returns (Ipfs.mkPinResult (Some ("cid-of-" ++ p)) 1000 "t"))
      false
      (fun _ _ _ => ai)
      true
      false
      (Returns tt)
      None
      (fun _ => ch)
      (fun h => "0xhash-of-" ++ hd_userIdHash h).

Definition ai_pass : outcome AIResult :=
Returns (mkAIResult true (Some (95 # 100)%Q) (Some (92 # 100)%Q) None (Some [])).

Definition ai_fail : outcome AIResult :=
Returns (mkAIResult false (Some (40 # 100)%Q) (Some (30 # 100)%Q) None
                    (Some ["face mismatch"])).

Definition ai_down : outcome AIResult := Throws "AI service error: unavailable".

Definition mined : ChainOutcome := Mined "0xabc" 42 "21000".

Definition chain_down : ChainOutcome := ChainError true "could not detect network".

(** A record of user [u1] with the given status, submitted at time 0. *)
Definition record (id : string) (s : Status) : KYCRecord :=
mkKYCRecord id "u1" "aadhaar" "123456789012"
  (Some (hashDocumentNumber SHA256.sha256 "123456789012" "aadhaar"))
  (Some (hashUserId SHA256.sha256 "u1"))
  (mkTriple (Some "f1") None (Some "f2")) (Some "root")
  (mkTriple (Some "/uploads/front.jpg") None (Some "/uploads/selfie.jpg"))
  default_ipfsStorage default_aiVerification default_ariesCredential
  default_blockchainVerification s None 0 None "10.0.0.1" "agent".

Definition db_with (r : KYCRecord) : DB := mkDB [r] [alice].

Definition task : Task :=
mkTask "rec1" (documentImages (record "rec1" submitted)) "aadhaar" "123456789012".

(** Eleven minutes, in milliseconds. *)
Definition eleven_minutes : Z := 660000.

End Sample.

(** ** Integrity proofs (hashUtils.js) *)

(** The values of the properties of a data object: a proof object
    [{ hash, timestamp, algorithm }], or any other value, of which only
    the truthiness matters here (it has no [hash] property). *)
Inductive JsValue : Type :=
| js_proof (hash : string) (timestamp : Z) (algorithm : string)
| js_other (truthy_value : bool) (text : string).

(** An object: its own properties in their order, each key once. *)
Definition JsObject : Type := list (string * JsValue).

(** [o[key]] *)
Fixpoint obj_get (o : JsObject) (key : string) : option JsValue :=
match o with
| [] => None
| (k, v) :: rest => if String.eqb k key then Some v else obj_get rest key
end.

Definition has_key (o : JsObject) (key : string) : bool :=
match obj_get o key with Some _ => true | None => false end.

(** [{ ...o, key: v }]: the property keeps its place when [o] has it and
    is added at the end otherwise. *)
Fixpoint obj_set (key : string) (v : JsValue) (o : JsObject) : JsObject :=
match o with
| [] => [(key, v)]
| (k, v') :: rest =>
    if String.eqb k key then (k, v) :: rest else (k, v') :: obj_set key v rest
end.

(** [const { key, ...rest } = o]: [rest]. *)
Definition obj_without (key : string) (o : JsObject) : JsObject :=
filter (fun kv => negb (String.eqb (fst kv) key)) o.

Section Integrity.

Variable sha256 : string -> string.

(** [JSON.stringify] on objects. *)
Variable JSON_stringify : JsObject -> string.

(** [addIntegrityProof(data)], [timestamp] being [Date.now()]. *)
Definition addIntegrityProof (data : JsObject) (timestamp : Z) : JsObject :=
  let dataString := JSON_stringify data in
  let hash := sha256 dataString in
  obj_set "_proof" (js_proof hash timestamp "SHA-256") data.

(** [verifyIntegrity(dataWithProof)] *)
Definition verifyIntegrity (dataWithProof : JsObject) : bool :=
  match obj_get dataWithProof "_proof" with
  | None => false
  | Some (js_other false _) => false
  | Some (js_other true _) => false
  | Some (js_proof hash _ _) =>
      let data := obj_without "_proof" dataWithProof in
      let dataString := JSON_stringify data in
      let calculatedHash := sha256 dataString in
      String.eqb calculatedHash hash
  end.

(** [hashPII(data, salt)] *)
Definition hashPII (data salt : string) : string := sha256 (data ++ salt).

End Integrity.

(** The texts that one level of [createMerkleRoot] hashes: [left + right]
    for each pair, the last hash being paired with itself on a level of
    odd length. *)
Fixpoint pair_texts (hashes : list string) : list string :=
  match hashes with
  | [] => []
  | [l] => [l ++ l]
  | l :: r :: rest => (l ++ or_else (Some r) l) :: pair_texts rest
  end.

(** The texts hashed on the way to the root, [depth] levels deep; the
    length of the list is depth enough. *)
Fixpoint hashed_texts (sha256 : string -> string) (depth : nat)
         (hashes : list string) : list string :=
  match depth, hashes with
  | S d, _ :: _ :: _ =>
      List.app (pair_texts hashes) (hashed_texts sha256 d (newLevel sha256 hashes))
  | _, _ => []
  end.

(** A collision between the two computations: two different texts with
    the same hash, one hashed on the way to the root of [l1] and the
    other on the way to the root of [l2]. *)
Definition collision_between (sha256 : string -> string) (l1 l2 : list string)
  : Prop :=
  exists x y,
    In x (hashed_texts sha256 (List.length l1) l1)
    /\ In y (hashed_texts sha256 (List.length l2) l2)
    /\ x <> y /\ sha256 x = sha256 y.

(** A hash function of the shape of SHA-256, with values of one length,
    that is easy to collide: the first character of the text. *)
Definition first_char_hash (s : string) : string :=
  match s with
  | EmptyString => "0"
  | String c _ => String c EmptyString
  end.

(** [ENABLE_IPFS && !FALLBACK_TO_LOCAL]: the configuration in which a
    failure of a pinning service is thrown to the caller. *)
Definition ENABLE_IPFS_and_no_fallback (config : Ipfs.Config) : bool :=
  Ipfs.ENABLE_IPFS config && negb (Ipfs.FALLBACK_TO_LOCAL config).

(** ** What the pipeline leaves alone *)

(** What [submitKYC] wrote on a record and no update object of the
    pipeline, of the timer or of the stuck-record repair names. *)
Definition submission_data (r : KYCRecord) :=
  (_id r, userId r, documentType r, documentNumber r, documentNumberHash r,
   userIdHash r, fileHashes r, merkleRoot r, documentImages r, submittedAt r,
   meta_ipAddress r, meta_userAgent r).

(** What no update of a user by the pipeline names. *)
Definition user_identity (u : User) := (user_id u, fullName u, kycRecordId u).

(** [db'] differs from [db] at most in the pipeline's fields of the
    record [tid] and in the [kycStatus] of users. *)
Definition frame (tid : string) (db db' : DB) : Prop :=
  map submission_data (records db') = map submission_data (records db)
  /\ (forall id, String.eqb tid id = false -> findById db' id = findById db id)
  /\ map user_identity (users db') = map user_identity (users db).

(** ** Runs of the pipeline *)

(** What the AI stage is answered: the dummy verdict in dummy mode, the
    answer of the provider otherwise. *)
Definition ai_answer (env : Env) (task : Task) : outcome AIResult :=
  if DUMMY_AI_VERIFICATION env then Returns dummy_result
  else verifyDocuments env (task_documentImages task) (task_documentType task)
                       (task_documentNumber task).

(** The record [tid] is in the collection and its owner is found. *)
Definition present (db : DB) (tid : string) (r : KYCRecord) (u : User) : Prop :=
  findById db tid = Some r /\ findUserById db (userId r) = Some u.

(** The reason the callback of the timer writes. *)
Definition timeout_reason : string :=
  "AI verification timeout. The verification process took too long. Please try again with clearer images.".

(** The timer fires while the update that stores the verdict is awaited:
    five resumptions of the pipeline, the timer, the rest of the pipeline,
    then the callback of the timer. *)
Definition race_schedule : list Event :=
  List.app (repeat ev_pipeline 5)
    (ev_timer :: List.app (repeat ev_pipeline 7) (repeat ev_handler 4)).

(** ** Observations on a submission *)

Definition is_201 (r : SubmitResponse) : bool :=
  match r with Response_201 _ _ _ _ => true | _ => false end.

(** The records of a user that the query of [submitKYC] matches. *)
Definition in_flight_records (db : DB) (uid : string) : list KYCRecord :=
  filter (fun r => String.eqb (userId r) uid && in_flight (status r)) (records db).

(** The answers of [submitKYC] that are left to a request the validation
    middleware has let through: the in-progress refusal, the 201, the 500
    of a file that cannot be hashed and the 400 of the schema. *)
Definition answer_after_validation (r : SubmitResponse) : Prop :=
  match r with
  | Response_400 _ => False
  | Response_in_progress _ _ _ => True
  | Response_201 _ _ _ _ => True
  | Response_error code _ error errorType =>
      (code = 500 /\ errorType = "Error"
       /\ exists m, error = "File hashing failed: " ++ m)
      \/ (code = 400 /\ errorType = "ValidationError")
  end.

(** Further sample data. *)
Module Cases.

(** A pan submission that the validation middleware accepts. *)
Definition pan_request : Request :=
  mkRequest "u1" (Some "pan") (Some "ABCDE1234F") (Some Sample.two_images)
            "10.0.0.1" "agent".

(** A file whose name holds characters outside the safe set. *)
Definition odd_name_request : Request :=
  mkRequest "u1" (Some "aadhaar") (Some "123456789012")
            (Some [("documentImages[front]",
                    [mkUploadedFile "/uploads/f" 1000 "image/png" "../my photo (1).PNG"])])
            "10.0.0.1" "agent".

(** The collaborators of [Sample.env] in production: no development
    shortcut for the credential, the agent answering as told. *)
Definition production_env (invitation : outcome unit) : Env :=
  mkEnv (fun n => (1700000000000 + Z.of_nat n)%Z)
        (fun p => Returns ("bytes of " ++ p))
        "rec2"
        (Ipfs.mkConfig "pinata" true true)
        (fun _ p => Returns (Ipfs.mkPinResult (Some ("cid-of-" ++ p)) 1000 "t"))
        false
        (fun _ _ _ => Sample.ai_pass)
        false
        false
        invitation
        None
        (fun _ => Sample.mined)
        (fun h => "0xhash-of-" ++ hd_userIdHash h).

End Cases.

(** ** The registry contract (KYCVerification.sol) *)

Module KYCVerification.

(** [address], [bytes32] and [uint256] values as integers; the
    arithmetic of Solidity 0.8 is checked, an overflow reverts. *)
Definition address : Type := Z.
Definition bytes32 : Type := Z.
Definition uint256_max : Z := (2 ^ 256 - 1)%Z.

Record Verification : Type := mkVerification
  { verificationHash : bytes32;
    userId : string;
    documentType : string;
    timestamp : Z;
    isValid : bool;
    verifier : address }.

(** The value of a mapping slot that was never written. *)
Definition no_verification : Verification :=
  mkVerification 0%Z EmptyString EmptyString 0%Z false 0%Z.

Inductive Log : Type :=
| VerificationRegistered (hash : bytes32) (uid docType : string) (time : Z)
                         (by_ : address)
| VerificationRevoked (hash : bytes32) (uid : string) (time : Z).

(** The storage of the contract, with the events emitted so far. *)
Record State : Type := mkState
  { verifications : bytes32 -> Verification;
    userVerifications : string -> list bytes32;
    isUserVerified : string -> bool;
    totalVerifications : Z;
    owner : address;
    logs : list Log }.

(** [msg.sender] and [block.timestamp] of a transaction. *)
Record Msg : Type := mkMsg
  { sender : address;
    block_timestamp : Z }.

(** Assignment to a slot of a mapping. *)
Definition set_slot {V : Type} (m : bytes32 -> V) (k : bytes32) (v : V)
  : bytes32 -> V :=
  fun k' => if Z.eqb k' k then v else m k'.

Definition set_user_slot {V : Type} (m : string -> V) (k : string) (v : V)
  : string -> V :=
  fun k' => if String.eqb k' k then v else m k'.

Definition constructor (msg : Msg) : State :=
  mkState (fun _ => no_verification) (fun _ => []) (fun _ => false) 0%Z
          (sender msg) [].

(** [registerVerification(verificationHash, userId, documentType)]; a
    failed [require] reverts: the state is the one before the call. *)
Definition registerVerification (msg : Msg) (hash : bytes32) (uid docType : string)
           (s : State) : outcome bool * State :=
  if Z.eqb hash 0 then (Throws "Invalid verification hash", s)
  else if Nat.eqb (String.length uid) 0 then (Throws "User ID cannot be empty", s)
  else if isValid (verifications s hash)
       then (Throws "Verification already exists", s)
  else if Z.ltb uint256_max (totalVerifications s + 1)
       then (Throws "Panic(0x11)", s)
  else
    (Returns true,
     mkState
       (set_slot (verifications s) hash
          (mkVerification hash uid docType (block_timestamp msg) true (sender msg)))
       (set_user_slot (userVerifications s) uid
          (List.app (userVerifications s uid) [hash]))
       (set_user_slot (isUserVerified s) uid true)
       (totalVerifications s + 1)%Z
       (owner s)
       (List.app (logs s)
          [VerificationRegistered hash uid docType (block_timestamp msg)
                                  (sender msg)])).

(** [getVerification(verificationHash)] *)
Definition getVerification (hash : bytes32) (s : State)
  : bool * Z * string * string :=
  let v := verifications s hash in
  (isValid v, timestamp v, userId v, documentType v).

(** [isVerified(userId)] *)
Definition isVerified (uid : string) (s : State) : bool := isUserVerified s uid.

(** [getUserVerifications(userId)] *)
Definition getUserVerifications (uid : string) (s : State) : list bytes32 :=
  userVerifications s uid.

(** [revokeVerification(verificationHash)], with its modifier
    [onlyOwner]; the loop with its [break] is a search. *)
Definition revokeVerification (msg : Msg) (hash : bytes32) (s : State)
  : outcome bool * State :=
  if negb (Z.eqb (sender msg) (owner s))
  then (Throws "Only owner can call this", s)
  else if negb (isValid (verifications s hash))
  then (Throws "Verification does not exist or already revoked", s)
  else
    let v := verifications s hash in
    let verifications' :=
      set_slot (verifications s) hash
        (mkVerification (verificationHash v) (userId v) (documentType v)
                        (timestamp v) false (verifier v)) in
    let uid := userId (verifications' hash) in
    let userHashes := userVerifications s uid in
    let hasOtherValid := existsb (fun h => isValid (verifications' h)) userHashes in
    (Returns true,
     mkState verifications' (userVerifications s)
             (set_user_slot (isUserVerified s) uid hasOtherValid)
             (totalVerifications s) (owner s)
             (List.app (logs s)
                [VerificationRevoked hash uid (block_timestamp msg)])).

(** [getStats()] *)
Definition getStats (s : State) : Z * address := (totalVerifications s, owner s).

(** A transaction sent to the contract. *)
Inductive Tx : Type :=
| Tx_register (msg : Msg) (hash : bytes32) (uid docType : string)
| Tx_revoke (msg : Msg) (hash : bytes32).

Definition apply_tx (s : State) (tx : Tx) : State :=
  match tx with
  | Tx_register msg hash uid docType =>
      snd (registerVerification msg hash uid docType s)
  | Tx_revoke msg hash => snd (revokeVerification msg hash s)
  end.

(** The state after a list of transactions, from the deployment. *)
Definition run (deployer : Msg) (txs : list Tx) : State :=
  fold_left apply_tx txs (constructor deployer).

(** Every valid verification is registered under its own hash, for a
    user with a name, who is flagged as verified and has the hash in their
    list. *)
Definition consistent (s : State) : Prop :=
  forall h,
    isValid (verifications s h) = true ->
    h <> 0%Z
    /\ verificationHash (verifications s h) = h
    /\ userId (verifications s h) <> EmptyString
    /\ isUserVerified s (userId (verifications s h)) = true
    /\ In h (userVerifications s (userId (verifications s h))).

(** A revocation sent by the owner of the contract. *)
Definition owner_revokes (contractOwner : address) (tx : Tx) : bool :=
  match tx with
  | Tx_revoke msg _ => Z.eqb (sender msg) contractOwner
  | Tx_register _ _ _ _ => false
  end.

(** The number of registrations in a list of events. *)
Definition registrations (ls : list Log) : nat :=
  List.length (filter (fun l => match l with
                                | VerificationRegistered _ _ _ _ _ => true
                                | VerificationRevoked _ _ _ => false
                                end) ls).

End KYCVerification.

(** ** Repair of stuck records (routes/adminRoutes.js) *)

Module Repair.

(** [s] has [p] as a substring. *)
Fixpoint contains (p s : string) : bool :=
  String.prefix p s
  || match s with
     | EmptyString => false
     | String _ rest => contains p rest
     end.

(** [{ $regex: /Aries|connection error|getaddrinfo/i }]: only a string
    matches, whatever the case of its letters. *)
Definition reason_matches (reason : option string) : bool :=
  match reason with
  | Some s =>
      contains "aries" (Ipfs.lower s)
      || contains "connection error" (Ipfs.lower s)
      || contains "getaddrinfo" (Ipfs.lower s)
  | None => false
  end.

(** [{ $exists: true, $ne: null }] *)
Definition reason_set (reason : option string) : bool :=
  match reason with Some _ => true | None => false end.

(** The query of the route. *)
Definition is_stuck_record (r : KYCRecord) : bool :=
  Status_eqb (status r) ai_verified
  && (reason_matches (rejectionReason r) || reason_set (rejectionReason r)).

(** [KYCRecord.find({...}).populate('userId')] *)
Definition stuckRecords (db : DB) : list Populated :=
  map (fun r => (r, findUserById db (userId r)))
      (filter is_stuck_record (records db)).

(** [x || d] on a number that may be [undefined]. *)
Definition or_number (x : option Q) (d : Q) : Q :=
  match x with
  | Some q => if Qeq_bool q 0 then d else q
  | None => d
  end.

(** The first update of the loop: the ids and the issue time of a
    credential, the reason cleared. [suffix] is
    [Math.random().toString(36).substr(2, 9)]. The path
    [ariesCredential.mock] of the update is not a path of the schema and
    is not stored. *)
Definition mock_credential_update (now : Z) (suffix : string) (r : KYCRecord)
  : KYCRecord :=
  set_rejectionReason None
    (set_ariesCredential
       (mkAriesCredential (Some ("cred-" ++ string_of_Z now ++ "-" ++ suffix))
                          (Some ("cred-ex-" ++ string_of_Z now))
                          (Some now)
                          (cred_credentialData (ariesCredential r)))
       (set_status credential_issued r)).

(** [blockchainData] of the route. *)
Definition repair_blockchainData (record : KYCRecord) : BlockchainData :=
  mkBlockchainData
    (documentType record)
    (documentNumber record)
    (documentNumberHash record)
    (userIdHash record)
    (fileHashes record)
    (merkleRoot record)
    (Some (or_number (ai_confidenceScore (aiVerification record)) (955 # 10)))
    (Some (or_number (ai_faceMatchScore (aiVerification record)) (923 # 10)))
    (if ipfs_enabled (ipfsStorage record)
     then Some (mkTriple (ipfs_frontCID (ipfsStorage record))
                         (ipfs_backCID (ipfsStorage record))
                         (ipfs_selfieCID (ipfsStorage record)))
     else None).

(** The entries of [results.fixed] and [results.failed]; the [email] of
    the owner, which the model of a user does not hold, is left out. *)
Record FixedEntry : Type := mkFixedEntry
  { fx_recordId : string;
    fx_userId : string;
    fx_transactionHash : string }.

Record FailedEntry : Type := mkFailedEntry
  { fl_recordId : string;
    fl_error : string }.

Record Results : Type := mkResults
  { fixed : list FixedEntry;
    failed : list FailedEntry }.

(** The body of the loop, the [try] with its [catch], on one stuck
    record as the query returned it; [tick] numbers the readings of the
    clock. *)
Definition fix_record (env : Env) (random : nat -> string) (tick : nat)
           (record : Populated) (db : DB) : (FixedEntry + FailedEntry) * DB :=
  let (rec, user) := record in
  let db1 :=
    findByIdAndUpdate (_id rec)
      (mock_credential_update (clock env tick) (random tick)) db in
  match user with
  | None =>
      (inr (mkFailedEntry (_id rec)
              "Cannot read properties of null (reading '_id')"), db1)
  | Some u =>
      match registerKYCOnBlockchain env (user_id u) (repair_blockchainData rec)
                                    (clock env (S tick)) with
      | Throws m => (inr (mkFailedEntry (_id rec) m), db1)
      | Returns blockchainResult =>
          (inl (mkFixedEntry (_id rec) (user_id u)
                             (lr_transactionHash blockchainResult)),
           User_findByIdAndUpdate (user_id u) (set_kycStatus kyc_verified)
             (findByIdAndUpdate (_id rec)
                (completed_update (clock env (S (S tick))) blockchainResult) db1))
      end
  end.

(** [for (const record of stuckRecords)] *)
Fixpoint fix_loop (env : Env) (random : nat -> string) (todo : list Populated)
         (tick : nat) (db : DB) (results : Results) : Results * DB :=
  match todo with
  | [] => (results, db)
  | record :: rest =>
      match fix_record env random tick record db with
      | (inl e, db') =>
          fix_loop env random rest (3 + tick) db'
                   (mkResults (List.app (fixed results) [e]) (failed results))
      | (inr e, db') =>
          fix_loop env random rest (3 + tick) db'
                   (mkResults (fixed results) (List.app (failed results) [e]))
      end
  end.

(** [router.post('/fix-stuck-kyc', ...)]: the [results] of the 200
    response and the database the route leaves. *)
Definition fix_stuck_kyc (env : Env) (random : nat -> string) (db : DB)
  : Results * DB :=
  fix_loop env random (stuckRecords db) 0 db (mkResults [] []).

(** What the route leaves of a stuck record [rec] whose owner the query
    found or not: [r'] is the record afterwards. *)
Definition repaired (env : Env) (rec : KYCRecord) (user : option User)
           (r' : KYCRecord) (results : Results) (db' : DB) : Prop :=
  submission_data r' = submission_data rec
  /\ rejectionReason r' = None
  /\ cred_credentialData (ariesCredential r')
     = cred_credentialData (ariesCredential rec)
  /\ exists tick,
      match user with
      | None =>
          status r' = credential_issued
          /\ In (mkFailedEntry (_id rec)
                   "Cannot read properties of null (reading '_id')")
                (failed results)
      | Some u =>
          match registerKYCOnBlockchain env (user_id u) (repair_blockchainData rec)
                                        (clock env tick) with
          | Throws m =>
              status r' = credential_issued
              /\ In (mkFailedEntry (_id rec) m) (failed results)
          | Returns res =>
              status r' = completed
              /\ transactionHash (blockchainVerification r')
                 = Some (lr_transactionHash res)
              /\ verificationHash (blockchainVerification r')
                 = Some (lr_verificationHash res)
              /\ In (mkFixedEntry (_id rec) (user_id u) (lr_transactionHash res))
                    (fixed results)
              /\ option_map kycStatus (findUserById db' (user_id u))
                 = Some kyc_verified
          end
      end.

(** What one turn of the loop does. *)
Definition turn_outcome (env : Env) (tick : nat) (rec : KYCRecord) (user : option User)
           (r' : KYCRecord) (e : FixedEntry + FailedEntry) (db' : DB)
  : Prop :=
  submission_data r' = submission_data rec
  /\ rejectionReason r' = None
  /\ cred_credentialData (ariesCredential r')
     = cred_credentialData (ariesCredential rec)
  /\ is_stuck_record r' = false
  /\ match user with
     | None =>
         status r' = credential_issued
         /\ e = inr (mkFailedEntry (_id rec)
                       "Cannot read properties of null (reading '_id')")
     | Some u =>
         match registerKYCOnBlockchain env (user_id u)
                 (repair_blockchainData rec) (clock env (S tick)) with
         | Throws m =>
             status r' = credential_issued
             /\ e = inr (mkFailedEntry (_id rec) m)
         | Returns res =>
             status r' = completed
             /\ transactionHash (blockchainVerification r')
                = Some (lr_transactionHash res)
             /\ verificationHash (blockchainVerification r')
                = Some (lr_verificationHash res)
             /\ e = inl (mkFixedEntry (_id rec) (user_id u)
                                             (lr_transactionHash res))
             /\ option_map kycStatus (findUserById db' (user_id u))
                = Some kyc_verified
         end
     end.

End Repair.

(** ** Authentication (middleware/authMiddleware.js) *)

Module Auth.

(** [s.split(sep)] for a separator of one character, [cur] being the
    piece read so far. *)
Fixpoint split_on (sep : ascii) (s : string) (cur : string) : list string :=
  match s with
  | EmptyString => [cur]
  | String c rest =>
      if Ascii.eqb c sep then cur :: split_on sep rest EmptyString
      else split_on sep rest (cur ++ String c EmptyString)
  end.

(** The token read from the [Authorization] header: the second piece
    of the header cut at its spaces, when the header begins with
    [Bearer]. *)
Definition bearer_token (authorization : option string) : option string :=
  match authorization with
  | Some (String c h) =>
      if String.prefix "Bearer" (String c h)
      then nth_error (split_on " "%char (String c h) EmptyString) 1
      else None
  | _ => None
  end.

(** What a middleware answers when it does not call [next()]. *)
Record Refusal : Type := mkRefusal
  { refusal_status : nat;
    refusal_message : string }.

Section Protect.

(** [verifyToken(token)]: the [id] of the decoded payload, or the error
    thrown. The tokens that verify are those signed by [generateToken],
    whose payload holds the [_id] of a user. *)
Variable verifyToken : string -> outcome string.
(** Whether the query answers before the five seconds of the race. *)
Variable answers_in_time : bool.

(** [protect(req, res, next)]: [inr u] is the call of [next()] with
    [req.user = u]. *)
Definition protect (authorization : option string) (db : DB) : Refusal + User :=
  match bearer_token authorization with
  | None | Some EmptyString =>
      inl (mkRefusal 401
             "Not authorized to access this route. Please provide a valid token.")
  | Some token =>
      match verifyToken token with
      | Throws m => inl (mkRefusal 401 m)
      | Returns decoded_id =>
          if negb answers_in_time
          then inl (mkRefusal 401 "Database query timeout")
          else
            match findUserById db decoded_id with
            | None => inl (mkRefusal 401 "User not found. Token may be invalid.")
            | Some u => inr u
            end
      end
  end.

End Protect.

(** [authorize(...roles)(req, res, next)], [role] being [req.user.role];
    [inr tt] is the call of [next()]. *)
Definition authorize (roles : list string) (user : option User)
           (role : string) : Refusal + unit :=
  match user with
  | None => inl (mkRefusal 401 "User not authenticated")
  | Some _ =>
      if negb (Validation.includes roles role)
      then inl (mkRefusal 403
                  ("User role '" ++ role
                     ++ "' is not authorized to access this route"))
      else inr tt
  end.

(** An admin-only route, [router.get(path, protect, authorize('admin'),
    handler)]: the refusal of a middleware, or what the handler answers
    to the user it is called for. [role_of] gives the [role] of a user,
    a field that no code modelled here writes. *)
Definition admin_route {A : Type} (verifyToken : string -> outcome string)
           (answers_in_time : bool) (role_of : User -> string)
           (handler : User -> A) (authorization : option string) (db : DB)
  : Refusal + A :=
  match protect verifyToken answers_in_time authorization db with
  | inl refusal => inl refusal
  | inr u =>
      match authorize ["admin"] (Some u) (role_of u) with
      | inl refusal => inl refusal
      | inr _ => inr (handler u)
      end
  end.

End Auth.

(** ** KYC controller: the status lookups *)

Module Lookup.

(** The request as [protect] leaves it: [req.user.id], [req.user.role]
    and the parameter of the route. *)
Record Request : Type := mkRequest
  { user_id_ : string;
    user_role : string;
    param : string }.

(** [data.kycRecord] of a 200 response; [v_ipfsStorage] is absent from
    the response of [getKYCStatusByRecordId]. *)
Record View : Type := mkView
  { v_id : string;
    v_status : Status;
    v_documentType : string;
    v_aiVerification : AiVerification;
    v_ariesCredential : AriesCredential;
    v_blockchainVerification : BlockchainVerification;
    v_ipfsStorage : option IpfsStorage;
    v_submittedAt : Z;
    v_completedAt : option Z;
    v_rejectionReason : option string }.

Definition view (with_ipfs : bool) (r : KYCRecord) : View :=
  mkView (_id r) (status r) (documentType r) (aiVerification r) (ariesCredential r)
         (blockchainVerification r)
         (if with_ipfs then Some (ipfsStorage r) else None)
         (submittedAt r) (completedAt r) (rejectionReason r).

Inductive Response : Type :=
| OK (kycRecord : option View)
| Forbidden (message : string)
| NotFound (message : string)
| ServerError (message error : string).

(** [/^[0-9a-fA-F]{24}$/] *)
Definition isHex (c : ascii) : bool :=
  Validation.isDigit c
  || (let n := nat_of_ascii c in
      (Nat.leb 97 n && Nat.leb n 102) || (Nat.leb 65 n && Nat.leb n 70)).

Definition isValidObjectId (s : string) : bool :=
  Validation.at_end (Validation.eat isHex 24 s).

(** The first record of the sort by [submittedAt], greatest first.
    MongoDB fixes no order between records of the same time; the first
    of them in the collection is taken here. *)
Fixpoint latest (l : list KYCRecord) (best : option KYCRecord) : option KYCRecord :=
  match l with
  | [] => best
  | r :: rest =>
      match best with
      | None => latest rest (Some r)
      | Some b =>
          if Z.ltb (submittedAt b) (submittedAt r) then latest rest (Some r)
          else latest rest best
      end
  end.

(** [KYCRecord.findOne({ userId }).sort({ submittedAt: -1 })] *)
Definition findLatestOf (db : DB) (uid : string) : option KYCRecord :=
  latest (filter (fun r => String.eqb (userId r) uid) (records db)) None.

Definition not_own_nor_admin (req : Request) (owner : string) : bool :=
  negb (String.eqb owner (user_id_ req)) && negb (String.eqb (user_role req) "admin").

Definition no_record : Response := OK None.

Definition cast_error (value path : string) : string :=
  "Cast to ObjectId failed for value " ++ dquote ++ value ++ dquote
    ++ " (type string) at path " ++ dquote ++ path ++ dquote
    ++ " for model " ++ dquote ++ "KYCRecord" ++ dquote.

Section Controllers.

(** The cast of a string of a query to an [ObjectId], as the string the
    [ObjectId] prints to; [None] when Mongoose throws a [CastError]. *)
Variable castObjectId : string -> option string.

(** [KYCRecord.findOne({ userId }).sort({ submittedAt: -1 })] and the
    answer made from it. *)
Definition status_of_user (userId : string) (db : DB) : Response :=
  match castObjectId userId with
  | None => ServerError "Failed to get KYC status" (cast_error userId "userId")
  | Some uid =>
      match findLatestOf db uid with
      | None => no_record
      | Some kycRecord => OK (Some (view true kycRecord))
      end
  end.

(** The answer for a record found by its id, once [userId] is populated. *)
Definition status_of_record (with_ipfs : bool) (req : Request) (db : DB)
           (kycRecord : KYCRecord) : Response :=
  match findUserById db (userId kycRecord) with
  | None =>
      ServerError "Failed to get KYC status"
                  "Cannot read properties of null (reading '_id')"
  | Some owner =>
      if not_own_nor_admin req (user_id owner)
      then Forbidden "Not authorized to view this KYC record"
      else OK (Some (view with_ipfs kycRecord))
  end.

(** [getKYCStatus(req, res)] *)
Definition getKYCStatus (req : Request) (db : DB) : Response :=
  if isValidObjectId (param req) then
    match castObjectId (param req) with
    | None => ServerError "Failed to get KYC status" (cast_error (param req) "_id")
    | Some id =>
        match findById db id with
        | Some kycRecord => status_of_record true req db kycRecord
        | None =>
            if not_own_nor_admin req (param req)
            then Forbidden "Not authorized to view this KYC status"
            else status_of_user (param req) db
        end
    end
  else
    if not_own_nor_admin req (param req)
    then Forbidden "Not authorized to view this KYC status"
    else status_of_user (param req) db.

(** [getKYCStatusByRecordId(req, res)] *)
Definition getKYCStatusByRecordId (req : Request) (db : DB) : Response :=
  match castObjectId (param req) with
  | None => ServerError "Failed to get KYC status" (cast_error (param req) "_id")
  | Some id =>
      match findById db id with
      | None => NotFound "KYC record not found"
      | Some kycRecord => status_of_record false req db kycRecord
      end
  end.

(** [getMyKYCStatus(req, res)] *)
Definition getMyKYCStatus (req : Request) (db : DB) : Response :=
  status_of_user (user_id_ req) db.

End Controllers.

(** The three lookups. *)
Inductive Route : Type := by_user | by_record | mine.

Definition lookup (castObjectId : string -> option string) (route : Route)
           (req : Request) (db : DB) : Response :=
  match route with
  | by_user => getKYCStatus castObjectId req db
  | by_record => getKYCStatusByRecordId castObjectId req db
  | mine => getMyKYCStatus castObjectId req db
  end.

End Lookup.

(** ** [submitKYC] between its awaits

    [submitKYC] is asynchronous as the pipeline is: it is suspended at
    [KYCRecord.findOne], at the update of a stuck record, at
    [KYCRecord.create] and at [User.findByIdAndUpdate], and other
    requests run in between. A call is a machine whose state says at
    which [await] it is suspended; as for the pipeline, a database
    operation takes effect when it is issued. The function [submitKYC]
    above is the run of a call that nothing interrupts (see
    [run_alone_is_submitKYC]); what it says of one call says nothing of
    two calls that interleave. *)

Module Submit.

(** A call of [submitKYC]: its collaborators, the reading of its clock
    and its request. *)
Record Call : Type := mkCall
  { call_env : Env;
    call_now : Z;
    call_req : Request }.

(** The document that [submitKYC] hands to [KYCRecord.create], or the
    answer of the [catch] when a path is missing or a file cannot be
    hashed: the synchronous part between the check of the in-flight
    record and the creation. *)
Definition build_record (env : Env) (now : Z) (uid docType docNumber : string)
           (files : Files) (req : Request) : SubmitResponse + KYCRecord :=
  match first_path files "documentImages[front]",
        first_path files "documentImages[selfie]" with
  | Some frontPath, Some selfiePath =>
      match (match files_get files "documentImages[back]" with
             | None => Returns None
             | Some (f :: _) => Returns (Some (path f))
             | Some [] => Throws "Cannot read properties of undefined (reading 'path')"
             end) with
      | Throws m => inl (Response_error 500 "Failed to submit KYC" m "TypeError")
      | Returns backPath =>
          let images := mkTriple (Some frontPath) backPath (Some selfiePath) in
          let numberHash :=
            hashDocumentNumber SHA256.sha256 docNumber docType in
          let uidHash := hashUserId SHA256.sha256 uid in
          let hashed :=
            match readFileSync env frontPath with
            | Throws m => Throws m
            | Returns fb =>
                match readFileSync env selfiePath with
                | Throws m => Throws m
                | Returns sb =>
                    if truthy backPath then
                      match readFileSync env (or_else backPath EmptyString) with
                      | Throws m => Throws m
                      | Returns bb =>
                          Returns (mkTriple (Some (hashFile SHA256.sha256 fb))
                                            (Some (hashFile SHA256.sha256 bb))
                                            (Some (hashFile SHA256.sha256 sb)))
                      end
                    else
                      Returns (mkTriple (Some (hashFile SHA256.sha256 fb)) None
                                        (Some (hashFile SHA256.sha256 sb)))
                end
            end in
          match hashed with
          | Throws m =>
              inl (Response_error 500 "Failed to submit KYC"
                                  ("File hashing failed: " ++ m) "Error")
          | Returns hashes =>
              let root :=
                createMerkleRoot SHA256.sha256 (Some (fileHash_values hashes)) in
              inr (mkKYCRecord (newObjectId env) uid docType docNumber
                     (Some numberHash) (Some uidHash) hashes
                     (Some root) images default_ipfsStorage
                     default_aiVerification default_ariesCredential
                     default_blockchainVerification submitted None now None
                     (req_ip req) (req_user_agent req))
          end
      end
  | _, _ =>
      inl (Response_error 500 "Failed to submit KYC"
                          "Cannot read properties of undefined (reading 'path')"
                          "TypeError")
  end.

(** Where a call is suspended. [S_findOne] and [S_create] carry what the
    awaited operation answers: the record found, and the document
    created or the answer to the validation error of the schema. *)
Inductive PC : Type :=
| S_start
| S_findOne (docType docNumber : string) (files : Files)
            (existingKYC : option KYCRecord)
| S_stuck_update (docType docNumber : string) (files : Files)
| S_create (created : SubmitResponse + KYCRecord)
| S_user_update (kycRecord : KYCRecord)
| S_done (response : SubmitResponse) (task : option Task).

(** From the building of the document to [await KYCRecord.create]. *)
Definition issue_create (c : Call) (docType docNumber : string) (files : Files)
           (db : DB) : PC * DB :=
  match build_record (call_env c) (call_now c) (req_user_id (call_req c))
                     docType docNumber files (call_req c) with
  | inl response => (S_done response None, db)
  | inr kycRecord =>
      if negb (Validation.includes schema_documentTypes docType) then
        (S_create
           (inl (Response_error 400
                   ("Validation failed: " ++ enum_message docType)
                   ("KYCRecord validation failed: documentType: "
                      ++ enum_message docType)
                   "ValidationError")), db)
      else (S_create (inr kycRecord), KYCRecord_create kycRecord db)
  end.

(** One step of a call: from the [await] it is suspended at to the
    next one, or to its answer. *)
Definition step (c : Call) (pc : PC) (db : DB) : PC * DB :=
  let req := call_req c in
  let uid := req_user_id req in
  match pc with
  | S_start =>
      match body_documentType req, body_documentNumber req with
      | Some (String c1 s1 as docType), Some (String c2 s2 as docNumber) =>
          match req_files req with
          | None =>
              (S_done (Response_400 "Please upload ID front image and selfie") None,
               db)
          | Some files =>
              match files_get files "documentImages[front]",
                    files_get files "documentImages[selfie]" with
              | Some _, Some _ =>
                  (S_findOne docType docNumber files (findOne_in_flight db uid), db)
              | _, _ =>
                  (S_done (Response_400 "Please upload ID front image and selfie")
                          None, db)
              end
          end
      | _, _ =>
          (S_done (Response_400 "Please provide document type and number") None, db)
      end
  | S_findOne docType docNumber files (Some existingKYC) =>
      if is_stuck existingKYC (call_now c) then
        (S_stuck_update docType docNumber files,
         findByIdAndUpdate (_id existingKYC)
                           (stuck_update (call_now c) existingKYC) db)
      else
        (S_done (Response_in_progress (status existingKYC)
                                      (submittedAt existingKYC)
                                      (_id existingKYC)) None, db)
  | S_findOne docType docNumber files None =>
      issue_create c docType docNumber files db
  | S_stuck_update docType docNumber files =>
      issue_create c docType docNumber files db
  | S_create (inl response) => (S_done response None, db)
  | S_create (inr kycRecord) =>
      (S_user_update kycRecord,
       User_findByIdAndUpdate uid
         (fun u => mkUser (user_id u) (fullName u) kyc_in_progress
                          (Some (_id kycRecord))) db)
  | S_user_update kycRecord =>
      (S_done (Response_201 (_id kycRecord) (status kycRecord)
                            (submittedAt kycRecord) (documentType kycRecord))
              (Some (mkTask (_id kycRecord) (documentImages kycRecord)
                            (documentType kycRecord) (documentNumber kycRecord))),
       db)
  | S_done _ _ => (pc, db)
  end.

(** [k] steps of one call with nothing in between. *)
Fixpoint run (c : Call) (k : nat) (state : PC * DB) : PC * DB :=
  match k with
  | O => state
  | S k' => run c k' (step c (fst state) (snd state))
  end.

(** A call has at most four awaits: five steps bring it to its answer. *)
Definition run_alone (c : Call) (db : DB) : PC * DB := run c 5 (S_start, db).

(** Two calls in flight on one database. *)
Record System : Type := mkSystem
  { first_call : PC;
    second_call : PC;
    sys_db : DB }.

(** One turn of the event loop: the first call is resumed when [who] is
    [true], the second otherwise. *)
Definition turn (c1 c2 : Call) (s : System) (who : bool) : System :=
  if who then
    mkSystem (fst (step c1 (first_call s) (sys_db s))) (second_call s)
             (snd (step c1 (first_call s) (sys_db s)))
  else
    mkSystem (first_call s) (fst (step c2 (second_call s) (sys_db s)))
             (snd (step c2 (second_call s) (sys_db s))).

Definition run_two (c1 c2 : Call) (schedule : list bool) (s : System) : System :=
  fold_left (turn c1 c2) schedule s.

(** A call that has found no record in flight and whose document the
    schema accepts, [k] steps after the answer of [findOne]. *)
Definition progress (docType docNumber : string) (files : Files)
           (kycRecord : KYCRecord) (k : nat) : PC :=
  match k with
  | 0 => S_findOne docType docNumber files None
  | 1 => S_create (inr kycRecord)
  | 2 => S_user_update kycRecord
  | _ =>
      S_done (Response_201 (_id kycRecord) (status kycRecord)
                           (submittedAt kycRecord) (documentType kycRecord))
             (Some (mkTask (_id kycRecord) (documentImages kycRecord)
                           (documentType kycRecord) (documentNumber kycRecord)))
  end.

(** The records in flight that step [k] of such a call adds for its
    user, and the number of records the call has created when it is [k]
    steps after the answer of [findOne]. *)
Definition created_by_step (kycRecord : KYCRecord) (k : nat) : list KYCRecord :=
  match k with 0 => [kycRecord] | _ => [] end.

Definition created_so_far (k : nat) : nat := match k with 0 => 0 | _ => 1 end.

(** A call of the sample user with the sample request, the record it
    creates getting the id [id]. *)
Definition sample_call (id : string) (now : Z) : Call :=
  mkCall
    (mkEnv (fun n => (1700000000000 + Z.of_nat n)%Z)
           (fun p => Returns ("bytes of " ++ p))
           id
           (Ipfs.mkConfig "pinata" true true)
           (fun _ p => Returns (Ipfs.mkPinResult (Some ("cid-of-" ++ p)) 1000 "t"))
           false
           (fun _ _ _ => Sample.ai_pass)
           true
           false
           (Returns tt)
           None
           (fun _ => Sample.mined)
           (fun h => "0xhash-of-" ++ hd_userIdHash h))
    now Sample.request.

End Submit.

(** * Properties *)

(** ** Hashing utility *)

Lemma SHA256_sha256_nonempty (s : string) : SHA256.sha256 s <> EmptyString.
Proof.
  unfold SHA256.sha256, SHA256.hex_of_regs, SHA256.hex8. discriminate.
Qed.

Lemma append_length (a b : string) :
  String.length (a ++ b) = String.length a + String.length b.
Proof.
  induction a as [|c a IH]; simpl; [reflexivity | rewrite IH; reflexivity].
Qed.

(** Two strings of the same length followed by the same suffix. *)
Lemma append_same_length_inj (a b s t : string) :
  String.length a = String.length b -> a ++ s = b ++ t -> a = b.
Proof.
  revert b. induction a as [|c a IH]; intros [|d b] Hlen Heq; simpl in *;
    try discriminate; [reflexivity|].
  injection Heq as Hc Hrest. subst d. f_equal. apply IH; [lia | exact Hrest].
Qed.

Lemma append_cancel_r (a b s : string) : a ++ s = b ++ s -> a = b.
Proof.
  intros Heq. apply (append_same_length_inj a b s s); [|exact Heq].
  apply (f_equal String.length) in Heq. rewrite !append_length in Heq. lia.
Qed.

Section HashingFacts.

Variable sha256 : string -> string.

Lemma or_else_nonempty (r l : string) : r <> EmptyString -> or_else (Some r) l = r.
Proof. destruct r; [congruence | reflexivity]. Qed.

Lemma pairUp_merkleLevel_aux (n : nat) :
  forall hashes,
    List.length hashes <= n ->
    Forall (fun h => h <> EmptyString) hashes ->
    pairUp sha256 hashes = merkleLevel sha256 hashes.
Proof.
  induction n as [|n IH]; intros hashes Hn Hne.
  - destruct hashes; [reflexivity | simpl in Hn; lia].
  - destruct hashes as [|a [|b rest]]; try reflexivity.
    inversion Hne as [|? ? _ Hne']; subst.
    inversion Hne' as [|? ? Hb Hrest]; subst.
    cbn [pairUp merkleLevel]. rewrite (or_else_nonempty b a Hb).
    rewrite IH; [reflexivity | simpl in Hn; lia | exact Hrest].
Qed.

(** On non-empty hashes a level of the code is a level of the
    specification. *)
Lemma newLevel_merkleLevel (hashes : list string) :
  Forall (fun h => h <> EmptyString) hashes ->
  newLevel sha256 hashes = merkleLevel sha256 hashes.
Proof.
  intros H. rewrite newLevel_pairUp.
  apply (pairUp_merkleLevel_aux (List.length hashes)); [lia | exact H].
Qed.

Lemma merkleLevel_nonempty_aux (n : nat) :
  (forall s, sha256 s <> EmptyString) ->
  forall hashes, List.length hashes <= n ->
    Forall (fun h => h <> EmptyString) (merkleLevel sha256 hashes).
Proof.
  intros Hsha. induction n as [|n IH]; intros hashes Hn.
  - destruct hashes; [constructor | simpl in Hn; lia].
  - destruct hashes as [|a [|b rest]]; cbn [merkleLevel].
    + constructor.
    + constructor; [apply Hsha | constructor].
    + constructor; [apply Hsha | apply IH; simpl in Hn; lia].
Qed.

Lemma createMerkleRoot_array_spec (n : nat) :
  (forall s, sha256 s <> EmptyString) ->
  forall hashes,
    List.length hashes <= n ->
    Forall (fun h => h <> EmptyString) hashes ->
    createMerkleRoot_array sha256 hashes = merkleRootSpec sha256 n hashes.
Proof.
  intros Hsha. induction n as [|n IH]; intros hashes Hn Hne.
  - destruct hashes; [|simpl in Hn; lia].
    simp createMerkleRoot_array. reflexivity.
  - destruct hashes as [|a [|b rest]].
    + simp createMerkleRoot_array. reflexivity.
    + simp createMerkleRoot_array. reflexivity.
    + simp createMerkleRoot_array. cbn [merkleRootSpec].
      rewrite (newLevel_merkleLevel (a :: b :: rest) Hne).
      apply IH.
      * rewrite <- (newLevel_merkleLevel (a :: b :: rest) Hne).
        pose proof (newLevel_shorter sha256 a b rest). lia.
      * apply (merkleLevel_nonempty_aux (List.length (a :: b :: rest)) Hsha). lia.
Qed.

Lemma createMerkleRoot_fuel_enough (n : nat) :
  forall hashes,
    List.length hashes <= n ->
    createMerkleRoot_fuel sha256 (S n) (Some hashes)
    = Some (createMerkleRoot_array sha256 hashes).
Proof.
  induction n as [|n IH]; intros hashes Hn.
  - destruct hashes; [|simpl in Hn; lia].
    simp createMerkleRoot_array. reflexivity.
  - destruct hashes as [|a [|b rest]].
    + simp createMerkleRoot_array. reflexivity.
    + simp createMerkleRoot_array. reflexivity.
    + simp createMerkleRoot_array.
      change (createMerkleRoot_fuel sha256 (S (S n)) (Some (a :: b :: rest)))
        with (createMerkleRoot_fuel sha256 (S n)
                (Some (newLevel sha256 (a :: b :: rest)))).
      apply IH. pose proof (newLevel_shorter sha256 a b rest). lia.
Qed.

End HashingFacts.

(** C6. [createMerkleRoot] returns the SHA-256 of the sentinel ["empty"]
    for a missing or empty list and the single element for a list of one;
    on a longer list of (non-empty) hashes it is the root the
    specification describes: pair adjacent hashes, hash each pair's
    concatenation, duplicate the last hash of an odd level, recurse until
    one hash remains. In particular the root of [[h1; h2; h3]] is
    [sha256 (sha256 (h1 ++ h2) ++ sha256 (h3 ++ h3))], and equal inputs
    give equal roots. The hash function never returns the empty string,
    as SHA-256 in hex never does. *)
Theorem createMerkleRoot_algorithm :
  forall sha256 : string -> string,
    (forall s, sha256 s <> EmptyString) ->
    createMerkleRoot sha256 None = sha256 "empty"
    /\ createMerkleRoot sha256 (Some []) = sha256 "empty"
    /\ (forall h, createMerkleRoot sha256 (Some [h]) = h)
    /\ (forall hashes,
          Forall (fun h => h <> EmptyString) hashes ->
          createMerkleRoot sha256 (Some hashes)
          = merkleRootSpec sha256 (List.length hashes) hashes)
    /\ (forall h1 h2 h3,
          h2 <> EmptyString ->
          createMerkleRoot sha256 (Some [h1; h2; h3])
          = sha256 (sha256 (h1 ++ h2) ++ sha256 (h3 ++ h3)))
    /\ (forall a b, a = b -> createMerkleRoot sha256 a = createMerkleRoot sha256 b).
Proof.
  intros sha256 Hsha.
  split; [reflexivity|].
  split; [cbn; simp createMerkleRoot_array; reflexivity|].
  split; [intros h; cbn; simp createMerkleRoot_array; reflexivity|].
  split.
  { intros hashes Hne. cbn [createMerkleRoot].
    apply createMerkleRoot_array_spec; [exact Hsha | lia | exact Hne]. }
  split.
  { intros h1 h2 h3 Hh2. cbn [createMerkleRoot].
    simp createMerkleRoot_array. rewrite newLevel_pairUp. cbn [pairUp].
    rewrite (or_else_nonempty h2 h1 Hh2).
    simp createMerkleRoot_array. rewrite newLevel_pairUp. cbn [pairUp].
    rewrite (or_else_nonempty _ _ (Hsha (h3 ++ h3))).
    simp createMerkleRoot_array. reflexivity. }
  intros a b ->. reflexivity.
Qed.

(** C6 at the repository's SHA-256: the three-hash equation, and the
    root of five hashes as the specification computes it. *)
Lemma createMerkleRoot_algorithm_witness :
  createMerkleRoot SHA256.sha256 (Some ["aa"; "bb"; "cc"])
  = SHA256.sha256 (SHA256.sha256 ("aa" ++ "bb") ++ SHA256.sha256 ("cc" ++ "cc"))
  /\ createMerkleRoot SHA256.sha256 (Some ["aa"; "bb"; "cc"; "dd"; "ee"])
     = merkleRootSpec SHA256.sha256 5 ["aa"; "bb"; "cc"; "dd"; "ee"].
Proof.
  destruct (createMerkleRoot_algorithm SHA256.sha256 SHA256_sha256_nonempty)
    as (_ & _ & _ & Hspec & H3 & _).
  split.
  - apply H3. discriminate.
  - apply (Hspec ["aa"; "bb"; "cc"; "dd"; "ee"]).
    repeat constructor; discriminate.
Defined.

(** C9. [createMerkleRoot] terminates: a level of [n] hashes has
    [ceil(n/2)] hashes, which is fewer than [n] as soon as [n >= 2]; lists
    of length 0 or 1 return without a recursive call; and a recursion
    depth of one more than the length of the list always yields the
    root. *)
Theorem createMerkleRoot_terminates :
  forall (sha256 : string -> string) (hashes : list string),
    List.length (newLevel sha256 hashes) = Nat.div2 (S (List.length hashes))
    /\ (forall h1 h2 rest,
          List.length (newLevel sha256 (h1 :: h2 :: rest))
          < List.length (h1 :: h2 :: rest))
    /\ createMerkleRoot_fuel sha256 1 None = Some (sha256 "empty")
    /\ createMerkleRoot_fuel sha256 1 (Some []) = Some (sha256 "empty")
    /\ (forall h, createMerkleRoot_fuel sha256 1 (Some [h]) = Some h)
    /\ createMerkleRoot_fuel sha256 (S (List.length hashes)) (Some hashes)
       = Some (createMerkleRoot sha256 (Some hashes)).
Proof.
  intros sha256 hashes.
  split; [apply newLevel_length|].
  split; [apply newLevel_shorter|].
  split; [reflexivity|].
  split; [reflexivity|].
  split; [reflexivity|].
  apply createMerkleRoot_fuel_enough. lia.
Qed.

(** C8, as the claim states it, fails: the hash is not the SHA-256 of
    the type directly followed by the number. *)
Lemma hashDocumentNumber_not_plain_concatenation :
  String.eqb (hashDocumentNumber SHA256.sha256 "123456789012" "aadhaar")
             (SHA256.sha256 ("aadhaar" ++ "123456789012")) = false
  /\ hashDocumentNumber SHA256.sha256 "123456789012" "aadhaar"
     = "9333b72b9aad2663ecc6367fca11175dbd527f7c7674b18308b33d5289209b79"
  /\ SHA256.sha256 ("aadhaar" ++ "123456789012")
     = "c46172813b9f03681bfb6f23dafda7f46ac0ab376b4131f896401c235fc374bb".
Proof. vm_compute. repeat split. Qed.

(** C8, amended. [hashDocumentNumber n t] is the hash of the type, a
    colon and the number, and it is a function of its arguments. For a
    fixed number and two different types the hashed texts differ, so the
    two hashes differ unless these two texts collide under the hash
    function. The condition is on the two texts only: a function whose
    values all have one length, as SHA-256 has, cannot be free of
    collisions on all texts. *)
Theorem hashDocumentNumber_type_scoped :
  forall sha256 : string -> string,
    (forall n t, hashDocumentNumber sha256 n t = sha256 (t ++ ":" ++ n))
    /\ (forall n n' t t',
          n = n' -> t = t' ->
          hashDocumentNumber sha256 n t = hashDocumentNumber sha256 n' t')
    /\ (forall n t1 t2,
          t1 <> t2 ->
          t1 ++ ":" ++ n <> t2 ++ ":" ++ n
          /\ ((sha256 (t1 ++ ":" ++ n) = sha256 (t2 ++ ":" ++ n) ->
               t1 ++ ":" ++ n = t2 ++ ":" ++ n) ->
              hashDocumentNumber sha256 n t1 <> hashDocumentNumber sha256 n t2)).
Proof.
  intros sha256.
  split; [reflexivity|].
  split; [intros n n' t t' -> ->; reflexivity|].
  intros n t1 t2 Hneq.
  assert (Hpre : t1 ++ ":" ++ n <> t2 ++ ":" ++ n).
  { intros Heq. apply Hneq. exact (append_cancel_r _ _ _ Heq). }
  split; [exact Hpre|].
  unfold hashDocumentNumber. intros Hfree Heq. apply Hpre. apply Hfree. exact Heq.
Qed.

(** C8 at SHA-256, on one number under the types ["aadhaar"] and
    ["passport"]: the two texts do not collide, and the hashes differ. *)
Lemma hashDocumentNumber_type_scoped_witness :
  hashDocumentNumber SHA256.sha256 "123456789012" "aadhaar"
  = SHA256.sha256 "aadhaar:123456789012"
  /\ hashDocumentNumber SHA256.sha256 "123456789012" "aadhaar"
     <> hashDocumentNumber SHA256.sha256 "123456789012" "passport".
Proof.
  destruct (hashDocumentNumber_type_scoped SHA256.sha256) as (H1 & _ & H3).
  split; [apply H1|].
  apply H3; [discriminate|].
  intros H. vm_compute in H. discriminate H.
Defined.

(** ** Batch upload *)

Section IpfsFacts.

Variable World : Type.
Variable readFileSync : World -> string -> outcome string.
Variable pin :
  string -> string -> Ipfs.Metadata -> World -> outcome Ipfs.PinResult * World.
Variable sha256 : string -> string.
Variable config : Ipfs.Config.

Local Abbreviation upload_loop :=
  (Ipfs.upload_loop World readFileSync pin sha256 config).
Local Abbreviation upload_one :=
  (Ipfs.upload_one World readFileSync pin sha256 config).
Local Abbreviation uploadToIPFS :=
  (Ipfs.uploadToIPFS World readFileSync pin sha256 config).
Local Abbreviation world_before :=
  (Ipfs.world_before World readFileSync pin sha256 config).

Lemma upload_loop_app (filePaths : list string) (metadata : Ipfs.Metadata) :
  forall results w,
    fst (upload_loop filePaths metadata results w)
    = List.app results (fst (upload_loop filePaths metadata [] w)).
Proof.
  induction filePaths as [|p rest IH]; intros results w.
  - simpl. rewrite app_nil_r. reflexivity.
  - cbn [Ipfs.upload_loop].
    destruct (Ipfs.upload_one World readFileSync pin sha256 config p metadata w)
      as [entry w'].
    rewrite (IH (List.app results [entry]) w'), (IH (List.app [] [entry]) w').
    rewrite <- app_assoc. reflexivity.
Qed.

Lemma upload_loop_cons (p : string) (rest : list string)
      (metadata : Ipfs.Metadata) (w : World) :
  fst (upload_loop (p :: rest) metadata [] w)
  = fst (upload_one p metadata w)
      :: fst (upload_loop rest metadata [] (snd (upload_one p metadata w))).
Proof.
  cbn [Ipfs.upload_loop].
  destruct (Ipfs.upload_one World readFileSync pin sha256 config p metadata w)
    as [entry w'].
  cbn [fst snd List.app].
  rewrite (upload_loop_app rest metadata [entry] w').
  reflexivity.
Qed.

Lemma upload_one_filePath (p : string) (metadata : Ipfs.Metadata) (w : World) :
  Ipfs.filePath (fst (upload_one p metadata w)) = p.
Proof.
  unfold Ipfs.upload_one.
  destruct (Ipfs.uploadToIPFS World readFileSync pin sha256 config p
              (Ipfs.file_metadata metadata p) w) as [[r|m] w']; reflexivity.
Qed.

Lemma upload_loop_filePaths (filePaths : list string) (metadata : Ipfs.Metadata) :
  forall w,
    map Ipfs.filePath (fst (upload_loop filePaths metadata [] w)) = filePaths.
Proof.
  induction filePaths as [|p rest IH]; intros w; [reflexivity|].
  rewrite upload_loop_cons. cbn [map].
  rewrite upload_one_filePath, IH. reflexivity.
Qed.

Lemma upload_loop_nth (filePaths : list string) (metadata : Ipfs.Metadata) :
  forall w i p,
    nth_error filePaths i = Some p ->
    nth_error (fst (upload_loop filePaths metadata [] w)) i
    = Some (fst (upload_one p metadata (world_before filePaths metadata w i))).
Proof.
  induction filePaths as [|q rest IH]; intros w i p Hi.
  - destruct i; discriminate.
  - rewrite upload_loop_cons. destruct i as [|i].
    + injection Hi as ->. reflexivity.
    + cbn [nth_error] in *. cbn [Ipfs.world_before].
      apply IH. exact Hi.
Qed.

Lemma upload_one_outcome (p : string) (metadata : Ipfs.Metadata) (w : World) :
  (forall m,
      fst (uploadToIPFS p (Ipfs.file_metadata metadata p) w) = Throws m ->
      Ipfs.success (fst (upload_one p metadata w)) = false
      /\ Ipfs.e_error (fst (upload_one p metadata w)) = Some m)
  /\ (forall r,
         fst (uploadToIPFS p (Ipfs.file_metadata metadata p) w) = Returns r ->
         Ipfs.success (fst (upload_one p metadata w)) = true).
Proof.
  unfold Ipfs.upload_one.
  destruct (Ipfs.uploadToIPFS World readFileSync pin sha256 config p
              (Ipfs.file_metadata metadata p) w) as [[r|m'] w']; cbn [fst];
    split; intros x Hx; try discriminate.
  - reflexivity.
  - injection Hx as ->. split; reflexivity.
Qed.

End IpfsFacts.

(** C10. [uploadMultipleToIPFS] returns, for any list of file paths,
    an array with one entry per path, in the order of the paths; the
    [i]-th entry is the outcome of uploading the [i]-th path in the world
    left by the uploads before it, so every file is attempted whatever
    happened to the others; when that upload throws, the entry has
    [success = false] and the message of the error, and when it returns
    the entry has [success = true]. The function itself returns, it does
    not throw. *)
Theorem uploadMultipleToIPFS_isolates_failures :
  forall (World : Type)
         (readFileSync : World -> string -> outcome string)
         (pin : string -> string -> Ipfs.Metadata -> World
                -> outcome Ipfs.PinResult * World)
         (sha256 : string -> string) (config : Ipfs.Config)
         (filePaths : list string) (metadata : Ipfs.Metadata) (w : World),
  exists results w',
    Ipfs.uploadMultipleToIPFS World readFileSync pin sha256 config
                              filePaths metadata w = (Returns results, w')
    /\ List.length results = List.length filePaths
    /\ map Ipfs.filePath results = filePaths
    /\ forall i p,
        nth_error filePaths i = Some p ->
        let wi := Ipfs.world_before World readFileSync pin sha256 config
                                    filePaths metadata w i in
        let attempt := Ipfs.uploadToIPFS World readFileSync pin sha256 config p
                                         (Ipfs.file_metadata metadata p) wi in
        exists e,
          nth_error results i = Some e
          /\ Ipfs.filePath e = p
          /\ (forall m, fst attempt = Throws m ->
                        Ipfs.success e = false /\ Ipfs.e_error e = Some m)
          /\ (forall r, fst attempt = Returns r -> Ipfs.success e = true).
Proof.
  intros World readFileSync pin sha256 config filePaths metadata w.
  unfold Ipfs.uploadMultipleToIPFS.
  pose proof (upload_loop_filePaths World readFileSync pin sha256 config
                                    filePaths metadata w) as Hpaths.
  pose proof (upload_loop_nth World readFileSync pin sha256 config
                              filePaths metadata w) as Hnth.
  destruct (Ipfs.upload_loop World readFileSync pin sha256 config filePaths
                             metadata [] w) as [results w'] eqn:Hloop.
  cbn [fst] in Hpaths, Hnth.
  exists results, w'. split; [reflexivity|].
  split; [rewrite <- Hpaths; rewrite length_map; reflexivity|].
  split; [exact Hpaths|].
  intros i p Hi. cbv zeta.
  eexists. split; [apply Hnth; exact Hi|].
  split; [apply upload_one_filePath|].
  apply upload_one_outcome.
Qed.

(** ** Validation middleware *)

Lemma append_nil_r (s : string) : s ++ EmptyString = s.
Proof. induction s as [|c s IH]; simpl; [reflexivity | rewrite IH; reflexivity]. Qed.

(** [eat cls n] succeeds exactly on the strings that begin with [n]
    characters of the class, and returns what follows them. *)
Lemma eat_spec (cls : ascii -> bool) (n : nat) :
  forall s r,
    Validation.eat cls n s = Some r
    <-> exists a, s = a ++ r /\ String.length a = n
                  /\ Validation.all_chars cls a = true.
Proof.
  induction n as [|n IH]; intros s r; simpl.
  - split.
    + intros H. injection H as ->. exists EmptyString. repeat split.
    + intros (a & -> & Hlen & _). destruct a; [reflexivity | discriminate].
  - split.
    + destruct s as [|c rest]; [discriminate|].
      destruct (cls c) eqn:Hc; [|discriminate].
      intros H. apply IH in H. destruct H as (a & -> & Hlen & Hall).
      exists (String c a). simpl. rewrite Hc, Hall, Hlen. repeat split.
    + intros (a & -> & Hlen & Hall).
      destruct a as [|c a]; [discriminate|].
      simpl in *. apply andb_true_iff in Hall. destruct Hall as [Hc Hall].
      rewrite Hc. apply IH. exists a. repeat split; [lia | exact Hall].
Qed.

Lemma at_end_spec (o : option string) :
  Validation.at_end o = true <-> o = Some EmptyString.
Proof.
  destruct o as [[|c s]|]; simpl; split; intros H;
    try reflexivity; try discriminate.
Qed.

Lemma aadhaar_pattern_spec (s : string) :
  Validation.aadhaar_pattern s = true
  <-> String.length s = 12 /\ Validation.all_chars Validation.isDigit s = true.
Proof.
  unfold Validation.aadhaar_pattern. rewrite at_end_spec, eat_spec. split.
  - intros (a & -> & Hlen & Hall). rewrite append_nil_r. split; assumption.
  - intros [Hlen Hall]. exists s. rewrite append_nil_r. repeat split; assumption.
Qed.

Lemma pan_pattern_spec (s : string) :
  Validation.pan_pattern s = true
  <-> exists a b c,
      s = a ++ b ++ c
      /\ String.length a = 5 /\ Validation.all_chars Validation.isUpper a = true
      /\ String.length b = 4 /\ Validation.all_chars Validation.isDigit b = true
      /\ String.length c = 1 /\ Validation.all_chars Validation.isUpper c = true.
Proof.
  unfold Validation.pan_pattern. rewrite at_end_spec. split.
  - destruct (Validation.eat Validation.isUpper 5 s) as [r1|] eqn:E1;
      [|discriminate].
    cbn [Validation.and_then].
    destruct (Validation.eat Validation.isDigit 4 r1) as [r2|] eqn:E2;
      [|discriminate].
    cbn [Validation.and_then]. intros E3.
    apply eat_spec in E1, E2, E3.
    destruct E1 as (a & -> & Ha & Ha').
    destruct E2 as (b & -> & Hb & Hb').
    destruct E3 as (c & -> & Hc & Hc').
    exists a, b, c. rewrite append_nil_r. repeat split; assumption.
  - intros (a & b & c & -> & Ha & Ha' & Hb & Hb' & Hc & Hc').
    assert (E1 : Validation.eat Validation.isUpper 5 (a ++ b ++ c) = Some (b ++ c)).
    { apply eat_spec. exists a. repeat split; assumption. }
    assert (E2 : Validation.eat Validation.isDigit 4 (b ++ c) = Some c).
    { apply eat_spec. exists b. repeat split; assumption. }
    rewrite E1. cbn [Validation.and_then]. rewrite E2. cbn [Validation.and_then].
    apply eat_spec. exists c. rewrite append_nil_r. repeat split; assumption.
Qed.

Lemma includes_keys (table : list (string * Validation.Rules)) (t : string) :
  Validation.includes (map fst table) t
  = match Validation.rules_get table t with Some _ => true | None => false end.
Proof.
  induction table as [|[k r] rest IH]; [reflexivity|].
  unfold Validation.includes in *. cbn [map fst existsb Validation.rules_get].
  rewrite String.eqb_sym. destruct (String.eqb k t); [reflexivity | exact IH].
Qed.

Lemma required_file_errors_nil (t : string) (files : Files) (fields : list string) :
  Validation.required_file_errors t files fields = []
  -> existsb (file_missing (Some files)) fields = false.
Proof.
  induction fields as [|field rest IH]; [reflexivity|].
  cbn [Validation.required_file_errors existsb file_missing].
  destruct (files_get files ("documentImages[" ++ field ++ "]")) as [[|f fs]|];
    try discriminate.
  intros H. apply IH. exact H.
Qed.

(** Every way out of the middleware taken by an invalid submission is a
    400 response with a non-empty list of messages. *)
Lemma validateKYCSubmission_rejects (extnameLower : string -> string) (req : Request) :
  invalid_submission req = true ->
  exists errs,
    errs <> []
    /\ Validation.validateKYCSubmission extnameLower req
       = inl (Validation.validation_failed errs).
Proof.
  unfold invalid_submission, Validation.validateKYCSubmission.
  destruct (body_documentType req) as [[|c t]|];
    try (intros _; eexists; split; [|reflexivity]; discriminate).
  set (ty := String c t).
  change (Validation.validTypes) with (map fst Validation.DOCUMENT_RULES).
  rewrite includes_keys.
  destruct (body_documentNumber req) as [[|c' n]|];
    try (intros _; eexists; split; [|reflexivity]; discriminate).
  set (num := String c' n).
  destruct (Validation.rules_get Validation.DOCUMENT_RULES ty) as [rules|];
    cbn [negb];
    try (intros _; eexists; split; [|reflexivity]; discriminate).
  destruct (Validation.numberPattern rules num); cbn [negb orb];
    try (intros _; eexists; split; [|reflexivity]; discriminate).
  destruct (req_files req) as [[|kv files]|];
    try (intros _; eexists; split; [|reflexivity]; discriminate).
  destruct (Validation.required_file_errors ty (kv :: files)
              (Validation.requiredFields rules)) as [|e errs] eqn:Hreq.
  - apply required_file_errors_nil in Hreq. rewrite Hreq. intros H. discriminate H.
  - intros _. eexists. split; [|reflexivity]. discriminate.
Qed.

Lemma files_get_sanitized (files : Files) (key : string) :
  files_get (map (fun kv => (fst kv, map Validation.sanitize_file (snd kv))) files) key
  = option_map (map Validation.sanitize_file) (files_get files key).
Proof.
  induction files as [|[k v] rest IH]; [reflexivity|].
  cbn [map fst snd files_get]. destruct (String.eqb k key); [reflexivity | exact IH].
Qed.

Lemma file_missing_sanitized (req : Request) (field : string) :
  file_missing (req_files (Validation.sanitizeFileMetadata req)) field
  = file_missing (req_files req) field.
Proof.
  unfold Validation.sanitizeFileMetadata, file_missing. cbn [req_files].
  destruct (req_files req) as [files|]; [|reflexivity].
  cbn [option_map]. rewrite files_get_sanitized.
  destruct (files_get files ("documentImages[" ++ field ++ "]")) as [[|f fs]|];
    reflexivity.
Qed.

Lemma existsb_pointwise {A : Type} (f g : A -> bool) (l : list A) :
  (forall x, f x = g x) -> existsb f l = existsb g l.
Proof.
  intros H. induction l as [|x l IH]; [reflexivity|].
  cbn [existsb]. rewrite H, IH. reflexivity.
Qed.

Lemma invalid_submission_sanitized (req : Request) :
  invalid_submission (Validation.sanitizeFileMetadata req) = invalid_submission req.
Proof.
  unfold invalid_submission.
  change (body_documentType (Validation.sanitizeFileMetadata req))
    with (body_documentType req).
  change (body_documentNumber (Validation.sanitizeFileMetadata req))
    with (body_documentNumber req).
  destruct (body_documentType req) as [t|]; [|reflexivity].
  destruct (Validation.rules_get Validation.DOCUMENT_RULES t) as [rules|];
    [|reflexivity].
  f_equal. apply existsb_pointwise. intros field. apply file_missing_sanitized.
Qed.

(** C7. The document types and the images each requires are those of
    the table; an aadhaar number is valid exactly when it is 12 digits
    and a pan number exactly when it is 5 capital letters, 4 digits and 1
    capital letter; and a submission with an unrecognized type, a number
    that does not match the pattern of its type, or a required image
    missing is answered by the validation middleware with status 400 and
    a non-empty list of messages, the controller is not run, the database
    is left as it was (no record is created) and no background task is
    started. *)
Theorem validation_precedes_record_creation :
  map (fun kv => (fst kv, Validation.requiredFields (snd kv)))
      Validation.DOCUMENT_RULES
  = [ ("aadhaar", ["front"; "selfie"]);
      ("pan", ["front"; "selfie"]);
      ("passport", ["front"; "back"; "selfie"]);
      ("driving_license", ["front"; "back"; "selfie"]);
      ("national_id", ["front"; "selfie"]) ]
  /\ (forall s, Validation.aadhaar_pattern s = true
                <-> String.length s = 12
                    /\ Validation.all_chars Validation.isDigit s = true)
  /\ (forall s, Validation.pan_pattern s = true
                <-> exists a b c,
                    s = a ++ b ++ c
                    /\ String.length a = 5
                    /\ Validation.all_chars Validation.isUpper a = true
                    /\ String.length b = 4
                    /\ Validation.all_chars Validation.isDigit b = true
                    /\ String.length c = 1
                    /\ Validation.all_chars Validation.isUpper c = true)
  /\ (forall (extnameLower : string -> string) (env : Env) (now : Z)
             (req : Request) (db : DB),
         invalid_submission req = true ->
         exists errs,
           errs <> []
           /\ submit_route extnameLower env now req db
              = (Validation_response (Validation.mkErrorResponse 400 "Validation failed" errs),
                 db, None)).
Proof.
  split; [reflexivity|].
  split; [exact aadhaar_pattern_spec|].
  split; [exact pan_pattern_spec|].
  intros extnameLower env now req db Hinvalid.
  rewrite <- invalid_submission_sanitized in Hinvalid.
  destruct (validateKYCSubmission_rejects extnameLower _ Hinvalid)
    as (errs & Hne & Hv).
  exists errs. split; [exact Hne|].
  unfold submit_route. rewrite Hv. reflexivity.
Qed.

(** ** Database operations *)

Lemma find_update_first {A : Type} (p : A -> bool) (f : A -> A) (l : list A) :
  (forall x, p (f x) = p x) ->
  find p (update_first p f l) = option_map f (find p l).
Proof.
  intros Hp. induction l as [|x l IH]; [reflexivity|].
  cbn [update_first find]. destruct (p x) eqn:Hx.
  - cbn [find]. rewrite Hp, Hx. reflexivity.
  - cbn [find]. rewrite Hx. exact IH.
Qed.

(** Reading a record after an update that keeps its [_id]. *)
Lemma findById_findByIdAndUpdate (id : string) (f : KYCRecord -> KYCRecord) (db : DB) :
  (forall r, _id (f r) = _id r) ->
  findById (findByIdAndUpdate id f db) id = option_map f (findById db id).
Proof.
  intros Hid. unfold findById, findByIdAndUpdate. cbn [records].
  apply find_update_first. intros r. rewrite Hid. reflexivity.
Qed.

Lemma Status_eqb_eq (a b : Status) : Status_eqb a b = true <-> a = b.
Proof. destruct a, b; simpl; split; intros H; try reflexivity; discriminate. Qed.

(** ** The in-flight guard of [submitKYC] *)

Lemma is_stuck_spec (existing : KYCRecord) (now : Z) :
  is_stuck existing now = true
  <-> status existing = ai_processing
      /\ (600000 < now - submittedAt existing)%Z.
Proof.
  unfold is_stuck, elapsedMinutes, Qle_bool. cbn [Qnum Qden].
  rewrite andb_true_iff, Status_eqb_eq, negb_true_iff, Z.leb_gt.
  split; intros [H1 H2]; (split; [exact H1 | lia]).
Qed.

Lemma create_submission_created (env : Env) (now : Z) (uid docType docNumber : string)
      (files : Files) (req : Request) (db db' : DB) (t : option Task)
      (id : string) (st : Status) (at_ : Z) (ty : string) :
  create_submission env now uid docType docNumber files req db
  = (Response_201 id st at_ ty, db', t) ->
  st = submitted
  /\ exists r, records db' = List.app (records db) [r]
               /\ _id r = id /\ status r = submitted /\ userId r = uid
               /\ t = Some (mkTask id (documentImages r) docType docNumber)
               /\ documentNumber r = docNumber
               /\ documentNumberHash r
                  = Some (hashDocumentNumber SHA256.sha256 docNumber docType).
Proof.
  unfold create_submission.
  destruct (first_path files "documentImages[front]") as [fp|]; [|discriminate].
  destruct (first_path files "documentImages[selfie]") as [sp|]; [|discriminate].
  destruct (files_get files "documentImages[back]") as [[|b bs]|];
    try discriminate.
  - destruct (readFileSync env fp); [|discriminate].
    destruct (readFileSync env sp); [|discriminate].
    destruct (truthy (Some (path b)));
      [destruct (readFileSync env (or_else (Some (path b)) EmptyString));
       [|discriminate]|];
      (destruct (negb (Validation.includes schema_documentTypes docType));
       [discriminate|]);
      intros H; injection H as <- <- <- <- <- <-;
      (split; [reflexivity|]); eexists; repeat split.
  - destruct (readFileSync env fp); [|discriminate].
    destruct (readFileSync env sp); [|discriminate].
    cbn [truthy falsy_opt negb].
    destruct (negb (Validation.includes schema_documentTypes docType));
      [discriminate|].
    intros H; injection H as <- <- <- <- <- <-.
    split; [reflexivity|]. eexists; repeat split.
Qed.

(** C1, as the claim states it, fails: a record left in
    [credential_issued] eleven minutes ago (older than the ten-minute
    threshold) is not auto-rejected; the new submission is refused and the
    database is unchanged. *)
Lemma stale_credential_issued_record_blocks_resubmission :
  in_flight (status (Sample.record "rec1" credential_issued)) = true
  /\ Qle_bool (elapsedMinutes Sample.eleven_minutes
                 (submittedAt (Sample.record "rec1" credential_issued)))
              (10 # 1) = false
  /\ submitKYC (Sample.env Sample.ai_pass Sample.mined) Sample.eleven_minutes
               Sample.request
               (Sample.db_with (Sample.record "rec1" credential_issued))
     = (Response_in_progress credential_issued 0 "rec1",
        Sample.db_with (Sample.record "rec1" credential_issued), None).
Proof. vm_compute. repeat split. Qed.

(** C1, amended. When [submitKYC] finds a record of the user in a
    non-terminal state, the record counts as stuck exactly when its status
    is [ai_processing] and it was submitted more than ten minutes ago. A
    record that is not stuck (any other non-terminal status whatever its
    age, or [ai_processing] and at most ten minutes old) makes the
    submission fail with that record's status and id and leaves the
    database unchanged. A stuck record is set to [rejected] with a
    processing-timeout reason, and the submission then proceeds exactly as
    one of a user with no record in flight; whenever that ends in a 201
    response a new record with status [submitted] has been created. *)
Theorem submitKYC_in_flight_guard :
  forall (env : Env) (now : Z) (req : Request) (db : DB)
         (c1 c2 : ascii) (s1 s2 : string) (files : Files)
         (frontFiles selfieFiles : list UploadedFile) (existing : KYCRecord),
    body_documentType req = Some (String c1 s1) ->
    body_documentNumber req = Some (String c2 s2) ->
    req_files req = Some files ->
    files_get files "documentImages[front]" = Some frontFiles ->
    files_get files "documentImages[selfie]" = Some selfieFiles ->
    findOne_in_flight db (req_user_id req) = Some existing ->
    findById db (_id existing) = Some existing ->
    in_flight (status existing) = true
    /\ (is_stuck existing now = true
        <-> status existing = ai_processing
            /\ (600000 < now - submittedAt existing)%Z)
    /\ (is_stuck existing now = false ->
        submitKYC env now req db
        = (Response_in_progress (status existing) (submittedAt existing)
                                (_id existing), db, None))
    /\ (is_stuck existing now = true ->
        let db1 := findByIdAndUpdate (_id existing) (stuck_update now existing) db in
        submitKYC env now req db
        = create_submission env now (req_user_id req) (String c1 s1) (String c2 s2)
                            files req db1
        /\ (exists old,
               findById db1 (_id existing) = Some old
               /\ status old = rejected
               /\ ai_errors (aiVerification old)
                  = ["Processing timeout - verification took too long"]
               /\ rejectionReason old
                  = Some ("AI verification timeout after "
                            ++ toFixed0 (elapsedMinutes now (submittedAt existing))
                            ++ " minutes. Please resubmit.")
               /\ completedAt old = Some now)
        /\ (forall db2,
               findOne_in_flight db2 (req_user_id req) = None ->
               submitKYC env now req db2
               = create_submission env now (req_user_id req) (String c1 s1)
                                   (String c2 s2) files req db2)
        /\ (forall id st at_ ty db' t,
               submitKYC env now req db = (Response_201 id st at_ ty, db', t) ->
               st = submitted
               /\ exists r, records db' = List.app (records db1) [r]
                            /\ _id r = id /\ status r = submitted)).
Proof.
  intros env now req db c1 c2 s1 s2 files frontFiles selfieFiles existing
         Hty Hnum Hfiles Hfront Hselfie Hfound Hid.
  assert (Hflight : in_flight (status existing) = true).
  { unfold findOne_in_flight in Hfound. apply find_some in Hfound.
    destruct Hfound as [_ H]. apply andb_true_iff in H. apply H. }
  split; [exact Hflight|].
  split; [apply is_stuck_spec|].
  split.
  { intros Hfresh. unfold submitKYC.
    rewrite Hty, Hnum, Hfiles, Hfront, Hselfie, Hfound, Hfresh. reflexivity. }
  intros Hstuck db1.
  assert (Hsubmit :
            submitKYC env now req db
            = create_submission env now (req_user_id req) (String c1 s1)
                                (String c2 s2) files req db1).
  { unfold submitKYC.
    rewrite Hty, Hnum, Hfiles, Hfront, Hselfie, Hfound, Hstuck. reflexivity. }
  split; [exact Hsubmit|].
  split.
  { exists (stuck_update now existing existing). subst db1.
    rewrite findById_findByIdAndUpdate by reflexivity.
    rewrite Hid. repeat split. }
  split.
  { intros db2 Hnone. unfold submitKYC.
    rewrite Hty, Hnum, Hfiles, Hfront, Hselfie, Hnone. reflexivity. }
  intros id st at_ ty db' t Hresp. rewrite Hsubmit in Hresp.
  apply create_submission_created in Hresp.
  destruct Hresp as (Hst & r & Hrecs & Hrid & Hrst & _).
  split; [exact Hst|]. exists r. repeat split; assumption.
Qed.

(** ** The pipeline and its timer *)

Ltac unfold_step :=
  unfold pipeline_step, enter_issueAriesCredential, aries_catch, enter_catch,
    enter_registerOnBlockchain, blockchain_catch, write, with_pc, with_db,
    with_timer, log_calls;
  cbn [m_pc m_timer m_db m_handler m_calls m_ticks].

Ltac split_cases :=
  repeat match goal with
         | |- context [match ?x with _ => _ end] => destruct x
         end.

Lemma findById_User_findByIdAndUpdate (uid : string) (f : User -> User) (db : DB)
      (id : string) :
  findById (User_findByIdAndUpdate uid f db) id = findById db id.
Proof. reflexivity. Qed.

Section PipelineFacts.

Variable env : Env.
Variable task : Task.

Lemma pipeline_step_timer (m : Machine) :
  (m_timer m = timer_armed -> timer_window (m_pc m) = true) ->
  m_timer (pipeline_step env task m) = timer_armed ->
  timer_window (m_pc (pipeline_step env task m)) = true.
Proof.
  destruct m as [db t h pc calls ticks]. cbn [m_timer m_pc].
  intros J.
  destruct pc; unfold_step; split_cases;
    cbn [m_pc m_timer timer_window clearTimeout]; intros H;
    try reflexivity; try discriminate;
    try (apply J in H; discriminate H);
    destruct t; discriminate H.
Qed.

Lemma pipeline_step_record (m : Machine) :
  record_exists task m -> record_exists task (pipeline_step env task m).
Proof.
  destruct m as [db t h pc calls ticks]. unfold record_exists. cbn [m_db].
  intros [r Hr].
  destruct pc; unfold_step; split_cases; cbn [m_db];
    rewrite ?findById_User_findByIdAndUpdate;
    rewrite ?findById_findByIdAndUpdate by reflexivity;
    rewrite Hr; eexists; reflexivity.
Qed.

Lemma pipeline_step_completed (m : Machine) (u : User) :
  record_exists task m ->
  (forall u', m_pc m = B_completed_update u' ->
              record_status task m = Some completed) ->
  m_pc (pipeline_step env task m) = B_completed_update u ->
  record_status task (pipeline_step env task m) = Some completed.
Proof.
  destruct m as [db t h pc calls ticks].
  unfold record_exists, record_status. cbn [m_db m_pc].
  intros [r Hr] L.
  destruct pc; unfold_step; split_cases; cbn [m_db m_pc]; intros H;
    try discriminate H.
  rewrite findById_findByIdAndUpdate by reflexivity. rewrite Hr. reflexivity.
Qed.

Lemma invariant_start (db : DB) :
  findById db (task_kycRecordId task) <> None -> invariant task (start_machine db).
Proof.
  intros H. repeat split.
  - unfold record_exists. cbn [m_db start_machine].
    destruct (findById db (task_kycRecordId task)) as [r|];
      [exists r; reflexivity | contradiction].
  - discriminate.
  - discriminate.
Qed.

Lemma invariant_exec (m m' : Machine) (e : Event) :
  invariant task m -> exec env task m e = Some m' -> invariant task m'.
Proof.
  intros (K & J & L) Hexec. destruct e; cbn [exec] in Hexec.
  - destruct (pipeline_running m); [|discriminate].
    injection Hexec as <-. repeat split.
    + apply pipeline_step_record. exact K.
    + apply pipeline_step_timer. exact J.
    + intros u. apply pipeline_step_completed; assumption.
  - unfold timer_fires in Hexec.
    destruct (m_timer m) eqn:Ht; try discriminate.
    specialize (J eq_refl). injection Hexec as <-.
    destruct K as [r Hr]. repeat split.
    + exists (timeout_update (now env m) r).
      unfold write, with_handler, with_timer, with_db. cbn [m_db]. rewrite findById_findByIdAndUpdate by reflexivity.
      rewrite Hr. reflexivity.
    + discriminate.
    + intros u Hpc. unfold write, with_handler, with_timer, with_db in Hpc.
      cbn [m_pc] in Hpc. rewrite Hpc in J. discriminate J.
  - unfold handler_step in Hexec.
    destruct (m_handler m) as [| |[[rec [u|]]|]| | |]; try discriminate;
      injection Hexec as <-; repeat split; try exact K; try exact J; exact L.
Qed.

Lemma invariant_run (es : list Event) :
  forall m m',
    invariant task m -> run_schedule env task m es = Some m' -> invariant task m'.
Proof.
  induction es as [|e es IH]; intros m m' Hinv Hrun; cbn [run_schedule] in Hrun.
  - injection Hrun as <-. exact Hinv.
  - destruct (exec env task m e) as [m1|] eqn:He; [|discriminate].
    apply (IH m1 m'); [|exact Hrun]. apply (invariant_exec m m1 e); assumption.
Qed.

Lemma settled_exec (m m' : Machine) (e : Event) :
  settled task m -> exec env task m e = Some m' -> settled task m'.
Proof.
  intros (Hpc & Ht & Hst) Hexec. destruct e; cbn [exec] in Hexec.
  - destruct (pipeline_running m); [|discriminate].
    injection Hexec as <-. revert Hpc Ht Hst.
    destruct m as [db t h pc calls ticks]. unfold settled, record_status.
    cbn [m_pc m_timer m_db].
    destruct pc; cbn [after_completion]; intros Hpc Ht Hst;
      try discriminate Hpc; unfold_step; cbn [after_completion];
      rewrite ?findById_User_findByIdAndUpdate; repeat split; assumption.
  - unfold timer_fires in Hexec.
    destruct (m_timer m); try discriminate. contradiction.
  - unfold handler_step in Hexec.
    destruct (m_handler m) as [| |[[rec [u|]]|]| | |]; try discriminate;
      injection Hexec as <-; repeat split; assumption.
Qed.

Lemma settled_run (es : list Event) :
  forall m m', settled task m -> run_schedule env task m es = Some m' -> settled task m'.
Proof.
  induction es as [|e es IH]; intros m m' Hs Hrun; cbn [run_schedule] in Hrun.
  - injection Hrun as <-. exact Hs.
  - destruct (exec env task m e) as [m1|] eqn:He; [|discriminate].
    apply (IH m1 m'); [|exact Hrun]. apply (settled_exec m m1 e); assumption.
Qed.

End PipelineFacts.

(** *** Running the pipeline step by step *)

Lemma run_pipeline_S (env : Env) (task : Task) (n : nat) (m : Machine) :
  run_pipeline env task (S n) m = run_pipeline env task n (pipeline_step env task m).
Proof. reflexivity. Qed.

Lemma run_pipeline_done (env : Env) (task : Task) (n : nat) (m : Machine) :
  m_pc m = P_done -> run_pipeline env task n m = m.
Proof.
  revert m. induction n as [|n IH]; intros m H; [reflexivity|].
  cbn [run_pipeline].
  assert (pipeline_step env task m = m) as ->
      by (unfold pipeline_step; rewrite H; reflexivity).
  apply IH. exact H.
Qed.

Lemma findUserById_findByIdAndUpdate (id : string) (f : KYCRecord -> KYCRecord)
      (db : DB) (x : string) :
  findUserById (findByIdAndUpdate id f db) x = findUserById db x.
Proof. reflexivity. Qed.

Ltac pipeline_next :=
  rewrite run_pipeline_S;
  unfold pipeline_step, enter_issueAriesCredential, aries_catch, enter_catch,
    enter_registerOnBlockchain, blockchain_catch, read_populated, write,
    with_pc, with_db, with_timer, log_calls, now;
  cbn [m_pc m_timer m_db m_handler m_calls m_ticks start_machine clearTimeout].

(** Each resumption brings the pipeline closer to its end. *)
Lemma pipeline_step_remaining (env : Env) (task : Task) (m : Machine) :
  remaining_steps (m_pc (pipeline_step env task m))
  <= pred (remaining_steps (m_pc m)).
Proof.
  destruct m as [db t h pc calls ticks]. cbn [m_pc].
  destruct pc; unfold_step; split_cases; cbn [m_pc remaining_steps pred]; lia.
Qed.

Lemma run_pipeline_remaining (env : Env) (task : Task) (n : nat) :
  forall m,
    remaining_steps (m_pc (run_pipeline env task n m))
    <= remaining_steps (m_pc m) - n.
Proof.
  induction n as [|n IH]; intros m; cbn [run_pipeline]; [lia|].
  pose proof (IH (pipeline_step env task m)) as H1.
  pose proof (pipeline_step_remaining env task m) as H2. lia.
Qed.

(** The pipeline reaches its end within [enough_steps] resumptions. *)
Lemma run_pipeline_terminates (env : Env) (task : Task) (db : DB) :
  m_pc (run_pipeline env task enough_steps (start_machine db)) = P_done.
Proof.
  pose proof (run_pipeline_remaining env task enough_steps (start_machine db)) as H.
  unfold enough_steps in *. cbn [start_machine m_pc remaining_steps] in H.
  destruct (m_pc (run_pipeline env task 16 (start_machine db)));
    cbn [remaining_steps] in H; try lia. reflexivity.
Qed.

(** ** The timeout *)

(** C2, as the claim states it, fails. After a negative verdict the
    record is [rejected] with the reason of the verdict while the timer is
    still armed; when the timer fires then, its callback overwrites the
    reason and sets [completedAt]: the write is not a no-op. And the
    update the callback writes turns a [completed] record into a
    [rejected] one. *)
Lemma timeout_write_is_unconditional :
  option_map
    (fun m => (m_timer m,
               option_map (fun r => (status r, rejectionReason r, completedAt r))
                          (findById (m_db m) "rec1")))
    (run_schedule (Sample.env Sample.ai_fail Sample.mined) Sample.task
       (start_machine (Sample.db_with (Sample.record "rec1" submitted)))
       [ev_pipeline; ev_pipeline; ev_pipeline; ev_pipeline; ev_pipeline])
  = Some (timer_armed, Some (rejected, Some "AI verification failed", None))
  /\ option_map
       (fun m => option_map (fun r => (status r, rejectionReason r, completedAt r))
                            (findById (m_db m) "rec1"))
       (run_schedule (Sample.env Sample.ai_fail Sample.mined) Sample.task
          (start_machine (Sample.db_with (Sample.record "rec1" submitted)))
          [ev_pipeline; ev_pipeline; ev_pipeline; ev_pipeline; ev_pipeline;
           ev_timer])
     = Some (Some (rejected,
                   Some "AI verification timeout. The verification process took too long. Please try again with clearer images.",
                   Some 1700000000005%Z))
  /\ status (timeout_update 1700000000005 (Sample.record "rec1" completed))
     = rejected.
Proof. vm_compute. repeat split. Qed.

(** C2, amended. The update written by the timer's callback does not
    look at the current status: it sets [rejected] whatever the record
    was. A completed record is safe because the timer is cancelled
    first: in every interleaving of the pipeline, the timer and its
    callback, when the pipeline has issued the update to [completed] the
    record is [completed] and the timer is no longer armed, and from then
    on, whatever runs, the record stays [completed] and the timer cannot
    fire. *)
Theorem completed_record_stays_completed :
  forall (env : Env) (task : Task) (db : DB) (es1 es2 : list Event)
         (m1 m2 : Machine) (u : User),
    findById db (task_kycRecordId task) <> None ->
    run_schedule env task (start_machine db) es1 = Some m1 ->
    m_pc m1 = B_completed_update u ->
    run_schedule env task m1 es2 = Some m2 ->
    (forall now r, status (timeout_update now r) = rejected)
    /\ record_status task m1 = Some completed
    /\ m_timer m1 <> timer_armed
    /\ record_status task m2 = Some completed
    /\ timer_fires env task m2 = None.
Proof.
  intros env task db es1 es2 m1 m2 u Hdb Hrun1 Hpc Hrun2.
  split; [reflexivity|].
  pose proof (invariant_run env task es1 _ _ (invariant_start task db Hdb) Hrun1)
    as (K & J & L).
  assert (Hs1 : settled task m1).
  { repeat split.
    - rewrite Hpc. reflexivity.
    - intros Ht. apply J in Ht. rewrite Hpc in Ht. discriminate Ht.
    - apply (L u). exact Hpc. }
  pose proof (settled_run env task es2 _ _ Hs1 Hrun2) as (_ & Ht2 & Hst2).
  destruct Hs1 as (_ & Ht1 & Hst1).
  repeat split; try assumption.
  unfold timer_fires. destruct (m_timer m2); try reflexivity. contradiction.
Qed.

(** C2 on the sample submission: nine resumptions bring the pipeline to
    the update to [completed]; three more end it. *)
Lemma completed_record_stays_completed_witness :
  record_status Sample.task
    (run_pipeline (Sample.env Sample.ai_pass Sample.mined) Sample.task 12
       (start_machine (Sample.db_with (Sample.record "rec1" submitted))))
  = Some completed.
Proof.
  refine (proj1 (proj2 (proj2 (proj2
    (completed_record_stays_completed
       (Sample.env Sample.ai_pass Sample.mined) Sample.task
       (Sample.db_with (Sample.record "rec1" submitted))
       [ev_pipeline; ev_pipeline; ev_pipeline; ev_pipeline; ev_pipeline;
        ev_pipeline; ev_pipeline; ev_pipeline; ev_pipeline]
       [ev_pipeline; ev_pipeline; ev_pipeline]
       (run_pipeline (Sample.env Sample.ai_pass Sample.mined) Sample.task 9
          (start_machine (Sample.db_with (Sample.record "rec1" submitted))))
       (run_pipeline (Sample.env Sample.ai_pass Sample.mined) Sample.task 12
          (start_machine (Sample.db_with (Sample.record "rec1" submitted))))
       (set_kycStatus kyc_pending Sample.alice)
       _ _ _ _))))).
  - discriminate.
  - vm_compute. reflexivity.
  - vm_compute. reflexivity.
  - vm_compute. reflexivity.
Defined.

(** ** Failure of the AI stage *)

(** C3: what the code does in the two cases. After a negative verdict
    the record is [rejected] with the reason and the provider's error
    list, the user's [kycStatus] is set to [rejected], and neither the
    credential issuer nor the ledger is called. After an error thrown by
    the provider the record is [rejected] with the reason and the error
    message and neither later stage runs, but the users are left as they
    were: the [kycStatus] of the owner is not updated. *)
Theorem ai_stage_failure_paths :
  forall (env : Env) (task : Task) (db : DB) (r : KYCRecord) (u : User),
    findById db (task_kycRecordId task) = Some r ->
    findUserById db (userId r) = Some u ->
    DUMMY_AI_VERIFICATION env = false ->
    let answer := verifyDocuments env (task_documentImages task)
                                  (task_documentType task)
                                  (task_documentNumber task) in
    let m := run_pipeline env task enough_steps (start_machine db) in
    (forall aiResult,
        answer = Returns aiResult -> verified aiResult = false ->
        m_pc m = P_done
        /\ (exists r',
               findById (m_db m) (task_kycRecordId task) = Some r'
               /\ status r' = rejected
               /\ rejectionReason r' = Some "AI verification failed"
               /\ ai_errors (aiVerification r')
                  = match ai_result_errors aiResult with
                    | Some es => es
                    | None => []
                    end
               /\ ariesCredential r' = ariesCredential r
               /\ blockchainVerification r' = blockchainVerification r)
        /\ users (m_db m)
           = update_first (fun x => String.eqb (user_id x) (user_id u))
                          (set_kycStatus kyc_rejected) (users db)
        /\ filter issuer_or_ledger_call (m_calls m) = [])
    /\ (forall message,
           answer = Throws message ->
           m_pc m = P_done
           /\ (exists r',
                  findById (m_db m) (task_kycRecordId task) = Some r'
                  /\ status r' = rejected
                  /\ rejectionReason r'
                     = Some ("AI verification error: " ++ message)
                  /\ ai_errors (aiVerification r') = [message]
                  /\ ariesCredential r' = ariesCredential r
                  /\ blockchainVerification r' = blockchainVerification r)
           /\ users (m_db m) = users db
           /\ filter issuer_or_ledger_call (m_calls m) = []).
Proof.
  intros env task db r u Hr Hu Hdummy. cbv zeta. unfold enough_steps.
  split.
  - intros aiResult Hai Hverdict. unfold start_machine.
    pipeline_next. pipeline_next. pipeline_next. pipeline_next.
    rewrite Hdummy, Hai.
    pipeline_next.
    rewrite !findById_findByIdAndUpdate by reflexivity. rewrite Hr.
    cbn [option_map populate]. rewrite !findUserById_findByIdAndUpdate.
    change (userId (ai_update _ _ _ _)) with (userId r). rewrite Hu.
    pipeline_next. rewrite Hverdict. pipeline_next.
    rewrite run_pipeline_done by reflexivity. cbn [m_pc m_db m_calls].
    split; [reflexivity|]. split.
    + rewrite findById_User_findByIdAndUpdate.
      rewrite !findById_findByIdAndUpdate by reflexivity. rewrite Hr.
      cbn [option_map]. eexists. split; [reflexivity|].
      unfold ai_update. rewrite Hverdict. repeat split.
    + split; reflexivity.
  - intros message Hai. unfold start_machine.
    pipeline_next. pipeline_next. pipeline_next. pipeline_next.
    rewrite Hdummy, Hai.
    pipeline_next. pipeline_next. pipeline_next.
    rewrite run_pipeline_done by reflexivity. cbn [m_pc m_db m_calls].
    split; [reflexivity|]. split.
    + rewrite !findById_findByIdAndUpdate by reflexivity. rewrite Hr.
      cbn [option_map]. eexists. split; [reflexivity|]. repeat split.
    + split; reflexivity.
Qed.

(** C3 on the sample submission: with a provider that throws the
    record is rejected and the user is left as before; with a negative
    verdict the user is set to [rejected]. *)
Lemma ai_stage_failure_paths_witness :
  users (m_db (run_pipeline (Sample.env Sample.ai_down Sample.mined) Sample.task
                 enough_steps
                 (start_machine (Sample.db_with (Sample.record "rec1" submitted)))))
  = [Sample.alice]
  /\ users (m_db (run_pipeline (Sample.env Sample.ai_fail Sample.mined) Sample.task
                    enough_steps
                    (start_machine (Sample.db_with (Sample.record "rec1" submitted)))))
     = [set_kycStatus kyc_rejected Sample.alice].
Proof.
  split.
  - pose proof (ai_stage_failure_paths
                  (Sample.env Sample.ai_down Sample.mined) Sample.task
                  (Sample.db_with (Sample.record "rec1" submitted))
                  (Sample.record "rec1" submitted) Sample.alice
                  eq_refl eq_refl eq_refl) as H.
    cbv zeta in H. destruct H as [_ H].
    destruct (H "AI service error: unavailable" eq_refl) as (_ & _ & Husers & _).
    exact Husers.
  - pose proof (ai_stage_failure_paths
                  (Sample.env Sample.ai_fail Sample.mined) Sample.task
                  (Sample.db_with (Sample.record "rec1" submitted))
                  (Sample.record "rec1" submitted) Sample.alice
                  eq_refl eq_refl eq_refl) as H.
    cbv zeta in H. destruct H as [H _].
    destruct (H _ eq_refl eq_refl) as (_ & _ & Husers & _).
    exact Husers.
Defined.

(** ** Failure of the ledger stage *)

(** C4. When [registerOnBlockchain] runs on a record whose owner exists
    and the ledger client throws, the stage ends with the record's status
    [credential_issued] and the failure reason recorded; the ledger
    sub-state, [completedAt] and the issued credential are what they were
    before the stage (unset, for the first two, when they were unset), and
    no user is updated. *)
Theorem ledger_failure_keeps_credential_issued :
  forall (env : Env) (task : Task) (m : Machine) (r : KYCRecord) (u : User)
         (message : string),
    findById (m_db m) (task_kycRecordId task) = Some r ->
    findUserById (m_db m) (userId r) = Some u ->
    registerKYCOnBlockchain env (user_id u) (blockchainData_of r)
                            (clock env (S (m_ticks m))) = Throws message ->
    let m' := run_pipeline env task 4 (enter_registerOnBlockchain task m) in
    m_pc m' = P_done
    /\ (exists r',
           findById (m_db m') (task_kycRecordId task) = Some r'
           /\ status r' = credential_issued
           /\ rejectionReason r'
              = Some ("Blockchain registration failed: " ++ message)
           /\ blockchainVerification r' = blockchainVerification r
           /\ completedAt r' = completedAt r
           /\ ariesCredential r' = ariesCredential r
           /\ (blockchainVerification r = default_blockchainVerification ->
               completedAt r = None ->
               transactionHash (blockchainVerification r') = None
               /\ blockNumber (blockchainVerification r') = None
               /\ verificationHash (blockchainVerification r') = None
               /\ registeredAt (blockchainVerification r') = None
               /\ completedAt r' = None))
    /\ users (m_db m') = users (m_db m).
Proof.
  intros env task m r u message Hr Hu Hthrow. cbv zeta.
  destruct m as [db t h pc calls ticks]. cbn [m_db m_ticks] in Hr, Hu, Hthrow.
  unfold enter_registerOnBlockchain, read_populated, with_pc.
  cbn [m_pc m_timer m_db m_handler m_calls m_ticks].
  rewrite Hr. cbn [populate]. rewrite Hu.
  pipeline_next. rewrite Hthrow.
  pipeline_next. pipeline_next. pipeline_next.
  rewrite run_pipeline_done by reflexivity. cbn [m_pc m_db].
  split; [reflexivity|]. split; [|reflexivity].
  rewrite findById_findByIdAndUpdate by reflexivity. rewrite Hr.
  cbn [option_map]. eexists. split; [reflexivity|].
  repeat split;
    match goal with
    | Hbc : blockchainVerification r = _, Hc : completedAt r = _ |- _ =>
        cbn; try rewrite Hbc; try exact Hc; reflexivity
    end.
Qed.

(** C4 on the sample record, issued a credential, with the chain
    unreachable. *)
Lemma ledger_failure_keeps_credential_issued_witness :
  option_map
    (fun r => (status r, blockchainVerification r, completedAt r))
    (findById
       (m_db (run_pipeline (Sample.env Sample.ai_pass Sample.chain_down)
                Sample.task 4
                (enter_registerOnBlockchain Sample.task
                   (start_machine
                      (Sample.db_with (Sample.record "rec1" credential_issued))))))
       "rec1")
  = Some (credential_issued, default_blockchainVerification, None).
Proof.
  pose proof (ledger_failure_keeps_credential_issued
                (Sample.env Sample.ai_pass Sample.chain_down) Sample.task
                (start_machine
                   (Sample.db_with (Sample.record "rec1" credential_issued)))
                (Sample.record "rec1" credential_issued) Sample.alice
                "Blockchain network is not reachable"
                eq_refl eq_refl eq_refl) as H.
  cbv zeta in H. destruct H as (_ & (r' & Hfind & Hst & _ & Hbc & Hc & _) & _).
  change (task_kycRecordId Sample.task) with "rec1" in Hfind.
  rewrite Hfind. cbn [option_map]. rewrite Hst, Hbc, Hc. reflexivity.
Defined.

(** ** What reaches the ledger and the credential issuer *)

(** C5, as the claim states it, fails: the payload the controller hands
    to the ledger client for the sample record holds the plaintext
    document number next to its hash. *)
Lemma ledger_payload_carries_plaintext_number :
  map (fun p => (bd_documentNumber p, bd_documentNumberHash p))
      (ledger_payloads
         (m_calls
            (run_pipeline (Sample.env Sample.ai_pass Sample.mined) Sample.task
               enough_steps
               (start_machine (Sample.db_with (Sample.record "rec1" submitted))))))
  = [("123456789012",
      Some "9333b72b9aad2663ecc6367fca11175dbd527f7c7674b18308b33d5289209b79")]
  /\ documentNumber (Sample.record "rec1" submitted) = "123456789012".
Proof. vm_compute. repeat split. Qed.

(** C5, amended. The payload built for the ledger client holds the
    document type, the hash of the document number, the hash of the user
    id, the file hashes, the Merkle root, the two scores and, when IPFS
    storage is enabled, the content ids under [ipfsCIDs]; it also holds
    the plaintext document number. The ledger client does not read that
    field: the hashed data, the call of the contract and the result are the
    same whatever the field holds, so of the document number only the hash
    is behind what reaches the chain, and for a record created by
    [submitKYC] that hash is [hashDocumentNumber] of the submitted number
    and type. The credential data holds the plaintext document number, and
    [issueKYCCredential] puts it among the attributes it offers. *)
Theorem ledger_payload_and_plaintext_confinement :
  (forall r : KYCRecord,
      blockchainData_of r
      = mkBlockchainData
          (documentType r) (documentNumber r) (documentNumberHash r)
          (userIdHash r) (fileHashes r) (merkleRoot r)
          (ai_confidenceScore (aiVerification r))
          (ai_faceMatchScore (aiVerification r))
          (if ipfs_enabled (ipfsStorage r)
           then Some (mkTriple (ipfs_frontCID (ipfsStorage r))
                               (ipfs_backCID (ipfsStorage r))
                               (ipfs_selfieCID (ipfsStorage r)))
           else None))
  /\ (forall (env : Env) (uid : string) (payload : BlockchainData)
             (timestamp : Z) (plaintext : string),
         build_hashData uid (with_documentNumber plaintext payload) timestamp
         = build_hashData uid payload timestamp
         /\ contract_calls env uid (with_documentNumber plaintext payload) timestamp
            = contract_calls env uid payload timestamp
         /\ registerKYCOnBlockchain env uid (with_documentNumber plaintext payload)
                                    timestamp
            = registerKYCOnBlockchain env uid payload timestamp)
  /\ (forall env now uid docType docNumber files req db id st at_ ty db' t,
         create_submission env now uid docType docNumber files req db
         = (Response_201 id st at_ ty, db', t) ->
         exists r, records db' = List.app (records db) [r]
                   /\ documentNumber r = docNumber
                   /\ bd_documentNumberHash (blockchainData_of r)
                      = Some (hashDocumentNumber SHA256.sha256 docNumber docType))
  /\ (forall (r : KYCRecord) (u : User) (date : string),
         cd_documentNumber (credentialData_of r u) = documentNumber r
         /\ In ("documentNumber", Some (documentNumber r))
               (issueKYCCredential_attributes (credentialData_of r u) date)).
Proof.
  split; [reflexivity|].
  split; [intros env uid payload timestamp plaintext; repeat split|].
  split.
  - intros env now uid docType docNumber files req db id st at_ ty db' t H.
    apply create_submission_created in H.
    destruct H as (_ & r & Hrecs & _ & _ & _ & _ & Hnum & Hhash).
    exists r. repeat split; assumption.
  - intros r u date. split; [reflexivity|].
    cbn. right. right. left. reflexivity.
Qed.

(** ** Instances on the sample data *)

(** C1 on a record stuck in [ai_processing] for eleven minutes: the
    submission proceeds on the database in which that record is rejected,
    and is accepted. *)
Lemma submitKYC_in_flight_guard_witness :
  submitKYC (Sample.env Sample.ai_pass Sample.mined) Sample.eleven_minutes
            Sample.request (Sample.db_with (Sample.record "rec1" ai_processing))
  = create_submission (Sample.env Sample.ai_pass Sample.mined)
      Sample.eleven_minutes "u1" "aadhaar" "123456789012" Sample.two_images
      Sample.request
      (findByIdAndUpdate "rec1"
         (stuck_update Sample.eleven_minutes (Sample.record "rec1" ai_processing))
         (Sample.db_with (Sample.record "rec1" ai_processing)))
  /\ fst (fst (submitKYC (Sample.env Sample.ai_pass Sample.mined)
                 Sample.eleven_minutes Sample.request
                 (Sample.db_with (Sample.record "rec1" ai_processing))))
     = Response_201 "rec2" submitted 660000 "aadhaar".
Proof.
  destruct (submitKYC_in_flight_guard
              (Sample.env Sample.ai_pass Sample.mined) Sample.eleven_minutes
              Sample.request (Sample.db_with (Sample.record "rec1" ai_processing))
              "a"%char "1"%char "adhaar" "23456789012" Sample.two_images
              [Sample.image "/uploads/front.jpg"]
              [Sample.image "/uploads/selfie.jpg"]
              (Sample.record "rec1" ai_processing)
              eq_refl eq_refl eq_refl eq_refl eq_refl eq_refl eq_refl)
    as (_ & _ & _ & H).
  assert (Hstuck : is_stuck (Sample.record "rec1" ai_processing)
                            Sample.eleven_minutes = true) by reflexivity.
  destruct (H Hstuck) as (Hsubmit & _).
  split; [exact Hsubmit|]. vm_compute. reflexivity.
Defined.

(** C7 on a submission with the document type ["voter_id"]. *)
Lemma validation_precedes_record_creation_witness :
  exists errs,
    errs <> []
    /\ submit_route (fun _ => ".jpg") (Sample.env Sample.ai_pass Sample.mined) 0
                    Sample.bad_type_request
                    (Sample.db_with (Sample.record "rec1" completed))
       = (Validation_response (Validation.mkErrorResponse 400 "Validation failed" errs),
          Sample.db_with (Sample.record "rec1" completed), None).
Proof.
  destruct validation_precedes_record_creation as (_ & _ & _ & H).
  apply H. reflexivity.
Defined.

(** C10 on three paths, the pinning of the second failing, without the
    local fallback. *)
Lemma uploadMultipleToIPFS_isolates_failures_witness :
  exists results w',
    Ipfs.uploadMultipleToIPFS nat
      (fun _ p => Returns ("bytes of " ++ p))
      (fun _ p _ w =>
         (if String.eqb p "/uploads/back.jpg" then Throws "pin refused"
          else Returns (Ipfs.mkPinResult (Some ("cid-of-" ++ p)) 1000 "t"),
          S w))
      SHA256.sha256 (Ipfs.mkConfig "pinata" true false)
      ["/uploads/front.jpg"; "/uploads/back.jpg"; "/uploads/selfie.jpg"]
      (Ipfs.mkMetadata "rec1" "passport" 0 None) 0
    = (Returns results, w')
    /\ List.length results = 3
    /\ map Ipfs.filePath results
       = ["/uploads/front.jpg"; "/uploads/back.jpg"; "/uploads/selfie.jpg"].
Proof.
  destruct (uploadMultipleToIPFS_isolates_failures nat
              (fun _ p => Returns ("bytes of " ++ p))
              (fun _ p _ w =>
                 (if String.eqb p "/uploads/back.jpg" then Throws "pin refused"
                  else Returns (Ipfs.mkPinResult (Some ("cid-of-" ++ p)) 1000 "t"),
                  S w))
              SHA256.sha256 (Ipfs.mkConfig "pinata" true false)
              ["/uploads/front.jpg"; "/uploads/back.jpg"; "/uploads/selfie.jpg"]
              (Ipfs.mkMetadata "rec1" "passport" 0 None) 0)
    as (results & w' & H1 & H2 & H3 & _).
  exists results, w'. repeat split; assumption.
Defined.

(** The batch of the witness of C10, computed: the second entry has
    failed with the message of the error, the others are uploaded. *)
Example uploadMultipleToIPFS_sample :
  option_map
    (map (fun e => (Ipfs.filePath e, Ipfs.success e, Ipfs.e_cid e, Ipfs.e_error e)))
    (match fst (Ipfs.uploadMultipleToIPFS nat
                  (fun _ p => Returns ("bytes of " ++ p))
                  (fun _ p _ w =>
                     (if String.eqb p "/uploads/back.jpg" then Throws "pin refused"
                      else Returns (Ipfs.mkPinResult (Some ("cid-of-" ++ p)) 1000 "t"),
                      S w))
                  SHA256.sha256 (Ipfs.mkConfig "pinata" true false)
                  ["/uploads/front.jpg"; "/uploads/back.jpg"; "/uploads/selfie.jpg"]
                  (Ipfs.mkMetadata "rec1" "passport" 0 None) 0) with
     | Returns rs => Some rs
     | Throws _ => None
     end)
  = Some [ ("/uploads/front.jpg", true, Some "cid-of-/uploads/front.jpg", None);
           ("/uploads/back.jpg", false, None,
            Some "IPFS upload failed: pin refused");
           ("/uploads/selfie.jpg", true, Some "cid-of-/uploads/selfie.jpg", None) ].
Proof. vm_compute. reflexivity. Qed.

(** With the local fallback (the default) a failure of the pinning
    service is swallowed by [uploadToIPFS]: the entry has
    [success = true], no content id and the message of the error. *)
Example uploadMultipleToIPFS_fallback_sample :
  option_map
    (map (fun e => (Ipfs.filePath e, Ipfs.success e, Ipfs.e_cid e,
                    Ipfs.e_provider e, Ipfs.e_error e)))
    (match fst (Ipfs.uploadMultipleToIPFS nat
                  (fun _ p => Returns ("bytes of " ++ p))
                  (fun _ p _ w => (Throws "pin refused", S w))
                  SHA256.sha256 (Ipfs.mkConfig "pinata" true true)
                  ["/uploads/front.jpg"]
                  (Ipfs.mkMetadata "rec1" "passport" 0 None) 0) with
     | Returns rs => Some rs
     | Throws _ => None
     end)
  = Some [ ("/uploads/front.jpg", true, None, Some "fallback-local",
            Some "pin refused") ].
Proof. vm_compute. reflexivity. Qed.

(** The scenarios of the specification on the stub collaborators: a
    passing verdict ends in [completed] with the values of the chain and
    the user verified; a failing ledger leaves [credential_issued]. *)
Example pipeline_completes_sample :
  option_map
    (fun r => (status r, transactionHash (blockchainVerification r),
               blockNumber (blockchainVerification r), completedAt r))
    (findById
       (m_db (run_pipeline (Sample.env Sample.ai_pass Sample.mined) Sample.task
                enough_steps
                (start_machine (Sample.db_with (Sample.record "rec1" submitted)))))
       "rec1")
  = Some (completed, Some "0xabc", Some 42%Z, Some 1700000000008%Z).
Proof. vm_compute. reflexivity. Qed.

(** * Further properties of the code *)

(** ** Merkle root: what the root binds *)

Lemma SHA256_sha256_length (s : string) : String.length (SHA256.sha256 s) = 64.
Proof.
  unfold SHA256.sha256, SHA256.hex_of_regs, SHA256.hex8. reflexivity.
Qed.

Section MerkleBinding.

Variable sha256 : string -> string.
Variable n : nat.
Hypothesis n_positive : 0 < n.
Hypothesis digest_length : forall s, String.length (sha256 s) = n.

Lemma length_n_nonempty (h : string) : String.length h = n -> h <> EmptyString.
Proof. intros H ->. simpl in H. lia. Qed.

Lemma pair_binding (a b a' b' : string) :
  String.length a = n -> String.length a' = n ->
  sha256 (a ++ b) = sha256 (a' ++ b') ->
  (a = a' /\ b = b') \/ a ++ b <> a' ++ b'.
Proof.
  intros Ha Ha' H.
  destruct (string_dec (a ++ b) (a' ++ b')) as [Heq|Hneq]; [left | right; exact Hneq].
  assert (a = a') as <-
      by (apply (append_same_length_inj a a' b b'); [lia | exact Heq]).
  split; [reflexivity|].
  revert Heq. clear. induction a as [|c a IH]; simpl; intros H;
    [exact H | injection H as H; apply IH; exact H].
Qed.

(** A level is the hashes of its texts. *)
Lemma pairUp_pair_texts (k : nat) :
  forall l, List.length l <= k -> pairUp sha256 l = map sha256 (pair_texts l).
Proof.
  induction k as [|k IH]; intros l Hk.
  - destruct l; [reflexivity | simpl in Hk; lia].
  - destruct l as [|a [|b r]]; try reflexivity.
    cbn [pairUp pair_texts map]. rewrite IH by (simpl in Hk; lia). reflexivity.
Qed.

Lemma pairUp_binding (k : nat) :
  forall l1 l2,
    List.length l1 <= k ->
    List.length l1 = List.length l2 ->
    Forall (fun h => String.length h = n) l1 ->
    Forall (fun h => String.length h = n) l2 ->
    pairUp sha256 l1 = pairUp sha256 l2 ->
    l1 = l2
    \/ exists x y, In x (pair_texts l1) /\ In y (pair_texts l2)
                   /\ x <> y /\ sha256 x = sha256 y.
Proof.
  induction k as [|k IH]; intros l1 l2 Hk Hlen F1 F2 Hp.
  - destruct l1; [|simpl in Hk; lia]. destruct l2; [|discriminate].
    left. reflexivity.
  - destruct l1 as [|a [|b r1]]; destruct l2 as [|a' [|b' r2]];
      try discriminate Hlen.
    + left. reflexivity.
    + pose proof (Forall_inv F1) as Ha. pose proof (Forall_inv F2) as Ha'.
      cbn beta in Ha, Ha'.
      cbn [pairUp] in Hp. injection Hp as Hp.
      destruct (pair_binding a a a' a' Ha Ha' Hp) as [[-> _]|Hc];
        [left; reflexivity | right].
      exists (a ++ a), (a' ++ a'). cbn [pair_texts In]. auto.
    + pose proof (Forall_inv F1) as Ha. pose proof (Forall_inv F2) as Ha'.
      pose proof (Forall_inv (Forall_inv_tail F1)) as Hb.
      pose proof (Forall_inv (Forall_inv_tail F2)) as Hb'.
      pose proof (Forall_inv_tail (Forall_inv_tail F1)) as F1''.
      pose proof (Forall_inv_tail (Forall_inv_tail F2)) as F2''.
      cbn beta in Ha, Ha', Hb, Hb'.
      cbn [pairUp pair_texts] in *.
      rewrite (or_else_nonempty b a (length_n_nonempty b Hb)) in *.
      rewrite (or_else_nonempty b' a' (length_n_nonempty b' Hb')) in *.
      injection Hp as Hhead Htail.
      destruct (pair_binding a b a' b' Ha Ha' Hhead) as [[-> ->]|Hc].
      * destruct (IH r1 r2) as [->|(x & y & Hx & Hy & Hxy & Hh)]; try assumption.
        -- simpl in Hk. lia.
        -- simpl in Hlen. lia.
        -- left. reflexivity.
        -- right. exists x, y. cbn [In]. auto.
      * right. exists (a ++ b), (a' ++ b'). cbn [In]. auto.
Qed.

Lemma pairUp_digests (k : nat) :
  forall l, List.length l <= k ->
            Forall (fun h => String.length h = n) (pairUp sha256 l).
Proof.
  induction k as [|k IH]; intros l Hk.
  - destruct l; [constructor | simpl in Hk; lia].
  - destruct l as [|a [|b r]]; cbn [pairUp].
    + constructor.
    + constructor; [apply digest_length | constructor].
    + constructor; [apply digest_length | apply IH; simpl in Hk; lia].
Qed.

Lemma createMerkleRoot_array_binding (k : nat) :
  forall l1 l2,
    List.length l1 <= k ->
    List.length l1 = List.length l2 ->
    Forall (fun h => String.length h = n) l1 ->
    Forall (fun h => String.length h = n) l2 ->
    createMerkleRoot_array sha256 l1 = createMerkleRoot_array sha256 l2 ->
    l1 = l2
    \/ exists x y, In x (hashed_texts sha256 k l1) /\ In y (hashed_texts sha256 k l2)
                   /\ x <> y /\ sha256 x = sha256 y.
Proof.
  induction k as [|k IH]; intros l1 l2 Hk Hlen F1 F2 Hroot.
  - destruct l1; [|simpl in Hk; lia]. destruct l2; [|discriminate].
    left. reflexivity.
  - destruct l1 as [|a [|b r1]]; destruct l2 as [|a' [|b' r2]];
      try discriminate Hlen.
    + left. reflexivity.
    + simp createMerkleRoot_array in Hroot. left. rewrite Hroot. reflexivity.
    + simp createMerkleRoot_array in Hroot.
      cbn [hashed_texts].
      rewrite !newLevel_pairUp in *.
      assert (Hl1 : List.length (pairUp sha256 (a :: b :: r1)) <= k).
      { pose proof (newLevel_shorter sha256 a b r1) as H.
        rewrite newLevel_pairUp in H. simpl in Hk. simpl in H. simpl. lia. }
      assert (Hl2 : List.length (pairUp sha256 (a :: b :: r1))
                    = List.length (pairUp sha256 (a' :: b' :: r2))).
      { rewrite <- !newLevel_pairUp, !newLevel_length, Hlen. reflexivity. }
      destruct (IH _ _ Hl1 Hl2
                   (pairUp_digests _ _ (Nat.le_refl _))
                   (pairUp_digests _ _ (Nat.le_refl _)) Hroot)
        as [Hp|(x & y & Hx & Hy & Hxy & Hh)].
      * destruct (pairUp_binding (List.length (a :: b :: r1))
                    (a :: b :: r1) (a' :: b' :: r2) (Nat.le_refl _) Hlen F1 F2 Hp)
          as [Heq|(x & y & Hx & Hy & Hxy & Hh)]; [left; exact Heq | right].
        exists x, y. split; [apply in_or_app; left; exact Hx|].
        split; [apply in_or_app; left; exact Hy|]. split; assumption.
      * right. exists x, y. split; [apply in_or_app; right; exact Hx|].
        split; [apply in_or_app; right; exact Hy|]. split; assumption.
Qed.

End MerkleBinding.

(** X1. The Merkle root binds a list of digests of a given length: when
    two lists of the same number of digests have the same root, either
    they are the same list or the two computations hold a collision, two
    different texts with the same hash, one among the texts hashed on the
    way to the first root and one among those hashed on the way to the
    second. *)
Theorem createMerkleRoot_binds_same_length_lists :
  forall (sha256 : string -> string) (n : nat) (l1 l2 : list string),
    0 < n ->
    (forall s, String.length (sha256 s) = n) ->
    Forall (fun h => String.length h = n) l1 ->
    Forall (fun h => String.length h = n) l2 ->
    List.length l1 = List.length l2 ->
    createMerkleRoot sha256 (Some l1) = createMerkleRoot sha256 (Some l2) ->
    l1 = l2 \/ collision_between sha256 l1 l2.
Proof.
  intros sha256 n l1 l2 Hn Hd F1 F2 Hlen Hroot. cbn [createMerkleRoot] in Hroot.
  unfold collision_between. rewrite <- Hlen.
  apply (createMerkleRoot_array_binding sha256 n Hn Hd (List.length l1));
    try assumption. lia.
Qed.

(** X1 on two digests of SHA-256, where the lists are the same, and on
    two lists that differ and have the same root under a hash function
    that is easy to collide, where the collision is between the two
    texts hashed for the roots. *)
Lemma createMerkleRoot_binds_same_length_lists_witness :
  ([SHA256.sha256 "a"; SHA256.sha256 "b"] = [SHA256.sha256 "a"; SHA256.sha256 "b"]
   \/ collision_between SHA256.sha256
        [SHA256.sha256 "a"; SHA256.sha256 "b"]
        [SHA256.sha256 "a"; SHA256.sha256 "b"])
  /\ (["a"; "b"] = ["a"; "c"]
      \/ collision_between first_char_hash ["a"; "b"] ["a"; "c"]).
Proof.
  split.
  - apply (createMerkleRoot_binds_same_length_lists SHA256.sha256 64
             [SHA256.sha256 "a"; SHA256.sha256 "b"]
             [SHA256.sha256 "a"; SHA256.sha256 "b"]).
    + lia.
    + exact SHA256_sha256_length.
    + repeat constructor; apply SHA256_sha256_length.
    + repeat constructor; apply SHA256_sha256_length.
    + reflexivity.
    + reflexivity.
  - apply (createMerkleRoot_binds_same_length_lists first_char_hash 1
             ["a"; "b"] ["a"; "c"]).
    + lia.
    + intros [|c s]; reflexivity.
    + repeat constructor.
    + repeat constructor.
    + reflexivity.
    + reflexivity.
Defined.

(** The collision of the second case: the texts [ab] and [ac]. *)
Example createMerkleRoot_collision_read_off :
  hashed_texts first_char_hash 2 ["a"; "b"] = ["ab"]
  /\ hashed_texts first_char_hash 2 ["a"; "c"] = ["ac"]
  /\ createMerkleRoot first_char_hash (Some ["a"; "b"])
     = createMerkleRoot first_char_hash (Some ["a"; "c"]).
Proof. repeat split. Qed.

Lemma pairUp_duplicated_last (sha256 : string -> string) (k : nat) :
  forall pre x,
    List.length pre <= k ->
    Nat.even (List.length pre) = true ->
    pairUp sha256 (List.app pre [x]) = pairUp sha256 (List.app pre [x; x]).
Proof.
  induction k as [|k IH]; intros pre x Hk Heven.
  - destruct pre; [|simpl in Hk; lia]. cbn. destruct x; reflexivity.
  - destruct pre as [|a [|b rest]].
    + cbn. destruct x; reflexivity.
    + discriminate Heven.
    + cbn [List.app pairUp]. f_equal. apply IH; [simpl in Hk; lia | exact Heven].
Qed.

(** X2. The root does not bind the number of leaves: a list of odd
    length (three or more) and the list obtained by repeating its last
    element have the same root, since an odd level is padded with its last
    hash. *)
Theorem createMerkleRoot_repeated_last_leaf :
  forall (sha256 : string -> string) (pre : list string) (x : string),
    pre <> [] ->
    Nat.even (List.length pre) = true ->
    createMerkleRoot sha256 (Some (List.app pre [x]))
    = createMerkleRoot sha256 (Some (List.app pre [x; x])).
Proof.
  intros sha256 pre x Hne Heven. cbn [createMerkleRoot].
  destruct pre as [|a [|b rest]]; [contradiction | discriminate Heven |].
  cbn [List.app]. simp createMerkleRoot_array.
  rewrite !newLevel_pairUp.
  change (a :: b :: List.app rest [x]) with (List.app (a :: b :: rest) [x]).
  change (a :: b :: List.app rest [x; x]) with (List.app (a :: b :: rest) [x; x]).
  rewrite (pairUp_duplicated_last sha256 (List.length (a :: b :: rest))
             (a :: b :: rest) x (Nat.le_refl _) Heven).
  reflexivity.
Qed.

(** X2 on three and four leaves, with SHA-256. *)
Lemma createMerkleRoot_repeated_last_leaf_witness :
  createMerkleRoot SHA256.sha256 (Some ["h1"; "h2"; "h3"])
  = createMerkleRoot SHA256.sha256 (Some ["h1"; "h2"; "h3"; "h3"]).
Proof.
  apply (createMerkleRoot_repeated_last_leaf SHA256.sha256 ["h1"; "h2"] "h3").
  - discriminate.
  - reflexivity.
Defined.

(** ** Integrity proofs *)

Lemma obj_get_set_absent (o : JsObject) (key : string) (v : JsValue) :
  has_key o key = false -> obj_get (obj_set key v o) key = Some v.
Proof.
  unfold has_key. induction o as [|[k v'] rest IH]; cbn [obj_get obj_set].
  - rewrite String.eqb_refl. reflexivity.
  - destruct (String.eqb k key) eqn:E; [discriminate|].
    cbn [obj_get]. rewrite E. exact IH.
Qed.

Lemma obj_without_set_absent (o : JsObject) (key : string) (v : JsValue) :
  has_key o key = false -> obj_without key (obj_set key v o) = o.
Proof.
  unfold has_key, obj_without.
  induction o as [|[k v'] rest IH]; cbn [obj_get obj_set filter fst].
  - rewrite String.eqb_refl. reflexivity.
  - destruct (String.eqb k key) eqn:E; [discriminate|].
    cbn [filter fst]. rewrite E. cbn [negb]. intros H. rewrite IH by exact H.
    reflexivity.
Qed.

Lemma obj_get_set_present (o : JsObject) (key : string) (v : JsValue) :
  obj_get (obj_set key v o) key = Some v.
Proof.
  induction o as [|[k v'] rest IH]; cbn [obj_get obj_set].
  - rewrite String.eqb_refl. reflexivity.
  - destruct (String.eqb k key) eqn:E; cbn [obj_get]; rewrite E;
      [reflexivity | exact IH].
Qed.

Lemma obj_without_set (o : JsObject) (key : string) (v : JsValue) :
  obj_without key (obj_set key v o) = obj_without key o.
Proof.
  unfold obj_without.
  induction o as [|[k v'] rest IH]; cbn [obj_set filter fst].
  - rewrite String.eqb_refl. reflexivity.
  - destruct (String.eqb k key) eqn:E; cbn [filter fst]; rewrite E; cbn [negb];
      [reflexivity | rewrite IH; reflexivity].
Qed.

(** X3. [verifyIntegrity] accepts what [addIntegrityProof] returns for
    a data object that has no [_proof] property of its own; in general
    the check recomputes the hash over the object without its [_proof]
    property, so the result for an object that already had one is accepted
    exactly when removing that property does not change the hash; and an
    object without a [_proof] property is refused. *)
Theorem verifyIntegrity_addIntegrityProof :
  forall (sha256 : string -> string) (JSON_stringify : JsObject -> string)
         (data : JsObject) (timestamp : Z),
    (has_key data "_proof" = false ->
     verifyIntegrity sha256 JSON_stringify
       (addIntegrityProof sha256 JSON_stringify data timestamp) = true)
    /\ verifyIntegrity sha256 JSON_stringify
         (addIntegrityProof sha256 JSON_stringify data timestamp)
       = String.eqb (sha256 (JSON_stringify (obj_without "_proof" data)))
                    (sha256 (JSON_stringify data))
    /\ (has_key data "_proof" = false ->
        verifyIntegrity sha256 JSON_stringify data = false).
Proof.
  intros sha256 JSON_stringify data timestamp.
  assert (Hgen : verifyIntegrity sha256 JSON_stringify
                   (addIntegrityProof sha256 JSON_stringify data timestamp)
                 = String.eqb (sha256 (JSON_stringify (obj_without "_proof" data)))
                              (sha256 (JSON_stringify data))).
  { unfold verifyIntegrity, addIntegrityProof.
    rewrite obj_get_set_present, obj_without_set. reflexivity. }
  split; [|split; [exact Hgen|]].
  - intros Habsent. rewrite Hgen.
    assert (obj_without "_proof" data = data) as ->.
    { rewrite <- (obj_without_set data "_proof" (js_other true EmptyString)).
      apply obj_without_set_absent. exact Habsent. }
    apply String.eqb_refl.
  - unfold has_key, verifyIntegrity.
    destruct (obj_get data "_proof"); [discriminate | reflexivity].
Qed.

(** ** The validation middleware and the controller together *)

Lemma keep_chars_all (cls : ascii -> bool) (s : string) :
  Validation.all_chars cls (Validation.keep_chars cls s) = true.
Proof.
  induction s as [|c s IH]; [reflexivity|].
  cbn [Validation.keep_chars]. destruct (cls c) eqn:Hc; [|exact IH].
  cbn [Validation.all_chars]. rewrite Hc, IH. reflexivity.
Qed.

Lemma keep_chars_fixed (cls : ascii -> bool) (s : string) :
  Validation.all_chars cls s = true -> Validation.keep_chars cls s = s.
Proof.
  induction s as [|c s IH]; [reflexivity|].
  cbn [Validation.all_chars Validation.keep_chars]. intros H.
  apply andb_true_iff in H. destruct H as [Hc Hs]. rewrite Hc, (IH Hs). reflexivity.
Qed.

Lemma sanitize_file_idempotent (f : UploadedFile) :
  Validation.sanitize_file (Validation.sanitize_file f) = Validation.sanitize_file f.
Proof.
  unfold Validation.sanitize_file. cbn [path size mimetype originalname].
  rewrite (keep_chars_fixed _ _ (keep_chars_all Validation.safe_char (originalname f))).
  reflexivity.
Qed.

(** X4. [sanitizeFileMetadata] leaves in every file name only the
    characters of [[a-zA-Z0-9._-]]; it changes nothing else of the request
    (fields, number of files, paths, sizes and declared types), and
    applied twice it gives what it gives applied once. *)
Theorem sanitizeFileMetadata_safe_and_idempotent :
  forall req : Request,
    Validation.sanitizeFileMetadata (Validation.sanitizeFileMetadata req)
    = Validation.sanitizeFileMetadata req
    /\ (forall files key fs f,
           req_files (Validation.sanitizeFileMetadata req) = Some files ->
           files_get files key = Some fs -> In f fs ->
           Validation.all_chars Validation.safe_char (originalname f) = true)
    /\ (forall files key,
           req_files req = Some files ->
           option_map (map (fun f => (path f, size f, mimetype f)))
             (opt_field (fun fs => files_get fs key)
                        (req_files (Validation.sanitizeFileMetadata req)))
           = option_map (map (fun f => (path f, size f, mimetype f)))
                        (files_get files key)).
Proof.
  intros req. split; [|split].
  - unfold Validation.sanitizeFileMetadata.
    cbn [req_user_id body_documentType body_documentNumber req_files req_ip
         req_user_agent].
    f_equal. destruct (req_files req) as [files|]; [|reflexivity].
    cbn [option_map]. f_equal. rewrite map_map. apply map_ext.
    intros [k v]. cbn [fst snd]. f_equal. rewrite map_map. apply map_ext.
    exact sanitize_file_idempotent.
  - intros files key fs f Hfiles Hget Hin.
    unfold Validation.sanitizeFileMetadata in Hfiles. cbn [req_files] in Hfiles.
    destruct (req_files req) as [files0|]; [|discriminate].
    cbn [option_map] in Hfiles. injection Hfiles as <-.
    rewrite files_get_sanitized in Hget.
    destruct (files_get files0 key) as [fs0|]; [|discriminate].
    cbn [option_map] in Hget. injection Hget as <-.
    apply in_map_iff in Hin. destruct Hin as (f0 & <- & _).
    apply keep_chars_all.
  - intros files key Hfiles.
    unfold Validation.sanitizeFileMetadata. cbn [req_files]. rewrite Hfiles.
    cbn [option_map opt_field]. rewrite files_get_sanitized.
    destruct (files_get files key) as [fs|]; [|reflexivity].
    cbn [option_map]. rewrite map_map. reflexivity.
Qed.

Lemma file_errors_nonempty (ext : string -> string) (rules : Validation.Rules)
      (files : Files) :
  forall errs,
    Validation.file_errors ext rules files = Returns errs ->
    forall k, files_get files k <> Some [].
Proof.
  induction files as [|[k0 v0] rest IH]; intros errs H k.
  - discriminate.
  - cbn [Validation.file_errors] in H. destruct v0 as [|f fs]; [discriminate|].
    destruct (Validation.file_errors ext rules rest) as [errs'|m];
      [|discriminate].
    cbn [files_get]. destruct (String.eqb k0 k); [discriminate|].
    apply (IH errs' eq_refl).
Qed.

Lemma rules_require_front_and_selfie (t : string) (rules : Validation.Rules) :
  Validation.rules_get Validation.DOCUMENT_RULES t = Some rules ->
  In "front" (Validation.requiredFields rules)
  /\ In "selfie" (Validation.requiredFields rules).
Proof.
  unfold Validation.DOCUMENT_RULES. cbn [Validation.rules_get].
  repeat (match goal with
          | |- context [String.eqb ?a t] => destruct (String.eqb a t)
          end;
          [intros H; injection H as <-; cbn [Validation.requiredFields In];
           split; auto |]).
  discriminate.
Qed.

Lemma required_file_present (files : Files) (fields : list string) (field : string) :
  existsb (file_missing (Some files)) fields = false ->
  In field fields ->
  exists f fs, files_get files ("documentImages[" ++ field ++ "]") = Some (f :: fs).
Proof.
  intros H Hin.
  assert (Hf : file_missing (Some files) field = false).
  { destruct (file_missing (Some files) field) eqn:E; [|reflexivity].
    assert (existsb (file_missing (Some files)) fields = true)
      by (apply existsb_exists; exists field; split; assumption).
    congruence. }
  cbn [file_missing] in Hf.
  destruct (files_get files ("documentImages[" ++ field ++ "]")) as [[|f fs]|];
    try discriminate.
  exists f, fs. reflexivity.
Qed.

Lemma create_submission_answers (env : Env) (now : Z) (uid docType docNumber : string)
      (files : Files) (req : Request) (db : DB) (f s : UploadedFile)
      (fs ss : list UploadedFile) :
  files_get files "documentImages[front]" = Some (f :: fs) ->
  files_get files "documentImages[selfie]" = Some (s :: ss) ->
  files_get files "documentImages[back]" <> Some [] ->
  answer_after_validation
    (fst (fst (create_submission env now uid docType docNumber files req db))).
Proof.
  intros Hf Hs Hb. unfold create_submission, first_path. rewrite Hf, Hs.
  destruct (files_get files "documentImages[back]") as [[|b bs]|];
    [contradiction| |].
  - destruct (readFileSync env (path f));
      [|right + left; cbn; repeat split; eexists; reflexivity].
    destruct (readFileSync env (path s));
      [|right + left; cbn; repeat split; eexists; reflexivity].
    destruct (truthy (Some (path b))).
    + destruct (readFileSync env (or_else (Some (path b)) EmptyString));
        [|left; cbn; repeat split; eexists; reflexivity].
      destruct (negb (Validation.includes schema_documentTypes docType));
        cbn; [right; split; reflexivity | exact I].
    + destruct (negb (Validation.includes schema_documentTypes docType));
        cbn; [right; split; reflexivity | exact I].
  - destruct (readFileSync env (path f));
      [|left; cbn; repeat split; eexists; reflexivity].
    destruct (readFileSync env (path s));
      [|left; cbn; repeat split; eexists; reflexivity].
    cbn [truthy falsy_opt negb].
    destruct (negb (Validation.includes schema_documentTypes docType));
      cbn; [right; split; reflexivity | exact I].
Qed.

(** X5. A request that [validateKYCSubmission] lets through is never
    answered by [submitKYC] with one of its own 400 responses for a
    missing field or image, nor with the 500 of a [TypeError]: what is
    left is the in-progress refusal, the 201, the 500 of a file that cannot
    be read for hashing and the 400 of the schema validation. *)
Theorem validated_submission_answers :
  forall (extnameLower : string -> string) (env : Env) (now : Z)
         (req : Request) (db : DB),
    Validation.validateKYCSubmission extnameLower req = inr tt ->
    answer_after_validation (fst (fst (submitKYC env now req db))).
Proof.
  intros ext env now req db. unfold Validation.validateKYCSubmission, submitKYC.
  destruct (body_documentType req) as [[|c t]|]; try discriminate.
  destruct (body_documentNumber req) as [[|c' n]|]; try discriminate.
  destruct (negb (Validation.includes Validation.validTypes (String c t)));
    [discriminate|].
  destruct (Validation.rules_get Validation.DOCUMENT_RULES (String c t))
    as [rules|] eqn:Hrules; [|discriminate].
  destruct (negb (Validation.numberPattern rules (String c' n))); [discriminate|].
  destruct (req_files req) as [[|kv files]|]; try discriminate.
  destruct (Validation.required_file_errors (String c t) (kv :: files)
              (Validation.requiredFields rules)) as [|e errs] eqn:Hreq;
    [|discriminate].
  destruct (Validation.file_errors ext rules (kv :: files)) as [[|e errs]|m]
    eqn:Hfiles; try discriminate.
  intros _.
  apply required_file_errors_nil in Hreq.
  destruct (rules_require_front_and_selfie _ _ Hrules) as [Hfront Hselfie].
  destruct (required_file_present _ _ "front" Hreq Hfront) as (f & fs & Hf).
  destruct (required_file_present _ _ "selfie" Hreq Hselfie) as (s & ss & Hs).
  cbn [append] in Hf, Hs. rewrite Hf, Hs.
  pose proof (file_errors_nonempty ext rules _ _ Hfiles "documentImages[back]")
    as Hb.
  destruct (findOne_in_flight db (req_user_id req)) as [existing|].
  - destruct (is_stuck existing now); [|exact I].
    apply (create_submission_answers _ _ _ _ _ _ _ _ f s fs ss Hf Hs Hb).
  - apply (create_submission_answers _ _ _ _ _ _ _ _ f s fs ss Hf Hs Hb).
Qed.

(** X5 on the sample aadhaar submission. *)
Lemma validated_submission_answers_witness :
  answer_after_validation
    (fst (fst (submitKYC (Sample.env Sample.ai_pass Sample.mined) 0 Sample.request
                 (Sample.db_with (Sample.record "rec1" completed))))).
Proof.
  apply (validated_submission_answers (fun _ => ".jpg")). reflexivity.
Defined.

Lemma update_first_length {A : Type} (p : A -> bool) (f : A -> A) (l : list A) :
  List.length (update_first p f l) = List.length l.
Proof.
  induction l as [|x l IH]; [reflexivity|].
  cbn [update_first]. destruct (p x); cbn [List.length]; [reflexivity|].
  rewrite IH. reflexivity.
Qed.

Lemma create_submission_effect (env : Env) (now : Z) (uid docType docNumber : string)
      (files : Files) (req : Request) (db : DB) :
  let res := create_submission env now uid docType docNumber files req db in
  (is_201 (fst (fst res)) = true
   /\ (exists r,
          records (snd (fst res)) = List.app (records db) [r]
          /\ _id r = newObjectId env /\ userId r = uid /\ status r = submitted
          /\ snd res = Some (mkTask (_id r) (documentImages r) docType docNumber))
   /\ Validation.includes schema_documentTypes docType = true)
  \/ (is_201 (fst (fst res)) = false /\ snd res = None /\ snd (fst res) = db).
Proof.
  cbv zeta. unfold create_submission.
  destruct (first_path files "documentImages[front]") as [fp|];
    [|right; repeat split].
  destruct (first_path files "documentImages[selfie]") as [sp|];
    [|right; repeat split].
  destruct (files_get files "documentImages[back]") as [[|b bs]|];
    [right; repeat split | |].
  - destruct (readFileSync env fp); [|right; repeat split].
    destruct (readFileSync env sp); [|right; repeat split].
    destruct (truthy (Some (path b)));
      [destruct (readFileSync env (or_else (Some (path b)) EmptyString));
       [|right; repeat split]|];
      (destruct (Validation.includes schema_documentTypes docType); cbn [negb];
       [left; cbn; split; [reflexivity|]; split; [|reflexivity];
        eexists; repeat split
       |right; repeat split]).
  - destruct (readFileSync env fp); [|right; repeat split].
    destruct (readFileSync env sp); [|right; repeat split].
    cbn [truthy falsy_opt negb].
    destruct (Validation.includes schema_documentTypes docType); cbn [negb];
      [left; cbn; split; [reflexivity|]; split; [|reflexivity];
       eexists; repeat split
      |right; repeat split].
Qed.

Lemma submitKYC_effect (env : Env) (now : Z) (req : Request) (db : DB) :
  let res := submitKYC env now req db in
  (is_201 (fst (fst res)) = true
   /\ (exists r,
          List.length (records (snd (fst res))) = S (List.length (records db))
          /\ last (records (snd (fst res))) r = r
          /\ In r (records (snd (fst res)))
          /\ _id r = newObjectId env
          /\ userId r = req_user_id req
          /\ status r = submitted
          /\ snd res = Some (mkTask (_id r) (documentImages r)
                                    (or_else (body_documentType req) EmptyString)
                                    (or_else (body_documentNumber req) EmptyString)))
   /\ (exists t, body_documentType req = Some t
                 /\ Validation.includes schema_documentTypes t = true))
  \/ (is_201 (fst (fst res)) = false
      /\ snd res = None
      /\ List.length (records (snd (fst res))) = List.length (records db)
      /\ users (snd (fst res)) = users db).
Proof.
  cbv zeta. unfold submitKYC.
  destruct (body_documentType req) as [[|c t]|];
    try solve [right; repeat split; destruct (body_documentNumber req) as [[|? ?]|];
               reflexivity].
  destruct (body_documentNumber req) as [[|c' n]|]; try solve [right; repeat split].
  destruct (req_files req) as [files|]; [|right; repeat split].
  destruct (files_get files "documentImages[front]"); [|right; repeat split].
  destruct (files_get files "documentImages[selfie]"); [|right; repeat split].
  assert (Hcreate : forall db0,
             List.length (records db0) = List.length (records db) ->
             users db0 = users db ->
             let res := create_submission env now (req_user_id req) (String c t)
                          (String c' n) files req db0 in
             (is_201 (fst (fst res)) = true
              /\ (exists r,
                  List.length (records (snd (fst res))) = S (List.length (records db))
                  /\ last (records (snd (fst res))) r = r
                  /\ In r (records (snd (fst res)))
                  /\ _id r = newObjectId env
                  /\ userId r = req_user_id req
                  /\ status r = submitted
                  /\ snd res = Some (mkTask (_id r) (documentImages r)
                                            (String c t) (String c' n)))
              /\ (exists t0, Some (String c t) = Some t0
                             /\ Validation.includes schema_documentTypes t0 = true))
             \/ (is_201 (fst (fst res)) = false
                 /\ snd res = None
                 /\ List.length (records (snd (fst res))) = List.length (records db)
                 /\ users (snd (fst res)) = users db)).
  { intros db0 Hlen Husers. cbv zeta.
    destruct (create_submission_effect env now (req_user_id req) (String c t)
                (String c' n) files req db0)
      as [(H201 & (r & Hrec & Hid & Huid & Hst & Htask) & Hschema)
         |(Hno & Hnone & Hdb)].
    - left. split; [exact H201|]. split.
      + exists r. rewrite Hrec. repeat split; try assumption.
        * rewrite length_app. cbn [List.length]. lia.
        * apply last_last.
        * apply in_or_app. right. left. reflexivity.
      + exists (String c t). split; [reflexivity | exact Hschema].
    - right. rewrite Hdb. repeat split; assumption. }
  cbn [or_else falsy negb].
  destruct (findOne_in_flight db (req_user_id req)) as [existing|].
  - destruct (is_stuck existing now).
    + apply Hcreate; [|reflexivity].
      unfold findByIdAndUpdate. cbn [records]. apply update_first_length.
    + right. repeat split.
  - apply Hcreate; reflexivity.
Qed.

(** X6. [submitKYC] creates a record exactly when it answers 201, and
    starts the background task exactly then, on the record it has just
    created: after a 201 the records are those of before (one of them
    possibly auto-rejected) with the new one, in state [submitted] and
    owned by the caller, at the end; after any other answer no task is
    started, no record is added and no user is changed. *)
Theorem submitKYC_creates_record_iff_201 :
  forall (env : Env) (now : Z) (req : Request) (db : DB),
    let res := submitKYC env now req db in
    (is_201 (fst (fst res)) = true
     /\ exists r,
         List.length (records (snd (fst res))) = S (List.length (records db))
         /\ last (records (snd (fst res))) r = r
         /\ In r (records (snd (fst res)))
         /\ _id r = newObjectId env
         /\ userId r = req_user_id req
         /\ status r = submitted
         /\ snd res = Some (mkTask (_id r) (documentImages r)
                                   (or_else (body_documentType req) EmptyString)
                                   (or_else (body_documentNumber req) EmptyString)))
    \/ (is_201 (fst (fst res)) = false
        /\ snd res = None
        /\ List.length (records (snd (fst res))) = List.length (records db)
        /\ users (snd (fst res)) = users db).
Proof.
  intros env now req db. cbv zeta.
  destruct (submitKYC_effect env now req db) as [(H201 & Hr & _)|H].
  - left. split; assumption.
  - right. exact H.
Qed.

(** X7. The validation middleware accepts the document type [pan], but
    the schema of a record does not have it: a submission whose document
    type is outside the enum of the schema (as [pan] is) never gets a 201
    from the route, whatever else it holds; no record is added for it, no
    user is changed and no verification is started. *)
Theorem documentType_outside_schema_is_never_stored :
  forall (extnameLower : string -> string) (env : Env) (now : Z)
         (req : Request) (db : DB) (t : string),
    body_documentType req = Some t ->
    Validation.includes schema_documentTypes t = false ->
    let res := submit_route extnameLower env now req db in
    match fst (fst res) with
    | Submit_response r => is_201 r = false
    | Validation_response r => Validation.http_status r <> 201
    end
    /\ snd res = None
    /\ List.length (records (snd (fst res))) = List.length (records db)
    /\ users (snd (fst res)) = users db.
Proof.
  intros ext env now req db t Ht Hschema. cbv zeta. unfold submit_route.
  destruct (Validation.validateKYCSubmission ext (Validation.sanitizeFileMetadata req))
    as [response|[]] eqn:Hv.
  - cbn [fst snd]. repeat split.
    revert Hv. unfold Validation.validateKYCSubmission, Validation.validation_failed.
    intros Hv Hcode.
    repeat match type of Hv with
           | (match ?x with _ => _ end) = _ => destruct x
           | (if ?x then _ else _) = _ => destruct x
           end;
      try discriminate Hv; injection Hv as <-; discriminate Hcode.
  - pose proof (submitKYC_effect env now (Validation.sanitizeFileMetadata req) db)
      as H. cbv zeta in H.
    destruct (submitKYC env now (Validation.sanitizeFileMetadata req) db)
      as [[resp db'] task]. cbn [fst snd] in *.
    destruct H as [(_ & _ & (t0 & Ht0 & Hin))|H].
    + change (body_documentType (Validation.sanitizeFileMetadata req))
        with (body_documentType req) in Ht0.
      congruence.
    + exact H.
Qed.

(** X7 on a well-formed pan submission: the middleware lets it through
    and the creation of the record fails on the schema. *)
Lemma documentType_outside_schema_is_never_stored_witness :
  fst (fst (submit_route (fun _ => ".jpg") (Sample.env Sample.ai_pass Sample.mined) 0
              Cases.pan_request (Sample.db_with (Sample.record "rec1" completed))))
  = Submit_response
      (Response_error 400
         "Validation failed: `pan` is not a valid enum value for path `documentType`."
         "KYCRecord validation failed: documentType: `pan` is not a valid enum value for path `documentType`."
         "ValidationError")
  /\ snd (submit_route (fun _ => ".jpg") (Sample.env Sample.ai_pass Sample.mined) 0
            Cases.pan_request (Sample.db_with (Sample.record "rec1" completed)))
     = None.
Proof.
  split; [vm_compute; reflexivity|].
  apply (documentType_outside_schema_is_never_stored
           (fun _ => ".jpg") (Sample.env Sample.ai_pass Sample.mined) 0
           Cases.pan_request (Sample.db_with (Sample.record "rec1" completed)) "pan");
    reflexivity.
Defined.

(** ** At most one record in flight per user: one call *)

Lemma find_none_filter {A : Type} (p : A -> bool) (l : list A) :
  find p l = None -> filter p l = [].
Proof.
  induction l as [|x l IH]; [reflexivity|].
  cbn [find filter]. destruct (p x); [discriminate | exact IH].
Qed.

Lemma filter_update_first_le {A : Type} (p q : A -> bool) (f : A -> A) (l : list A) :
  (forall x, p (f x) = false) ->
  List.length (filter p (update_first q f l)) <= List.length (filter p l).
Proof.
  intros Hf. induction l as [|x l IH]; [apply Nat.le_refl|].
  cbn [update_first]. destruct (q x).
  - cbn [filter]. rewrite Hf. destruct (p x); cbn [List.length]; lia.
  - cbn [filter]. destruct (p x); cbn [List.length]; lia.
Qed.

Lemma filter_update_found (p : KYCRecord -> bool) (f : KYCRecord -> KYCRecord)
      (l : list KYCRecord) :
  forall e,
    (forall x, p (f x) = false) ->
    NoDup (map _id l) ->
    find p l = Some e ->
    List.length (filter p l) <= 1 ->
    filter p (update_first (fun r => String.eqb (_id r) (_id e)) f l) = [].
Proof.
  induction l as [|x l IH]; intros e Hf Hnd Hfind Hlen; [discriminate|].
  cbn [find filter] in Hfind, Hlen. cbn [map] in Hnd.
  apply NoDup_cons_iff in Hnd. destruct Hnd as [Hnotin Hnd].
  cbn [update_first]. destruct (p x) eqn:Hpx.
  - injection Hfind as <-. rewrite String.eqb_refl. cbn [filter]. rewrite Hf.
    cbn [List.length] in Hlen.
    destruct (filter p l); [reflexivity | cbn [List.length] in Hlen; lia].
  - destruct (String.eqb (_id x) (_id e)) eqn:Hid.
    + exfalso. apply String.eqb_eq in Hid. apply Hnotin. rewrite Hid.
      apply in_map. apply (find_some _ _ Hfind).
    + cbn [filter]. rewrite Hpx. apply IH; assumption.
Qed.

(** The function [submitKYC], which is one call with nothing between
    its awaits, keeps the number of in-flight records of every user at
    one at most when the ids of the records are distinct. *)
Lemma submitKYC_single_in_flight_of_one_call :
  forall (env : Env) (now : Z) (req : Request) (db : DB) (u : string),
    NoDup (map _id (records db)) ->
    List.length (in_flight_records db u) <= 1 ->
    List.length (in_flight_records (snd (fst (submitKYC env now req db))) u) <= 1.
Proof.
  intros env now req db u Hnd Hone.
  assert (Hcreate : forall db0,
             List.length (in_flight_records db0 u) <= 1 ->
             (u = req_user_id req -> in_flight_records db0 u = []) ->
             forall docType docNumber files,
               List.length
                 (in_flight_records
                    (snd (fst (create_submission env now (req_user_id req) docType
                                 docNumber files req db0))) u) <= 1).
  { intros db0 Hle Hnone docType docNumber files.
    destruct (create_submission_effect env now (req_user_id req) docType
                docNumber files req db0)
      as [(_ & (r & Hrec & _ & Huid & Hst & _) & _)|(_ & _ & Hdb)].
    - unfold in_flight_records in *. rewrite Hrec, filter_app, length_app.
      cbn [filter]. rewrite Huid, Hst. cbn [in_flight].
      destruct (String.eqb (req_user_id req) u) eqn:Hu; cbn [andb List.length].
      + apply String.eqb_eq in Hu. rewrite (Hnone (eq_sym Hu)). cbn. lia.
      + lia.
    - rewrite Hdb. exact Hle. }
  unfold submitKYC.
  destruct (body_documentType req) as [[|c t]|];
    try solve [destruct (body_documentNumber req) as [[|? ?]|]; exact Hone].
  destruct (body_documentNumber req) as [[|c' n]|]; try exact Hone.
  destruct (req_files req) as [files|]; [|exact Hone].
  destruct (files_get files "documentImages[front]"); [|exact Hone].
  destruct (files_get files "documentImages[selfie]"); [|exact Hone].
  destruct (findOne_in_flight db (req_user_id req)) as [existing|] eqn:Hfind.
  - destruct (is_stuck existing now); [|exact Hone].
    apply Hcreate.
    + unfold in_flight_records, findByIdAndUpdate. cbn [records].
      etransitivity; [apply filter_update_first_le | exact Hone].
      intros x. apply andb_false_r.
    + intros ->. unfold in_flight_records, findByIdAndUpdate. cbn [records].
      apply filter_update_found; try assumption.
      intros x. apply andb_false_r.
  - apply Hcreate; [exact Hone|].
    intros ->. apply find_none_filter. exact Hfind.
Qed.

(** ** The IPFS client: what an upload returns and when it throws *)

Section IpfsOutcomes.

Variable World : Type.
Variable readFileSync : World -> string -> outcome string.
Variable pin :
  string -> string -> Ipfs.Metadata -> World -> outcome Ipfs.PinResult * World.
Variable sha256 : string -> string.
Variable config : Ipfs.Config.

Local Abbreviation uploadToIPFS :=
  (Ipfs.uploadToIPFS World readFileSync pin sha256 config).
Local Abbreviation upload_one :=
  (Ipfs.upload_one World readFileSync pin sha256 config).
Local Abbreviation upload_loop :=
  (Ipfs.upload_loop World readFileSync pin sha256 config).

Lemma uploadToIPFS_readable (content : string -> string) (p : string)
      (metadata : Ipfs.Metadata) (w : World) :
  ENABLE_IPFS_and_no_fallback config = false ->
  (forall w', readFileSync w' p = Returns (content p)) ->
  exists r, fst (uploadToIPFS p metadata w) = Returns r
            /\ Ipfs.fileHash r = sha256 (content p)
            /\ Ipfs.localPath r = p.
Proof.
  unfold ENABLE_IPFS_and_no_fallback. intros Hcfg Hread.
  unfold Ipfs.uploadToIPFS, Ipfs.upload_attempt, Ipfs.calculateFileHash.
  destruct (Ipfs.ENABLE_IPFS config); cbn [negb andb] in *.
  - rewrite Hread.
    destruct (Ipfs.provider_upload World pin config p metadata w) as [[r|m] w'].
    + eexists. repeat split.
    + apply negb_false_iff in Hcfg. rewrite Hcfg, Hread. eexists. repeat split.
  - rewrite Hread. eexists. repeat split.
Qed.

Lemma upload_loop_readable (content : string -> string) (metadata : Ipfs.Metadata)
      (filePaths : list string) :
  ENABLE_IPFS_and_no_fallback config = false ->
  (forall w p, In p filePaths -> readFileSync w p = Returns (content p)) ->
  forall w,
    map (fun e => (Ipfs.filePath e, Ipfs.success e, Ipfs.e_fileHash e,
                   Ipfs.e_localPath e))
        (fst (upload_loop filePaths metadata [] w))
    = map (fun p => (p, true, Some (sha256 (content p)), Some p)) filePaths.
Proof.
  intros Hcfg. induction filePaths as [|p rest IH]; intros Hread w; [reflexivity|].
  rewrite (upload_loop_cons World readFileSync pin sha256 config). cbn [map].
  f_equal.
  - unfold Ipfs.upload_one.
    destruct (uploadToIPFS_readable content p (Ipfs.file_metadata metadata p) w Hcfg)
      as (r & Hr & Hhash & Hpath).
    { intros w'. apply Hread. left. reflexivity. }
    destruct (Ipfs.uploadToIPFS World readFileSync pin sha256 config p
                (Ipfs.file_metadata metadata p) w) as [[r'|m] w'];
      cbn [fst] in Hr; [|discriminate].
    injection Hr as ->. cbn [fst Ipfs.uploaded_entry Ipfs.filePath Ipfs.success
                             Ipfs.e_fileHash Ipfs.e_localPath].
    rewrite Hhash, Hpath. reflexivity.
  - apply IH. intros w' q Hq. apply Hread. right. exact Hq.
Qed.

End IpfsOutcomes.

(** X9. What [uploadToIPFS] does at its edges. With IPFS disabled it
    calls no pinning service and leaves the world as it was, and what it
    returns has no content id and the provider ["disabled"]. A result it
    returns always holds the path it was given and, as file hash, the
    SHA-256 of what was read from that path. With the local fallback on
    (or IPFS disabled) it throws only when the file itself cannot be read,
    with the error of the read; with the fallback off its error is the
    provider's, prefixed. *)
Theorem uploadToIPFS_outcomes :
  forall (World : Type)
         (readFileSync : World -> string -> outcome string)
         (pin : string -> string -> Ipfs.Metadata -> World
                -> outcome Ipfs.PinResult * World)
         (sha256 : string -> string) (config : Ipfs.Config)
         (filePath : string) (metadata : Ipfs.Metadata) (w : World),
    let res := Ipfs.uploadToIPFS World readFileSync pin sha256 config
                                 filePath metadata w in
    (Ipfs.ENABLE_IPFS config = false ->
     snd res = w
     /\ forall r, fst res = Returns r ->
                  Ipfs.cid r = None /\ Ipfs.provider r = "disabled")
    /\ (forall r,
           fst res = Returns r ->
           Ipfs.localPath r = filePath
           /\ exists w0 buffer,
               readFileSync w0 filePath = Returns buffer
               /\ Ipfs.fileHash r = sha256 buffer)
    /\ (ENABLE_IPFS_and_no_fallback config = false ->
        forall m, fst res = Throws m -> readFileSync (snd res) filePath = Throws m)
    /\ (ENABLE_IPFS_and_no_fallback config = true ->
        forall m, fst res = Throws m ->
                  exists m0, m = "IPFS upload failed: " ++ m0).
Proof.
  intros World readFileSync pin sha256 config filePath metadata w. cbv zeta.
  unfold ENABLE_IPFS_and_no_fallback, Ipfs.uploadToIPFS, Ipfs.upload_attempt,
    Ipfs.calculateFileHash.
  destruct (Ipfs.ENABLE_IPFS config); cbn [negb andb].
  - split; [intros H; discriminate H|].
    destruct (readFileSync w filePath) as [buffer|m0] eqn:Hread.
    + destruct (Ipfs.provider_upload World pin config filePath metadata w)
        as [[r0|m1] w1].
      * cbn [fst snd]. split; [|split]; try (intros _ m Hm; discriminate Hm).
        intros r Hr. injection Hr as <-. cbn. split; [reflexivity|].
        exists w, buffer. split; [exact Hread | reflexivity].
      * destruct (Ipfs.FALLBACK_TO_LOCAL config); cbn [negb].
        -- destruct (readFileSync w1 filePath) as [buffer1|m2] eqn:Hread1;
             cbn [fst snd].
           ++ split; [|split]; try (intros _ m Hm; discriminate Hm).
              intros r Hr. injection Hr as <-. cbn. split; [reflexivity|].
              exists w1, buffer1. split; [exact Hread1 | reflexivity].
           ++ split; [intros r Hr; discriminate Hr|]. split.
              ** intros _ m Hm. injection Hm as <-. exact Hread1.
              ** intros H; discriminate H.
        -- cbn [fst snd]. split; [intros r Hr; discriminate Hr|]. split.
           ++ intros H; discriminate H.
           ++ intros _ m Hm. injection Hm as <-. eexists. reflexivity.
    + destruct (Ipfs.FALLBACK_TO_LOCAL config); cbn [negb].
      * rewrite Hread. cbn [fst snd].
        split; [intros r Hr; discriminate Hr|]. split.
        -- intros _ m Hm. injection Hm as <-. exact Hread.
        -- intros H; discriminate H.
      * cbn [fst snd]. split; [intros r Hr; discriminate Hr|]. split.
        -- intros H; discriminate H.
        -- intros _ m Hm. injection Hm as <-. eexists. reflexivity.
  - destruct (readFileSync w filePath) as [buffer|m0] eqn:Hread; cbn [fst snd].
    + split; [intros _; split; [reflexivity|]; intros r Hr; injection Hr as <-;
              split; reflexivity|].
      split; [|split]; try (intros _ m Hm; discriminate Hm).
      intros r Hr. injection Hr as <-. cbn. split; [reflexivity|].
      exists w, buffer. split; [exact Hread | reflexivity].
    + split; [intros _; split; [reflexivity|]; intros r Hr; discriminate Hr|].
      split; [intros r Hr; discriminate Hr|]. split.
      * intros _ m Hm. injection Hm as <-. exact Hread.
      * intros H; discriminate H.
Qed.

(** X10. With the local fallback on (or IPFS disabled), a batch of
    files that can all be read is uploaded without a failed entry,
    whatever the pinning services answer: every entry has [success = true],
    the path it was given and the SHA-256 of the file as its hash. *)
Theorem uploadMultipleToIPFS_fallback_never_fails :
  forall (World : Type)
         (readFileSync : World -> string -> outcome string)
         (pin : string -> string -> Ipfs.Metadata -> World
                -> outcome Ipfs.PinResult * World)
         (sha256 : string -> string) (config : Ipfs.Config)
         (content : string -> string)
         (filePaths : list string) (metadata : Ipfs.Metadata) (w : World),
    ENABLE_IPFS_and_no_fallback config = false ->
    (forall w' p, In p filePaths -> readFileSync w' p = Returns (content p)) ->
    exists results w',
      Ipfs.uploadMultipleToIPFS World readFileSync pin sha256 config
                                filePaths metadata w = (Returns results, w')
      /\ map (fun e => (Ipfs.filePath e, Ipfs.success e, Ipfs.e_fileHash e,
                        Ipfs.e_localPath e)) results
         = map (fun p => (p, true, Some (sha256 (content p)), Some p)) filePaths.
Proof.
  intros World readFileSync pin sha256 config content filePaths metadata w
         Hcfg Hread.
  pose proof (upload_loop_readable World readFileSync pin sha256 config content
                metadata filePaths Hcfg Hread w) as H.
  unfold Ipfs.uploadMultipleToIPFS.
  destruct (Ipfs.upload_loop World readFileSync pin sha256 config filePaths
              metadata [] w) as [results w'].
  exists results, w'. split; [reflexivity | exact H].
Qed.

(** X10 on two files, every pinning failing. *)
Lemma uploadMultipleToIPFS_fallback_never_fails_witness :
  exists results w',
    Ipfs.uploadMultipleToIPFS unit (fun _ p => Returns ("bytes of " ++ p))
      (fun _ _ _ w => (Throws "pinning service down", w))
      SHA256.sha256 (Ipfs.mkConfig "pinata" true true)
      ["/a.jpg"; "/b.jpg"]
      (Ipfs.mkMetadata "rec1" "aadhaar" 0 None) tt
    = (Returns results, w')
    /\ map (fun e => (Ipfs.filePath e, Ipfs.success e, Ipfs.e_fileHash e,
                      Ipfs.e_localPath e)) results
       = map (fun p => (p, true, Some (SHA256.sha256 ("bytes of " ++ p)), Some p))
             ["/a.jpg"; "/b.jpg"].
Proof.
  apply (uploadMultipleToIPFS_fallback_never_fails unit
           (fun _ p => Returns ("bytes of " ++ p))
           (fun _ _ _ w => (Throws "pinning service down", w))
           SHA256.sha256 (Ipfs.mkConfig "pinata" true true)
           (fun p => "bytes of " ++ p)).
  - reflexivity.
  - intros w' p _. reflexivity.
Defined.

(** ** The pipeline: what it never writes *)

Lemma map_update_first {A B : Type} (g : A -> B) (p : A -> bool) (f : A -> A)
      (l : list A) :
  (forall x, g (f x) = g x) -> map g (update_first p f l) = map g l.
Proof.
  intros H. induction l as [|x l IH]; [reflexivity|].
  cbn [update_first]. destruct (p x); cbn [map]; [rewrite H | rewrite IH];
    reflexivity.
Qed.

Lemma find_update_first_other {A : Type} (p q : A -> bool) (f : A -> A) (l : list A) :
  (forall x, q (f x) = q x) ->
  (forall x, p x = true -> q x = false) ->
  find q (update_first p f l) = find q l.
Proof.
  intros Hq Hpq. induction l as [|x l IH]; [reflexivity|].
  cbn [update_first]. destruct (p x) eqn:Hp; cbn [find].
  - rewrite Hq, (Hpq x Hp). reflexivity.
  - rewrite IH. reflexivity.
Qed.

Lemma frame_refl (tid : string) (db : DB) : frame tid db db.
Proof. repeat split. Qed.

Lemma frame_write (tid : string) (f : KYCRecord -> KYCRecord) (db db0 : DB) :
  (forall r, submission_data (f r) = submission_data r) ->
  frame tid db db0 -> frame tid db (findByIdAndUpdate tid f db0).
Proof.
  intros Hf (Hrec & Hfind & Husers). unfold frame, findByIdAndUpdate.
  cbn [records users]. split; [|split].
  - rewrite map_update_first by exact Hf. exact Hrec.
  - intros id Hid. rewrite <- (Hfind id Hid). unfold findById. cbn [records].
    apply find_update_first_other.
    + intros x. pose proof (Hf x) as Hx. unfold submission_data in Hx.
      injection Hx as Hx _. rewrite Hx. reflexivity.
    + intros x Hx. apply String.eqb_eq in Hx. rewrite Hx. exact Hid.
  - exact Husers.
Qed.

Lemma frame_user (tid uid : string) (s : KycStatus) (db db0 : DB) :
  frame tid db db0 ->
  frame tid db (User_findByIdAndUpdate uid (set_kycStatus s) db0).
Proof.
  intros (Hrec & Hfind & Husers). unfold frame, User_findByIdAndUpdate, findById.
  cbn [records users]. split; [exact Hrec|]. split; [exact Hfind|].
  rewrite map_update_first by reflexivity. exact Husers.
Qed.

Ltac frame_steps :=
  repeat first [ apply frame_user
               | apply frame_write; [intros ?; reflexivity|] ];
  assumption.

Lemma frame_exec (env : Env) (task : Task) (db : DB) (m m' : Machine) (e : Event) :
  frame (task_kycRecordId task) db (m_db m) ->
  exec env task m e = Some m' ->
  frame (task_kycRecordId task) db (m_db m').
Proof.
  intros H Hexec. destruct e; cbn [exec] in Hexec.
  - destruct (pipeline_running m); [|discriminate]. injection Hexec as <-.
    destruct m as [db0 t h pc calls ticks]. cbn [m_db] in H.
    destruct pc; unfold_step; split_cases; cbn [m_db]; frame_steps.
  - unfold timer_fires in Hexec. destruct (m_timer m); try discriminate.
    injection Hexec as <-. unfold with_handler, write, with_timer, with_db.
    cbn [m_db]. frame_steps.
  - unfold handler_step in Hexec.
    destruct (m_handler m) as [| |[[rec [u|]]|]| | |]; try discriminate;
      injection Hexec as <-; unfold with_handler, with_db; cbn [m_db];
      frame_steps.
Qed.

Lemma frame_run (env : Env) (task : Task) (db : DB) (es : list Event) :
  forall m m',
    frame (task_kycRecordId task) db (m_db m) ->
    run_schedule env task m es = Some m' ->
    frame (task_kycRecordId task) db (m_db m').
Proof.
  induction es as [|e es IH]; intros m m' H0 Hrun; cbn [run_schedule] in Hrun.
  - injection Hrun as <-. exact H0.
  - destruct (exec env task m e) as [m1|] eqn:He; [|discriminate].
    apply (IH m1 m'); [|exact Hrun]. apply (frame_exec env task db m m1 e H0 He).
Qed.

(** X11. Whatever the pipeline, the timer and its callback do, in any
    order, they change no record's identity, owner, document type and
    number, hashes, Merkle root, image paths, submission time or request
    metadata; they change no field at all of a record other than the
    task's; and of the users they change nothing but [kycStatus]. *)
Theorem pipeline_leaves_submission_data :
  forall (env : Env) (task : Task) (es : list Event) (m m' : Machine),
    run_schedule env task m es = Some m' ->
    map submission_data (records (m_db m')) = map submission_data (records (m_db m))
    /\ (forall id, id <> task_kycRecordId task ->
                   findById (m_db m') id = findById (m_db m) id)
    /\ map user_identity (users (m_db m')) = map user_identity (users (m_db m)).
Proof.
  intros env task es m m' Hrun.
  pose proof (frame_run env task (m_db m) es m m'
                (frame_refl (task_kycRecordId task) (m_db m)) Hrun) as H.
  destruct H as (Hrec & Hfind & Husers). split; [exact Hrec|]. split; [|exact Husers].
  intros id Hid. apply Hfind. apply String.eqb_neq. congruence.
Qed.

(** X11 on the sample submission with a second record in the
    collection: a schedule in which the timer fires before the verdict. *)
Lemma pipeline_leaves_submission_data_witness :
  option_map (fun m' => findById (m_db m') "rec0")
    (run_schedule (Sample.env Sample.ai_pass Sample.mined) Sample.task
       (start_machine (mkDB [Sample.record "rec0" completed;
                             Sample.record "rec1" submitted] [Sample.alice]))
       [ev_pipeline; ev_pipeline; ev_timer; ev_handler; ev_pipeline])
  = Some (Some (Sample.record "rec0" completed)).
Proof.
  destruct (run_schedule (Sample.env Sample.ai_pass Sample.mined) Sample.task
              (start_machine (mkDB [Sample.record "rec0" completed;
                                    Sample.record "rec1" submitted] [Sample.alice]))
              [ev_pipeline; ev_pipeline; ev_timer; ev_handler; ev_pipeline])
    as [m'|] eqn:Hrun; [|vm_compute in Hrun; discriminate Hrun].
  destruct (pipeline_leaves_submission_data _ _ _ _ _ Hrun) as (_ & H & _).
  cbn [option_map]. rewrite (H "rec0"); [reflexivity | discriminate].
Defined.

(** ** The pipeline, one resumption at a time *)

Lemma run_pipeline_add (env : Env) (task : Task) (a b : nat) :
  forall m, run_pipeline env task (a + b) m
            = run_pipeline env task b (run_pipeline env task a m).
Proof.
  induction a as [|a IH]; intros m; [reflexivity|].
  cbn [Nat.add run_pipeline]. apply IH.
Qed.

Lemma run_schedule_app (env : Env) (task : Task) (es1 es2 : list Event) :
  forall m m1,
    run_schedule env task m es1 = Some m1 ->
    run_schedule env task m (List.app es1 es2) = run_schedule env task m1 es2.
Proof.
  induction es1 as [|e es1 IH]; intros m m1 H; cbn [run_schedule List.app] in *.
  - injection H as <-. reflexivity.
  - destruct (exec env task m e) as [m0|]; [|discriminate]. apply (IH m0 m1 H).
Qed.

Lemma findUserById_User_findByIdAndUpdate (id : string) (f : User -> User) (db : DB) :
  (forall x, user_id (f x) = user_id x) ->
  findUserById (User_findByIdAndUpdate id f db) id = option_map f (findUserById db id).
Proof.
  intros Hf. unfold findUserById, User_findByIdAndUpdate. cbn [users].
  apply find_update_first. intros x. rewrite Hf. reflexivity.
Qed.

Lemma present_write (db : DB) (tid : string) (r : KYCRecord) (u : User)
      (f : KYCRecord -> KYCRecord) :
  (forall x, _id (f x) = _id x) -> userId (f r) = userId r ->
  present db tid r u -> present (findByIdAndUpdate tid f db) tid (f r) u.
Proof.
  intros Hid Huid [Hr Hu]. split.
  - rewrite findById_findByIdAndUpdate by exact Hid. rewrite Hr. reflexivity.
  - rewrite findUserById_findByIdAndUpdate, Huid. exact Hu.
Qed.

Lemma present_user_id (db : DB) (tid : string) (r : KYCRecord) (u : User) :
  present db tid r u -> user_id u = userId r.
Proof. intros [_ Hu]. apply String.eqb_eq. apply (find_some _ _ Hu). Qed.

Lemma present_user_write (db : DB) (tid : string) (r : KYCRecord) (u : User)
      (s : KycStatus) :
  present db tid r u ->
  present (User_findByIdAndUpdate (user_id u) (set_kycStatus s) db) tid r
          (set_kycStatus s u).
Proof.
  intros H. pose proof (present_user_id _ _ _ _ H) as Hid. destruct H as [Hr Hu].
  split; [exact Hr|]. rewrite <- Hid.
  rewrite findUserById_User_findByIdAndUpdate by reflexivity.
  rewrite Hid, Hu. reflexivity.
Qed.

Section StepEquations.

Variable env : Env.
Variable task : Task.
Variable db : DB.
Variable t : Timer.
Variable hd : HandlerPC.
Variable calls : list ExternalCall.
Variable ticks : nat.

Local Abbreviation tid := (task_kycRecordId task).
Local Abbreviation step := (pipeline_step env task).

Lemma step_P_start :
  step (mkMachine db t hd P_start calls ticks)
  = mkMachine (findByIdAndUpdate tid processing_update db) timer_armed hd
              P_set_processing calls (S ticks).
Proof. reflexivity. Qed.

Lemma step_P_set_processing :
  exists results,
    step (mkMachine db t hd P_set_processing calls ticks)
    = mkMachine db t hd (P_ipfs results)
        (List.app calls
           [Call_uploadMultipleToIPFS (filesToUpload (task_documentImages task))])
        (S ticks).
Proof. eexists. reflexivity. Qed.

Lemma step_P_ipfs (results : list Ipfs.BatchEntry) :
  exists d,
    step (mkMachine db t hd (P_ipfs results) calls ticks)
    = mkMachine (findByIdAndUpdate tid quality_update db) t hd (P_set_quality d)
                calls (S ticks).
Proof. eexists. reflexivity. Qed.

Lemma step_P_set_quality (d : IpfsData) :
  exists calls',
    step (mkMachine db t hd (P_set_quality d) calls ticks)
    = mkMachine db t hd (P_ai d (ai_answer env task)) (List.app calls calls')
                (S ticks)
    /\ filter issuer_or_ledger_call calls' = [].
Proof.
  unfold pipeline_step, ai_answer, with_pc, log_calls.
  cbn [m_pc m_timer m_db m_handler m_calls m_ticks].
  destruct (DUMMY_AI_VERIFICATION env).
  - exists []. rewrite app_nil_r. split; reflexivity.
  - eexists. split; reflexivity.
Qed.

Lemma step_P_ai_returns (d : IpfsData) (a : AIResult) (r : KYCRecord) (u : User) :
  present db tid r u ->
  step (mkMachine db t hd (P_ai d (Returns a)) calls ticks)
  = mkMachine (findByIdAndUpdate tid (ai_update (clock env ticks) a d) db) t hd
              (P_save_ai a (Some (ai_update (clock env ticks) a d r, Some u)))
              calls (S ticks).
Proof.
  intros H.
  destruct (present_write db tid r u (ai_update (clock env ticks) a d)
              (fun _ => eq_refl) eq_refl H) as [Hr Hu].
  unfold pipeline_step, write, read_populated, with_pc, with_db, now.
  cbn [m_pc m_timer m_db m_handler m_calls m_ticks].
  rewrite Hr. cbn [populate]. rewrite Hu. reflexivity.
Qed.

Lemma step_P_save_ai_mock (a : AIResult) (rec : KYCRecord) (u : User) :
  verified a = true ->
  SKIP_ARIES_CREDENTIAL env || NODE_ENV_development env = true ->
  step (mkMachine db t hd (P_save_ai a (Some (rec, Some u))) calls ticks)
  = mkMachine (findByIdAndUpdate tid
                 (credential_update (clock env ticks) (credentialData_of rec u))
                 db)
              (clearTimeout t) hd A_mock_update calls (S ticks).
Proof.
  intros Hok Hskip.
  unfold pipeline_step, enter_issueAriesCredential, write, with_pc, with_db,
    with_timer, now.
  cbn [m_pc m_timer m_db m_handler m_calls m_ticks]. rewrite Hok, Hskip.
  reflexivity.
Qed.

Lemma step_P_save_ai_invite (a : AIResult) (rec : KYCRecord) (u : User) :
  verified a = true ->
  SKIP_ARIES_CREDENTIAL env || NODE_ENV_development env = false ->
  step (mkMachine db t hd (P_save_ai a (Some (rec, Some u))) calls ticks)
  = mkMachine db (clearTimeout t) hd (A_invitation rec (Some u))
              (List.app calls [Call_createConnectionInvitation]) (S ticks).
Proof.
  intros Hok Hskip.
  unfold pipeline_step, enter_issueAriesCredential, write, with_pc, with_db,
    with_timer, log_calls, now.
  cbn [m_pc m_timer m_db m_handler m_calls m_ticks]. rewrite Hok, Hskip.
  reflexivity.
Qed.

Lemma step_A_invitation_returns (rec : KYCRecord) (u : User) (x : unit) :
  createConnectionInvitation env = Returns x ->
  step (mkMachine db t hd (A_invitation rec (Some u)) calls ticks)
  = mkMachine (findByIdAndUpdate tid
                 (credential_update (clock env ticks) (credentialData_of rec u))
                 db)
              t hd A_real_update calls (S ticks).
Proof.
  intros Hinv. unfold pipeline_step, write, with_pc, with_db, now.
  cbn [m_pc m_timer m_db m_handler m_calls m_ticks]. rewrite Hinv. reflexivity.
Qed.

Lemma step_A_invitation_throws (rec : KYCRecord) (user : option User)
      (message : string) :
  createConnectionInvitation env = Throws message ->
  NODE_ENV_development env = false ->
  step (mkMachine db t hd (A_invitation rec user) calls ticks)
  = mkMachine (findByIdAndUpdate tid (credential_failed_update message) db)
              t hd A_failed_update calls (S ticks).
Proof.
  intros Hinv Hdev. unfold pipeline_step, aries_catch, write, with_pc, with_db, now.
  cbn [m_pc m_timer m_db m_handler m_calls m_ticks]. rewrite Hinv, Hdev.
  reflexivity.
Qed.

Lemma step_credential_stored (pc : PC) (r : KYCRecord) (u : User) :
  pc = A_mock_update \/ pc = A_real_update \/ pc = A_fallback_update ->
  present db tid r u ->
  step (mkMachine db t hd pc calls ticks)
  = mkMachine db t hd (B_find (Some (r, Some u))) calls (S ticks).
Proof.
  intros Hpc [Hr Hu].
  destruct Hpc as [->|[->| ->]];
    unfold pipeline_step, enter_registerOnBlockchain, read_populated, with_pc;
    cbn [m_pc m_timer m_db m_handler m_calls m_ticks];
    rewrite Hr; cbn [populate]; rewrite Hu; reflexivity.
Qed.

Lemma step_B_find_mined (rec : KYCRecord) (u : User) (h : string) (b : Z)
      (g : string) :
  initializeBlockchain_error env = None ->
  (forall call, chain env call = Mined h b g) ->
  let call := contract_call env (user_id u) (blockchainData_of rec)
                            (clock env ticks) in
  step (mkMachine db t hd (B_find (Some (rec, Some u))) calls ticks)
  = mkMachine db t hd
      (B_register u (Returns (mkLedgerResult h b (cc_verificationHash call) g)))
      (List.app calls [Call_registerKYCOnBlockchain (user_id u) (blockchainData_of rec);
                       Call_registerVerification call])
      (S ticks).
Proof.
  intros Hinit Hchain. cbv zeta.
  unfold pipeline_step, registerKYCOnBlockchain, contract_calls, with_pc,
    log_calls, now.
  cbn [m_pc m_timer m_db m_handler m_calls m_ticks]. rewrite Hinit, Hchain.
  reflexivity.
Qed.

Lemma step_B_register_returns (u : User) (res : LedgerResult) :
  step (mkMachine db t hd (B_register u (Returns res)) calls ticks)
  = mkMachine (findByIdAndUpdate tid (completed_update (clock env ticks) res) db)
              t hd (B_completed_update u) calls (S ticks).
Proof. reflexivity. Qed.

Lemma step_B_completed_update (u : User) :
  step (mkMachine db t hd (B_completed_update u) calls ticks)
  = mkMachine (User_findByIdAndUpdate (user_id u) (set_kycStatus kyc_verified) db)
              t hd B_user_verified calls (S ticks).
Proof. reflexivity. Qed.

Lemma step_B_user_verified :
  step (mkMachine db t hd B_user_verified calls ticks)
  = mkMachine db t hd B_endSession calls (S ticks).
Proof. reflexivity. Qed.

Lemma step_last (pc : PC) :
  pc = B_endSession \/ pc = A_failed_update ->
  step (mkMachine db t hd pc calls ticks) = mkMachine db t hd P_done calls (S ticks).
Proof. intros [->| ->]; reflexivity. Qed.

Lemma timer_fires_armed (pc : PC) :
  timer_fires env task (mkMachine db timer_armed hd pc calls ticks)
  = Some (mkMachine (findByIdAndUpdate tid (timeout_update (clock env ticks)) db)
                    timer_fired H_await_write pc calls (S ticks)).
Proof. reflexivity. Qed.

Lemma handler_reads (pc : PC) (r : KYCRecord) (u : User) :
  present db tid r u ->
  handler_step task (mkMachine db t H_await_write pc calls ticks)
  = Some (mkMachine db t (H_await_find (Some (r, Some u))) pc calls (S ticks)).
Proof.
  intros [Hr Hu]. unfold handler_step, read_populated, with_handler.
  cbn [m_pc m_timer m_db m_handler m_calls m_ticks].
  rewrite Hr. cbn [populate]. rewrite Hu. reflexivity.
Qed.

Lemma handler_rejects_user (pc : PC) (r : KYCRecord) (u : User) :
  handler_step task (mkMachine db t (H_await_find (Some (r, Some u))) pc calls ticks)
  = Some (mkMachine (User_findByIdAndUpdate (user_id u) (set_kycStatus kyc_rejected) db)
                    t H_await_user pc calls (S ticks)).
Proof. reflexivity. Qed.

Lemma handler_ends (pc : PC) :
  handler_step task (mkMachine db t H_await_user pc calls ticks)
  = Some (mkMachine db t H_await_endSession pc calls (S ticks))
  /\ handler_step task (mkMachine db t H_await_endSession pc calls ticks)
     = Some (mkMachine db t H_done pc calls (S ticks)).
Proof. split; reflexivity. Qed.

End StepEquations.

Lemma run_schedule_pipeline (env : Env) (task : Task) (m : Machine) (es : list Event) :
  pipeline_running m = true ->
  run_schedule env task m (ev_pipeline :: es)
  = run_schedule env task (pipeline_step env task m) es.
Proof. intros H. cbn [run_schedule exec]. rewrite H. reflexivity. Qed.

Lemma run_schedule_timer (env : Env) (task : Task) (m m' : Machine) (es : list Event) :
  timer_fires env task m = Some m' ->
  run_schedule env task m (ev_timer :: es) = run_schedule env task m' es.
Proof. intros H. cbn [run_schedule exec]. rewrite H. reflexivity. Qed.

Lemma run_schedule_handler (env : Env) (task : Task) (m m' : Machine) (es : list Event) :
  handler_step task m = Some m' ->
  run_schedule env task m (ev_handler :: es) = run_schedule env task m' es.
Proof. intros H. cbn [run_schedule exec]. rewrite H. reflexivity. Qed.

Lemma run_schedule_pipelines (env : Env) (task : Task) (k : nat) :
  forall m m',
    run_schedule env task m (repeat ev_pipeline k) = Some m' ->
    run_pipeline env task k m = m'.
Proof.
  induction k as [|k IH]; intros m m' H; cbn [repeat run_schedule exec] in H.
  - injection H as <-. reflexivity.
  - destruct (pipeline_running m); [|discriminate]. cbn [run_pipeline].
    apply IH. exact H.
Qed.

Lemma filter_issuer_app (a b : list ExternalCall) :
  filter issuer_or_ledger_call a = [] ->
  filter issuer_or_ledger_call (List.app a b) = filter issuer_or_ledger_call b.
Proof. intros H. rewrite filter_app, H. reflexivity. Qed.

(** The pipeline up to the answer of the AI provider. *)
Lemma pipeline_until_verdict (env : Env) (task : Task) (db : DB) :
  exists d calls,
    run_schedule env task (start_machine db) (repeat ev_pipeline 4)
    = Some (mkMachine
              (findByIdAndUpdate (task_kycRecordId task) quality_update
                 (findByIdAndUpdate (task_kycRecordId task) processing_update db))
              timer_armed H_idle (P_ai d (ai_answer env task)) calls 4)
    /\ filter issuer_or_ledger_call calls = [].
Proof.
  unfold start_machine. cbn [repeat].
  rewrite run_schedule_pipeline by reflexivity. rewrite step_P_start.
  destruct (step_P_set_processing env task
              (findByIdAndUpdate (task_kycRecordId task) processing_update db)
              timer_armed H_idle [] 1) as [results E2].
  rewrite run_schedule_pipeline by reflexivity. rewrite E2.
  destruct (step_P_ipfs env task
              (findByIdAndUpdate (task_kycRecordId task) processing_update db)
              timer_armed H_idle
              (List.app [] [Call_uploadMultipleToIPFS
                              (filesToUpload (task_documentImages task))])
              2 results) as [d E3].
  rewrite run_schedule_pipeline by reflexivity. rewrite E3.
  destruct (step_P_set_quality env task
              (findByIdAndUpdate (task_kycRecordId task) quality_update
                 (findByIdAndUpdate (task_kycRecordId task) processing_update db))
              timer_armed H_idle
              (List.app [] [Call_uploadMultipleToIPFS
                              (filesToUpload (task_documentImages task))])
              3 d) as (calls' & E4 & Hcalls).
  rewrite run_schedule_pipeline by reflexivity. rewrite E4.
  exists d. eexists. split; [reflexivity|].
  rewrite filter_app, Hcalls. reflexivity.
Qed.

Lemma present_until_verdict (db : DB) (tid : string) (r : KYCRecord) (u : User) :
  present db tid r u ->
  present (findByIdAndUpdate tid quality_update
             (findByIdAndUpdate tid processing_update db))
          tid (quality_update (processing_update r)) u.
Proof.
  intros H.
  apply (present_write _ tid (processing_update r) u quality_update
           (fun _ => eq_refl) eq_refl).
  apply (present_write _ tid r u processing_update (fun _ => eq_refl) eq_refl).
  exact H.
Qed.

(** From the stored credential to the end of the pipeline, the chain
    mining the transaction. *)
Lemma pipeline_after_credential (env : Env) (task : Task) (hd : HandlerPC) (u : User)
      (pc : PC) (db2 : DB) (r2 : KYCRecord) (t2 : Timer)
      (calls2 : list ExternalCall) (n : nat) (h : string) (b : Z) (g : string) :
  pc = A_mock_update \/ pc = A_real_update \/ pc = A_fallback_update ->
  present db2 (task_kycRecordId task) r2 u ->
  initializeBlockchain_error env = None ->
  (forall call, chain env call = Mined h b g) ->
  run_pipeline env task 6 (mkMachine db2 t2 hd pc calls2 n)
  = mkMachine
      (User_findByIdAndUpdate (user_id u) (set_kycStatus kyc_verified)
         (findByIdAndUpdate (task_kycRecordId task)
            (completed_update (clock env (S (S n)))
               (mkLedgerResult h b
                  (cc_verificationHash
                     (contract_call env (user_id u) (blockchainData_of r2)
                                    (clock env (S n))))
                  g))
            db2))
      t2 hd P_done
      (List.app calls2
         [Call_registerKYCOnBlockchain (user_id u) (blockchainData_of r2);
          Call_registerVerification
            (contract_call env (user_id u) (blockchainData_of r2) (clock env (S n)))])
      (S (S (S (S (S (S n)))))).
Proof.
  intros Hpc Hp Hinit Hchain.
  rewrite run_pipeline_S, (step_credential_stored env task _ _ _ _ _ pc r2 u Hpc Hp).
  rewrite run_pipeline_S.
  rewrite (step_B_find_mined env task _ _ _ _ _ r2 u h b g Hinit Hchain).
  rewrite run_pipeline_S, step_B_register_returns.
  rewrite run_pipeline_S, step_B_completed_update.
  rewrite run_pipeline_S, step_B_user_verified.
  rewrite run_pipeline_S, (step_last env task _ _ _ _ _ _ (or_introl eq_refl)).
  reflexivity.
Qed.

Lemma run_pipeline_from_start (env : Env) (task : Task) (db : DB) (k : nat)
      (m4 m : Machine) :
  run_schedule env task (start_machine db) (repeat ev_pipeline 4) = Some m4 ->
  k <= 12 ->
  run_pipeline env task k m4 = m ->
  m_pc m = P_done ->
  run_pipeline env task enough_steps (start_machine db) = m.
Proof.
  intros H4 Hk Hm Hdone. apply run_schedule_pipelines in H4.
  unfold enough_steps. replace 16 with (4 + (k + (12 - k))) by lia.
  rewrite run_pipeline_add, H4, run_pipeline_add, Hm.
  apply run_pipeline_done. exact Hdone.
Qed.

(** X12. A verified submission goes through: when the record and its
    owner are found, the AI stage answers with a positive verdict, the
    credential is stored (the development shortcut, or the agent answering
    the invitation) and the chain mines the registration, the pipeline ends
    with the timer cancelled, the record [completed] with no rejection
    reason, the credential data of the owner, and the transaction of the
    chain; the verification hash stored on the record is the one sent to
    the contract, computed from a payload that holds the hashes, the
    Merkle root and the scores; the ledger is called once; and the owner's
    [kycStatus] is [verified]. *)
Theorem verified_submission_completes :
  forall (env : Env) (task : Task) (db : DB) (r : KYCRecord) (u : User)
         (aiResult : AIResult) (h : string) (b : Z) (g : string),
    findById db (task_kycRecordId task) = Some r ->
    findUserById db (userId r) = Some u ->
    ai_answer env task = Returns aiResult ->
    verified aiResult = true ->
    SKIP_ARIES_CREDENTIAL env || NODE_ENV_development env = true
    \/ createConnectionInvitation env = Returns tt ->
    initializeBlockchain_error env = None ->
    (forall call, chain env call = Mined h b g) ->
    let m := run_pipeline env task enough_steps (start_machine db) in
    m_pc m = P_done
    /\ m_timer m = timer_cleared
    /\ (exists r' payload ts,
           findById (m_db m) (task_kycRecordId task) = Some r'
           /\ status r' = completed
           /\ rejectionReason r' = None
           /\ ai_status (aiVerification r') = AI_verified
           /\ cred_credentialData (ariesCredential r') = Some (credentialData_of r u)
           /\ transactionHash (blockchainVerification r') = Some h
           /\ blockNumber (blockchainVerification r') = Some b
           /\ verificationHash (blockchainVerification r')
              = Some (keccak256_json env (build_hashData (user_id u) payload ts))
           /\ filter issuer_or_ledger_call (m_calls m)
              = List.app
                  (if SKIP_ARIES_CREDENTIAL env || NODE_ENV_development env
                   then [] else [Call_createConnectionInvitation])
                  [Call_registerKYCOnBlockchain (user_id u) payload;
                   Call_registerVerification
                     (contract_call env (user_id u) payload ts)]
           /\ bd_documentNumberHash payload = documentNumberHash r
           /\ bd_userIdHash payload = userIdHash r
           /\ bd_fileHashes payload = fileHashes r
           /\ bd_merkleRoot payload = merkleRoot r
           /\ bd_aiConfidence payload = confidenceScore aiResult
           /\ bd_faceMatchScore payload = faceMatchScore aiResult)
    /\ users (m_db m)
       = update_first (fun x => String.eqb (user_id x) (user_id u))
                      (set_kycStatus kyc_verified) (users db).
Proof.
  intros env task db r u a h b g Hr Hu Hai Hok Hcred Hinit Hchain. cbv zeta.
  destruct (pipeline_until_verdict env task db) as (d & calls & H4 & Hcalls).
  rewrite Hai in H4.
  pose proof (present_until_verdict db _ r u (conj Hr Hu)) as P0.
  set (tid := task_kycRecordId task) in *.
  set (db0 := findByIdAndUpdate tid quality_update
                (findByIdAndUpdate tid processing_update db)) in *.
  set (r0 := quality_update (processing_update r)) in *.
  pose proof (present_write db0 tid r0 u (ai_update (clock env 4) a d)
                (fun _ => eq_refl) eq_refl P0) as P1.
  set (r1 := ai_update (clock env 4) a d r0) in *.
  set (db1 := findByIdAndUpdate tid (ai_update (clock env 4) a d) db0) in *.
  destruct (SKIP_ARIES_CREDENTIAL env || NODE_ENV_development env) eqn:Hskip.
  - pose proof (present_write db1 tid r1 u
                  (credential_update (clock env 5) (credentialData_of r1 u))
                  (fun _ => eq_refl) eq_refl P1) as P2.
    eassert (Hrun : run_pipeline env task 8
                     (mkMachine db0 timer_armed H_idle (P_ai d (Returns a)) calls 4)
                   = _).
    { rewrite run_pipeline_S, (step_P_ai_returns env task _ _ _ _ _ d a r0 u P0).
      rewrite run_pipeline_S, (step_P_save_ai_mock env task _ _ _ _ _ a r1 u Hok Hskip).
      apply (pipeline_after_credential env task H_idle u A_mock_update _ _ _ _ _
               h b g (or_introl eq_refl) P2 Hinit Hchain). }
    rewrite (run_pipeline_from_start env task db 8 _ _ H4 ltac:(lia) Hrun eq_refl).
    cbn [m_pc m_timer m_db m_calls clearTimeout].
    split; [reflexivity|]. split; [reflexivity|]. split; [|reflexivity].
    eexists. eexists. eexists. split.
    + rewrite findById_User_findByIdAndUpdate.
      rewrite findById_findByIdAndUpdate by reflexivity.
      rewrite (proj1 P2). reflexivity.
    + rewrite (filter_issuer_app _ _ Hcalls).
      repeat split; subst r1; cbn; rewrite Hok; reflexivity.
  - destruct Hcred as [Hcred|Hinv]; [discriminate|].
    pose proof (present_write db1 tid r1 u
                  (credential_update (clock env 6) (credentialData_of r1 u))
                  (fun _ => eq_refl) eq_refl P1) as P2.
    eassert (Hrun : run_pipeline env task 9
                     (mkMachine db0 timer_armed H_idle (P_ai d (Returns a)) calls 4)
                   = _).
    { rewrite run_pipeline_S, (step_P_ai_returns env task _ _ _ _ _ d a r0 u P0).
      rewrite run_pipeline_S, (step_P_save_ai_invite env task _ _ _ _ _ a r1 u Hok Hskip).
      rewrite run_pipeline_S, (step_A_invitation_returns env task _ _ _ _ _ r1 u tt Hinv).
      apply (pipeline_after_credential env task H_idle u A_real_update _ _ _ _ _
               h b g (or_intror (or_introl eq_refl)) P2 Hinit Hchain). }
    rewrite (run_pipeline_from_start env task db 9 _ _ H4 ltac:(lia) Hrun eq_refl).
    cbn [m_pc m_timer m_db m_calls clearTimeout].
    split; [reflexivity|]. split; [reflexivity|]. split; [|reflexivity].
    eexists. eexists. eexists. split.
    + rewrite findById_User_findByIdAndUpdate.
      rewrite findById_findByIdAndUpdate by reflexivity.
      rewrite (proj1 P2). reflexivity.
    + rewrite <- app_assoc. rewrite (filter_issuer_app _ _ Hcalls).
      repeat split; subst r1; cbn; rewrite Hok; reflexivity.
Qed.

(** X12 on the sample submission. *)
Lemma verified_submission_completes_witness :
  m_pc (run_pipeline (Sample.env Sample.ai_pass Sample.mined) Sample.task
          enough_steps
          (start_machine (Sample.db_with (Sample.record "rec1" submitted))))
  = P_done
  /\ users (m_db (run_pipeline (Sample.env Sample.ai_pass Sample.mined) Sample.task
                    enough_steps
                    (start_machine (Sample.db_with (Sample.record "rec1" submitted)))))
     = [set_kycStatus kyc_verified Sample.alice].
Proof.
  pose proof (verified_submission_completes
                (Sample.env Sample.ai_pass Sample.mined) Sample.task
                (Sample.db_with (Sample.record "rec1" submitted))
                (Sample.record "rec1" submitted) Sample.alice
                (mkAIResult true (Some (95 # 100)%Q) (Some (92 # 100)%Q) None
                            (Some []))
                "0xabc" 42%Z "21000"
                eq_refl eq_refl eq_refl eq_refl (or_introl eq_refl) eq_refl
                (fun _ => eq_refl)) as H.
  cbv zeta in H. destruct H as (Hpc & _ & _ & Husers).
  split; [exact Hpc | exact Husers].
Defined.

(** X13. In production, when the AI verdict is positive and the
    credential agent fails, the pipeline ends with the record in
    [ai_verified] carrying the reason of the failure; nothing of the
    credential, of the ledger sub-state or of [completedAt] is written, the
    ledger is not called and no user is updated. The record is left in a
    non-terminal state that the stuck-record check of [submitKYC] never
    heals, whatever the time. *)
Theorem issuer_failure_leaves_record_in_flight :
  forall (env : Env) (task : Task) (db : DB) (r : KYCRecord) (u : User)
         (aiResult : AIResult) (message : string),
    findById db (task_kycRecordId task) = Some r ->
    findUserById db (userId r) = Some u ->
    ai_answer env task = Returns aiResult ->
    verified aiResult = true ->
    SKIP_ARIES_CREDENTIAL env || NODE_ENV_development env = false ->
    createConnectionInvitation env = Throws message ->
    let m := run_pipeline env task enough_steps (start_machine db) in
    m_pc m = P_done
    /\ m_timer m = timer_cleared
    /\ (exists r',
           findById (m_db m) (task_kycRecordId task) = Some r'
           /\ status r' = ai_verified
           /\ rejectionReason r' = Some ("Credential issuance failed: " ++ message)
           /\ ariesCredential r' = ariesCredential r
           /\ blockchainVerification r' = blockchainVerification r
           /\ completedAt r' = completedAt r
           /\ in_flight (status r') = true
           /\ forall now, is_stuck r' now = false)
    /\ users (m_db m) = users db
    /\ filter issuer_or_ledger_call (m_calls m) = [Call_createConnectionInvitation].
Proof.
  intros env task db r u a message Hr Hu Hai Hok Hskip Hinv. cbv zeta.
  destruct (pipeline_until_verdict env task db) as (d & calls & H4 & Hcalls).
  rewrite Hai in H4.
  pose proof (present_until_verdict db _ r u (conj Hr Hu)) as P0.
  set (db0 := findByIdAndUpdate (task_kycRecordId task) quality_update
                (findByIdAndUpdate (task_kycRecordId task) processing_update db)) in *.
  set (r0 := quality_update (processing_update r)) in *.
  pose proof (present_write db0 (task_kycRecordId task) r0 u (ai_update (clock env 4) a d)
                (fun _ => eq_refl) eq_refl P0) as P1.
  set (r1 := ai_update (clock env 4) a d r0) in *.
  set (db1 := findByIdAndUpdate (task_kycRecordId task) (ai_update (clock env 4) a d) db0) in *.
  assert (Hdev : NODE_ENV_development env = false)
    by (apply orb_false_iff in Hskip; apply Hskip).
  eassert (Hrun : run_pipeline env task 4
                    (mkMachine db0 timer_armed H_idle (P_ai d (Returns a)) calls 4)
                  = _).
  { rewrite run_pipeline_S, (step_P_ai_returns env task _ _ _ _ _ d a r0 u P0).
    rewrite run_pipeline_S, (step_P_save_ai_invite env task _ _ _ _ _ a r1 u Hok Hskip).
    rewrite run_pipeline_S,
      (step_A_invitation_throws env task _ _ _ _ _ r1 (Some u) message Hinv Hdev).
    rewrite run_pipeline_S, (step_last env task _ _ _ _ _ _ (or_intror eq_refl)).
    cbn [run_pipeline]. reflexivity. }
  rewrite (run_pipeline_from_start env task db 4 _ _ H4 ltac:(lia) Hrun eq_refl).
  cbn [m_pc m_timer m_db m_calls clearTimeout].
  split; [reflexivity|]. split; [reflexivity|]. split; [|split; [reflexivity|]].
  - destruct P1 as [Hr1 _]. subst db1 r1 db0 r0. eexists. split.
    + rewrite findById_findByIdAndUpdate by reflexivity.
      rewrite Hr1. reflexivity.
    + repeat split.
  - rewrite (filter_issuer_app _ _ Hcalls). reflexivity.
Qed.

(** X13 on the sample submission in production, the agent being down. *)
Lemma issuer_failure_leaves_record_in_flight_witness :
  option_map (fun r => (status r, rejectionReason r))
    (findById
       (m_db (run_pipeline (Cases.production_env (Throws "agent unreachable"))
                Sample.task enough_steps
                (start_machine (Sample.db_with (Sample.record "rec1" submitted)))))
       "rec1")
  = Some (ai_verified, Some "Credential issuance failed: agent unreachable").
Proof.
  pose proof (issuer_failure_leaves_record_in_flight
                (Cases.production_env (Throws "agent unreachable")) Sample.task
                (Sample.db_with (Sample.record "rec1" submitted))
                (Sample.record "rec1" submitted) Sample.alice
                (mkAIResult true (Some (95 # 100)%Q) (Some (92 # 100)%Q) None
                            (Some []))
                "agent unreachable"
                eq_refl eq_refl eq_refl eq_refl eq_refl eq_refl) as H.
  cbv zeta in H. destruct H as (_ & _ & (r' & Hfind & Hst & Hreason & _) & _).
  change (task_kycRecordId Sample.task) with "rec1" in Hfind.
  rewrite Hfind. cbn [option_map]. rewrite Hst, Hreason. reflexivity.
Defined.

(** X14. The timer can fire while the update that stores a positive
    verdict is awaited, before [clearTimeout] is reached. The callback
    then rejects the record, and the pipeline, resumed, goes on all the
    same: it stores the credential, registers on the ledger and completes
    the record. In that schedule the record ends [completed] with the
    rejection reason and the failed AI status written by the timeout, and
    its owner, updated last by the callback, ends [rejected]. *)
Theorem timeout_during_save_completes_a_rejected_record :
  forall (env : Env) (task : Task) (db : DB) (r : KYCRecord) (u : User)
         (aiResult : AIResult) (h : string) (b : Z) (g : string),
    findById db (task_kycRecordId task) = Some r ->
    findUserById db (userId r) = Some u ->
    ai_answer env task = Returns aiResult ->
    verified aiResult = true ->
    SKIP_ARIES_CREDENTIAL env || NODE_ENV_development env = true ->
    initializeBlockchain_error env = None ->
    (forall call, chain env call = Mined h b g) ->
    exists m r' u',
      run_schedule env task (start_machine db) race_schedule = Some m
      /\ m_pc m = P_done /\ m_handler m = H_done /\ m_timer m = timer_fired
      /\ findById (m_db m) (task_kycRecordId task) = Some r'
      /\ status r' = completed
      /\ rejectionReason r' = Some timeout_reason
      /\ ai_status (aiVerification r') = AI_failed
      /\ transactionHash (blockchainVerification r') = Some h
      /\ cred_credentialId (ariesCredential r') <> None
      /\ findUserById (m_db m) (userId r) = Some u'
      /\ kycStatus u' = kyc_rejected.
Proof.
  intros env task db r u a h b g Hr Hu Hai Hok Hskip Hinit Hchain.
  destruct (pipeline_until_verdict env task db) as (d & calls & H4 & Hcalls).
  rewrite Hai in H4.
  pose proof (present_until_verdict db _ r u (conj Hr Hu)) as P0.
  set (db0 := findByIdAndUpdate (task_kycRecordId task) quality_update
                (findByIdAndUpdate (task_kycRecordId task) processing_update db)) in *.
  set (r0 := quality_update (processing_update r)) in *.
  pose proof (present_write db0 (task_kycRecordId task) r0 u (ai_update (clock env 4) a d)
                (fun _ => eq_refl) eq_refl P0) as P1.
  set (r1 := ai_update (clock env 4) a d r0) in *.
  set (db1 := findByIdAndUpdate (task_kycRecordId task) (ai_update (clock env 4) a d) db0) in *.
  pose proof (present_write db1 (task_kycRecordId task) r1 u (timeout_update (clock env 5))
                (fun _ => eq_refl) eq_refl P1) as P2.
  set (r2 := timeout_update (clock env 5) r1) in *.
  set (db2 := findByIdAndUpdate (task_kycRecordId task) (timeout_update (clock env 5)) db1) in *.
  pose proof (present_write db2 (task_kycRecordId task) r2 u
                (credential_update (clock env 6) (credentialData_of r1 u))
                (fun _ => eq_refl) eq_refl P2) as P3.
  set (r3 := credential_update (clock env 6) (credentialData_of r1 u) r2) in *.
  set (db3 := findByIdAndUpdate (task_kycRecordId task)
                (credential_update (clock env 6) (credentialData_of r1 u))
                db2) in *.
  unfold race_schedule.
  change (repeat ev_pipeline 5) with (List.app (repeat ev_pipeline 4) [ev_pipeline]).
  rewrite <- app_assoc. rewrite (run_schedule_app env task _ _ _ _ H4).
  cbn [List.app repeat].
  rewrite run_schedule_pipeline by reflexivity.
  rewrite (step_P_ai_returns env task _ _ _ _ _ d a r0 u P0).
  rewrite (run_schedule_timer env task _ _ _ (timer_fires_armed env task _ _ _ _ _)).
  rewrite run_schedule_pipeline by reflexivity.
  rewrite (step_P_save_ai_mock env task _ _ _ _ _ a r1 u Hok Hskip).
  rewrite run_schedule_pipeline by reflexivity.
  rewrite (step_credential_stored env task _ _ _ _ _ _ r3 u (or_introl eq_refl) P3).
  rewrite run_schedule_pipeline by reflexivity.
  rewrite (step_B_find_mined env task _ _ _ _ _ r3 u h b g Hinit Hchain).
  rewrite run_schedule_pipeline by reflexivity. rewrite step_B_register_returns.
  rewrite run_schedule_pipeline by reflexivity. rewrite step_B_completed_update.
  rewrite run_schedule_pipeline by reflexivity. rewrite step_B_user_verified.
  rewrite run_schedule_pipeline by reflexivity.
  rewrite (step_last env task _ _ _ _ _ _ (or_introl eq_refl)).
  match goal with
  | |- context [mkMachine (User_findByIdAndUpdate _ _ (findByIdAndUpdate _ ?f _))
                          _ _ P_done _ _] =>
      pose proof (present_user_write _ (task_kycRecordId task) _ u kyc_verified
                    (present_write db3 (task_kycRecordId task) r3 u f (fun _ => eq_refl) eq_refl P3))
        as P4
  end.
  rewrite (run_schedule_handler env task _ _ _ (handler_reads task _ _ _ _ _ _ _ P4)).
  rewrite (run_schedule_handler env task _ _ _ (handler_rejects_user task _ _ _ _ _ _ _)).
  rewrite (run_schedule_handler env task _ _ _
             (proj1 (handler_ends task _ _ _ _ _))).
  rewrite (run_schedule_handler env task _ _ _
             (proj2 (handler_ends task _ _ _ _ _))).
  cbn [run_schedule].
  pose proof (present_user_write _ (task_kycRecordId task) _ _ kyc_rejected P4) as P5.
  destruct P5 as [Hr5 Hu5].
  eexists. eexists. eexists. split; [reflexivity|].
  cbn [m_pc m_handler m_timer m_db clearTimeout].
  split; [reflexivity|]. split; [reflexivity|]. split; [reflexivity|].
  split; [exact Hr5|].
  split; [reflexivity|]. split; [reflexivity|]. split; [reflexivity|].
  split; [reflexivity|]. split; [discriminate|].
  split; [exact Hu5|]. reflexivity.
Qed.

(** X14 on the sample submission. *)
Lemma timeout_during_save_completes_a_rejected_record_witness :
  exists m r' u',
    run_schedule (Sample.env Sample.ai_pass Sample.mined) Sample.task
      (start_machine (Sample.db_with (Sample.record "rec1" submitted)))
      race_schedule = Some m
    /\ findById (m_db m) "rec1" = Some r'
    /\ status r' = completed
    /\ rejectionReason r' = Some timeout_reason
    /\ findUserById (m_db m) "u1" = Some u'
    /\ kycStatus u' = kyc_rejected.
Proof.
  destruct (timeout_during_save_completes_a_rejected_record
              (Sample.env Sample.ai_pass Sample.mined) Sample.task
              (Sample.db_with (Sample.record "rec1" submitted))
              (Sample.record "rec1" submitted) Sample.alice
              (mkAIResult true (Some (95 # 100)%Q) (Some (92 # 100)%Q) None
                          (Some []))
              "0xabc" 42%Z "21000"
              eq_refl eq_refl eq_refl eq_refl eq_refl eq_refl (fun _ => eq_refl))
    as (m & r' & u' & Hrun & _ & _ & _ & Hfind & Hst & Hreason & _ & _ & _ & Hu & Hk).
  exists m, r', u'. repeat split; assumption.
Defined.

(** ** The registry contract *)

Lemma registerVerification_reverts (msg : KYCVerification.Msg) (hash : Z) (uid docType : string)
      (s : KYCVerification.State) (m : string) :
  fst (KYCVerification.registerVerification msg hash uid docType s) = Throws m ->
  snd (KYCVerification.registerVerification msg hash uid docType s) = s.
Proof.
  unfold KYCVerification.registerVerification.
  repeat match goal with
         | |- context [if ?c then _ else _] => destruct c
         end; cbn [fst snd]; intros H; try reflexivity; discriminate H.
Qed.

Lemma revokeVerification_reverts (msg : KYCVerification.Msg) (hash : Z) (s : KYCVerification.State) (m : string) :
  fst (KYCVerification.revokeVerification msg hash s) = Throws m ->
  snd (KYCVerification.revokeVerification msg hash s) = s.
Proof.
  unfold KYCVerification.revokeVerification.
  repeat match goal with
         | |- context [if ?c then _ else _] => destruct c
         end; cbn [fst snd]; intros H; try reflexivity; discriminate H.
Qed.

Lemma consistent_constructor (deployer : KYCVerification.Msg) : KYCVerification.consistent (KYCVerification.constructor deployer).
Proof. intros h H. discriminate H. Qed.

Lemma consistent_register (msg : KYCVerification.Msg) (hash : Z) (uid docType : string)
      (s : KYCVerification.State) :
  KYCVerification.consistent s ->
  KYCVerification.consistent (snd (KYCVerification.registerVerification msg hash uid docType s)).
Proof.
  intros Hs. unfold KYCVerification.registerVerification.
  destruct (Z.eqb hash 0) eqn:Hz; [exact Hs|].
  destruct (Nat.eqb (String.length uid) 0) eqn:Hu; [exact Hs|].
  destruct (KYCVerification.isValid (KYCVerification.verifications s hash)) eqn:Hv; [exact Hs|].
  destruct (Z.ltb KYCVerification.uint256_max (KYCVerification.totalVerifications s + 1)); [exact Hs|].
  cbn [snd]. intros h. unfold KYCVerification.consistent in Hs.
  cbn [KYCVerification.verifications KYCVerification.userVerifications KYCVerification.isUserVerified].
  unfold KYCVerification.set_slot, KYCVerification.set_user_slot.
  destruct (Z.eqb h hash) eqn:Hh.
  - apply Z.eqb_eq in Hh. subst h. intros _.
    cbn [KYCVerification.verificationHash KYCVerification.userId KYCVerification.isValid]. rewrite String.eqb_refl.
    repeat split.
    + apply Z.eqb_neq. exact Hz.
    + intros ->. discriminate Hu.
    + apply in_or_app. right. left. reflexivity.
  - intros Hvalid. destruct (Hs h Hvalid) as (H0 & Hhash & Hne & Hflag & Hin).
    repeat split; try assumption.
    + destruct (String.eqb (KYCVerification.userId (KYCVerification.verifications s h)) uid); [reflexivity|].
      exact Hflag.
    + destruct (String.eqb (KYCVerification.userId (KYCVerification.verifications s h)) uid) eqn:E; [|exact Hin].
      apply String.eqb_eq in E. rewrite <- E. apply in_or_app. left. exact Hin.
Qed.

Lemma set_slot_same {V : Type} (m : Z -> V) (k : Z) (v : V) : KYCVerification.set_slot m k v k = v.
Proof. unfold KYCVerification.set_slot. rewrite Z.eqb_refl. reflexivity. Qed.

Lemma set_slot_other {V : Type} (m : Z -> V) (k h : Z) (v : V) :
  Z.eqb h k = false -> KYCVerification.set_slot m k v h = m h.
Proof. intros H. unfold KYCVerification.set_slot. rewrite H. reflexivity. Qed.

Lemma consistent_revoke (msg : KYCVerification.Msg) (hash : Z) (s : KYCVerification.State) :
  KYCVerification.consistent s -> KYCVerification.consistent (snd (KYCVerification.revokeVerification msg hash s)).
Proof.
  intros Hs. unfold KYCVerification.revokeVerification.
  destruct (negb (Z.eqb (KYCVerification.sender msg) (KYCVerification.owner s))); [exact Hs|].
  destruct (negb (KYCVerification.isValid (KYCVerification.verifications s hash))) eqn:Hv; [exact Hs|].
  cbn [snd]. intros h.
  cbn [KYCVerification.verifications KYCVerification.userVerifications KYCVerification.isUserVerified].
  rewrite set_slot_same. cbn [KYCVerification.userId].
  destruct (Z.eqb h hash) eqn:Hh.
  - apply Z.eqb_eq in Hh. subst h. rewrite set_slot_same. intros H. discriminate H.
  - rewrite (set_slot_other _ _ _ _ Hh).
    intros Hvalid. destruct (Hs h Hvalid) as (H0 & Hhash & Hne & Hflag & Hin).
    repeat split; try assumption.
    unfold KYCVerification.set_user_slot.
    destruct (String.eqb (KYCVerification.userId (KYCVerification.verifications s h))
                         (KYCVerification.userId (KYCVerification.verifications s hash))) eqn:E; [|exact Hflag].
    apply String.eqb_eq in E. apply existsb_exists. exists h. split.
    + rewrite <- E. exact Hin.
    + rewrite (set_slot_other _ _ _ _ Hh). exact Hvalid.
Qed.

Lemma consistent_apply_tx (s : KYCVerification.State) (tx : KYCVerification.Tx) :
  KYCVerification.consistent s -> KYCVerification.consistent (KYCVerification.apply_tx s tx).
Proof.
  destruct tx; cbn [KYCVerification.apply_tx]; [apply consistent_register | apply consistent_revoke].
Qed.

Lemma fold_left_invariant {A B : Type} (P : A -> Prop) (f : A -> B -> A) (l : list B) :
  (forall a b, P a -> P (f a b)) -> forall a, P a -> P (fold_left f l a).
Proof.
  intros Hf. induction l as [|b l IH]; intros a Ha; [exact Ha|].
  cbn [fold_left]. apply IH. apply Hf. exact Ha.
Qed.

Lemma owner_apply_tx (s : KYCVerification.State) (tx : KYCVerification.Tx) : KYCVerification.owner (KYCVerification.apply_tx s tx) = KYCVerification.owner s.
Proof.
  destruct tx; cbn [KYCVerification.apply_tx]; unfold KYCVerification.registerVerification, KYCVerification.revokeVerification;
    repeat match goal with
           | |- context [if ?c then _ else _] => destruct c
           end; reflexivity.
Qed.

Lemma counter_apply_tx (s : KYCVerification.State) (tx : KYCVerification.Tx) :
  KYCVerification.totalVerifications s = Z.of_nat (KYCVerification.registrations (KYCVerification.logs s)) ->
  KYCVerification.totalVerifications (KYCVerification.apply_tx s tx)
  = Z.of_nat (KYCVerification.registrations (KYCVerification.logs (KYCVerification.apply_tx s tx))).
Proof.
  intros H.
  destruct tx; cbn [KYCVerification.apply_tx]; unfold KYCVerification.registerVerification, KYCVerification.revokeVerification;
    repeat match goal with
           | |- context [if ?c then _ else _] => destruct c
           end; cbn [snd KYCVerification.totalVerifications KYCVerification.logs]; try exact H;
    unfold KYCVerification.registrations in *; rewrite filter_app, length_app; cbn [filter List.length];
    lia.
Qed.

(** X15. In every state the contract reaches from its deployment,
    whatever transactions are sent by whomever: every valid verification
    is stored under its own non-zero hash, for a user with a non-empty
    name, who is flagged as verified and has the hash in their list; the
    owner is the deployer; and [totalVerifications] is the number of
    registrations that succeeded (a revocation does not decrease it). *)
Theorem registry_invariant :
  forall (deployer : KYCVerification.Msg) (txs : list KYCVerification.Tx),
    let s := KYCVerification.run deployer txs in
    KYCVerification.consistent s
    /\ KYCVerification.owner s = KYCVerification.sender deployer
    /\ KYCVerification.totalVerifications s = Z.of_nat (KYCVerification.registrations (KYCVerification.logs s)).
Proof.
  intros deployer txs. cbv zeta. unfold KYCVerification.run.
  apply (fold_left_invariant
           (fun s => KYCVerification.consistent s /\ KYCVerification.owner s = KYCVerification.sender deployer
                     /\ KYCVerification.totalVerifications s = Z.of_nat (KYCVerification.registrations (KYCVerification.logs s)))).
  - intros s tx (Hc & Ho & Ht). split; [|split].
    + apply consistent_apply_tx. exact Hc.
    + rewrite owner_apply_tx. exact Ho.
    + apply counter_apply_tx. exact Ht.
  - split; [apply consistent_constructor|]. split; reflexivity.
Qed.

Lemma registerVerification_succeeds (msg : KYCVerification.Msg) (hash : Z) (uid docType : string)
      (s : KYCVerification.State) :
  hash <> 0%Z -> uid <> EmptyString ->
  KYCVerification.isValid (KYCVerification.verifications s hash) = false ->
  (KYCVerification.totalVerifications s < KYCVerification.uint256_max)%Z ->
  KYCVerification.registerVerification msg hash uid docType s
  = (Returns true,
     KYCVerification.mkState
       (KYCVerification.set_slot (KYCVerification.verifications s) hash
          (KYCVerification.mkVerification hash uid docType (KYCVerification.block_timestamp msg) true
                            (KYCVerification.sender msg)))
       (KYCVerification.set_user_slot (KYCVerification.userVerifications s) uid
          (List.app (KYCVerification.userVerifications s uid) [hash]))
       (KYCVerification.set_user_slot (KYCVerification.isUserVerified s) uid true)
       (KYCVerification.totalVerifications s + 1)%Z
       (KYCVerification.owner s)
       (List.app (KYCVerification.logs s)
          [KYCVerification.VerificationRegistered hash uid docType (KYCVerification.block_timestamp msg)
                                    (KYCVerification.sender msg)])).
Proof.
  intros Hh Hu Hv Ht. unfold KYCVerification.registerVerification.
  apply Z.eqb_neq in Hh. rewrite Hh.
  destruct uid as [|c uid]; [contradiction|]. cbn [String.length Nat.eqb].
  rewrite Hv.
  assert (Z.ltb KYCVerification.uint256_max (KYCVerification.totalVerifications s + 1) = false) as ->
      by (apply Z.ltb_ge; lia).
  reflexivity.
Qed.

Lemma set_user_slot_same {V : Type} (m : string -> V) (k : string) (v : V) :
  KYCVerification.set_user_slot m k v k = v.
Proof. unfold KYCVerification.set_user_slot. rewrite String.eqb_refl. reflexivity. Qed.

Lemma set_user_slot_other {V : Type} (m : string -> V) (k u : string) (v : V) :
  u <> k -> KYCVerification.set_user_slot m k v u = m u.
Proof.
  intros H. unfold KYCVerification.set_user_slot. apply String.eqb_neq in H. rewrite H. reflexivity.
Qed.

(** X16. A registration with a non-zero hash that is not valid yet, for
    a user with a name, succeeds; the lookup of the hash then returns the
    user, the document type and the time of the block, the user is
    verified, the hash is the last of their list and the counter is one
    more; the other hashes and users are as before; and the hash cannot
    be registered again. A registration with the zero hash, an empty user
    or a hash that is valid already reverts and leaves the state as it
    was. *)
Theorem registerVerification_then_lookup :
  forall (msg : KYCVerification.Msg) (hash : Z) (uid docType : string) (s : KYCVerification.State),
    let res := KYCVerification.registerVerification msg hash uid docType s in
    (hash <> 0%Z -> uid <> EmptyString ->
     KYCVerification.isValid (KYCVerification.verifications s hash) = false ->
     (KYCVerification.totalVerifications s < KYCVerification.uint256_max)%Z ->
     fst res = Returns true
     /\ KYCVerification.getVerification hash (snd res) = (true, KYCVerification.block_timestamp msg, uid, docType)
     /\ KYCVerification.isVerified uid (snd res) = true
     /\ KYCVerification.getUserVerifications uid (snd res)
        = List.app (KYCVerification.getUserVerifications uid s) [hash]
     /\ fst (KYCVerification.getStats (snd res)) = (fst (KYCVerification.getStats s) + 1)%Z
     /\ (forall h, h <> hash -> KYCVerification.getVerification h (snd res) = KYCVerification.getVerification h s)
     /\ (forall u, u <> uid ->
                   KYCVerification.isVerified u (snd res) = KYCVerification.isVerified u s
                   /\ KYCVerification.getUserVerifications u (snd res) = KYCVerification.getUserVerifications u s)
     /\ forall msg' uid' docType',
         exists m,
           KYCVerification.registerVerification msg' hash uid' docType' (snd res)
           = (Throws m, snd res))
    /\ (hash = 0%Z \/ uid = EmptyString
        \/ KYCVerification.isValid (KYCVerification.verifications s hash) = true ->
        exists m, res = (Throws m, s)).
Proof.
  intros msg hash uid docType s. cbv zeta. split.
  - intros Hh Hu Hv Ht.
    rewrite (registerVerification_succeeds msg hash uid docType s Hh Hu Hv Ht).
    cbn [fst snd]. unfold KYCVerification.getVerification, KYCVerification.isVerified, KYCVerification.getUserVerifications,
                     KYCVerification.getStats.
    cbn [KYCVerification.verifications KYCVerification.userVerifications KYCVerification.isUserVerified KYCVerification.totalVerifications
         fst].
    rewrite set_slot_same, !set_user_slot_same.
    repeat split.
    + intros h Hne. rewrite set_slot_other by (apply Z.eqb_neq; exact Hne).
      reflexivity.
    + rewrite set_user_slot_other by assumption. reflexivity.
    + rewrite set_user_slot_other by assumption. reflexivity.
    + intros msg' uid' docType'. unfold KYCVerification.registerVerification.
      apply Z.eqb_neq in Hh. rewrite Hh.
      destruct (Nat.eqb (String.length uid') 0); [eexists; reflexivity|].
      cbn [KYCVerification.verifications]. rewrite set_slot_same. cbn [KYCVerification.isValid].
      eexists; reflexivity.
  - unfold KYCVerification.registerVerification. intros [->|[->|Hv]].
    + eexists; reflexivity.
    + destruct (Z.eqb hash 0); eexists; reflexivity.
    + destruct (Z.eqb hash 0); [eexists; reflexivity|].
      destruct (Nat.eqb (String.length uid) 0); [eexists; reflexivity|].
      rewrite Hv. eexists; reflexivity.
Qed.

Lemma apply_tx_keeps_valid (s : KYCVerification.State) (tx : KYCVerification.Tx) (h : Z) :
  KYCVerification.owner_revokes (KYCVerification.owner s) tx = false ->
  KYCVerification.isValid (KYCVerification.verifications s h) = true ->
  KYCVerification.verifications (KYCVerification.apply_tx s tx) h = KYCVerification.verifications s h.
Proof.
  intros Htx Hv. destruct tx as [msg hash uid docType|msg hash]; cbn [KYCVerification.apply_tx].
  - unfold KYCVerification.registerVerification.
    destruct (Z.eqb hash 0); [reflexivity|].
    destruct (Nat.eqb (String.length uid) 0); [reflexivity|].
    destruct (KYCVerification.isValid (KYCVerification.verifications s hash)) eqn:Hvh; [reflexivity|].
    destruct (Z.ltb KYCVerification.uint256_max (KYCVerification.totalVerifications s + 1)); [reflexivity|].
    cbn [snd KYCVerification.verifications]. apply set_slot_other.
    destruct (Z.eqb h hash) eqn:E; [|reflexivity].
    apply Z.eqb_eq in E. subst h. congruence.
  - unfold KYCVerification.revokeVerification. cbn [KYCVerification.owner_revokes] in Htx. rewrite Htx.
    reflexivity.
Qed.

(** X17. Only the owner can undo a verification: over any list of
    transactions none of which is a revocation sent by the owner, a valid
    verification stays what it is, whoever sends what. *)
Theorem verification_is_permanent_without_owner :
  forall (txs : list KYCVerification.Tx) (s : KYCVerification.State) (h : Z),
    forallb (fun tx => negb (KYCVerification.owner_revokes (KYCVerification.owner s) tx)) txs = true ->
    KYCVerification.isValid (KYCVerification.verifications s h) = true ->
    KYCVerification.verifications (fold_left KYCVerification.apply_tx txs s) h = KYCVerification.verifications s h.
Proof.
  induction txs as [|tx txs IH]; intros s h Hall Hv; [reflexivity|].
  cbn [forallb] in Hall. apply andb_true_iff in Hall. destruct Hall as [Htx Hall].
  apply negb_true_iff in Htx. cbn [fold_left].
  pose proof (apply_tx_keeps_valid s tx h Htx Hv) as Hstep.
  rewrite <- Hstep. apply IH.
  - rewrite owner_apply_tx. exact Hall.
  - rewrite Hstep. exact Hv.
Qed.

Lemma revokeVerification_succeeds (msg : KYCVerification.Msg) (hash : Z) (s : KYCVerification.State) :
  KYCVerification.sender msg = KYCVerification.owner s ->
  KYCVerification.isValid (KYCVerification.verifications s hash) = true ->
  KYCVerification.revokeVerification msg hash s
  = (Returns true,
     KYCVerification.mkState
       (KYCVerification.set_slot (KYCVerification.verifications s) hash
          (KYCVerification.mkVerification (KYCVerification.verificationHash (KYCVerification.verifications s hash))
             (KYCVerification.userId (KYCVerification.verifications s hash))
             (KYCVerification.documentType (KYCVerification.verifications s hash))
             (KYCVerification.timestamp (KYCVerification.verifications s hash)) false
             (KYCVerification.verifier (KYCVerification.verifications s hash))))
       (KYCVerification.userVerifications s)
       (KYCVerification.set_user_slot (KYCVerification.isUserVerified s) (KYCVerification.userId (KYCVerification.verifications s hash))
          (existsb
             (fun h =>
                KYCVerification.isValid
                  (KYCVerification.set_slot (KYCVerification.verifications s) hash
                     (KYCVerification.mkVerification (KYCVerification.verificationHash (KYCVerification.verifications s hash))
                        (KYCVerification.userId (KYCVerification.verifications s hash))
                        (KYCVerification.documentType (KYCVerification.verifications s hash))
                        (KYCVerification.timestamp (KYCVerification.verifications s hash)) false
                        (KYCVerification.verifier (KYCVerification.verifications s hash))) h))
             (KYCVerification.userVerifications s (KYCVerification.userId (KYCVerification.verifications s hash)))))
       (KYCVerification.totalVerifications s) (KYCVerification.owner s)
       (List.app (KYCVerification.logs s)
          [KYCVerification.VerificationRevoked hash (KYCVerification.userId (KYCVerification.verifications s hash))
                                 (KYCVerification.block_timestamp msg)])).
Proof.
  intros Ho Hv. unfold KYCVerification.revokeVerification. rewrite Ho, Z.eqb_refl, Hv.
  cbn [negb]. rewrite set_slot_same. reflexivity.
Qed.

(** X17 on a registration followed by a revocation attempted by
    another account and by a second registration of the same hash. *)
Lemma verification_is_permanent_without_owner_witness :
  KYCVerification.getVerification 5%Z
    (fold_left KYCVerification.apply_tx
       [KYCVerification.Tx_revoke (KYCVerification.mkMsg 7%Z 200%Z) 5%Z;
        KYCVerification.Tx_register (KYCVerification.mkMsg 8%Z 300%Z) 5%Z "u2" "pan"]
       (KYCVerification.run (KYCVerification.mkMsg 1%Z 0%Z)
          [KYCVerification.Tx_register (KYCVerification.mkMsg 7%Z 100%Z) 5%Z
                                       "u1" "aadhaar"]))
  = (true, 100%Z, "u1", "aadhaar").
Proof.
  unfold KYCVerification.getVerification.
  rewrite (verification_is_permanent_without_owner
             [KYCVerification.Tx_revoke (KYCVerification.mkMsg 7%Z 200%Z) 5%Z;
              KYCVerification.Tx_register (KYCVerification.mkMsg 8%Z 300%Z) 5%Z
                                          "u2" "pan"]
             (KYCVerification.run (KYCVerification.mkMsg 1%Z 0%Z)
                [KYCVerification.Tx_register (KYCVerification.mkMsg 7%Z 100%Z) 5%Z
                                             "u1" "aadhaar"])
             5%Z eq_refl eq_refl).
  reflexivity.
Defined.

(** X18. The flag of a user can outlive their verifications. A revoked
    hash can be registered again, for another user, and it stays in the
    list of the first one; the revocation of a later verification of the
    first user then finds that hash valid in their list and leaves them
    flagged as verified, although the only valid verification belongs to
    the other user. *)
Theorem revoked_hash_keeps_old_user_flagged :
  forall (deployer m1 m2 m3 m4 m5 : KYCVerification.Msg) (h h2 : Z) (A B docType : string),
    h <> 0%Z -> h2 <> 0%Z -> h <> h2 ->
    A <> EmptyString -> B <> EmptyString -> A <> B ->
    KYCVerification.sender m2 = KYCVerification.sender deployer ->
    KYCVerification.sender m5 = KYCVerification.sender deployer ->
    let s := KYCVerification.run deployer
               [KYCVerification.Tx_register m1 h A docType; KYCVerification.Tx_revoke m2 h;
                KYCVerification.Tx_register m3 h B docType; KYCVerification.Tx_register m4 h2 A docType;
                KYCVerification.Tx_revoke m5 h2] in
    KYCVerification.isVerified A s = true
    /\ KYCVerification.getUserVerifications A s = [h; h2]
    /\ KYCVerification.isValid (KYCVerification.verifications s h2) = false
    /\ forall x, KYCVerification.isValid (KYCVerification.verifications s x) = true ->
                 x = h /\ KYCVerification.userId (KYCVerification.verifications s x) = B.
Proof.
  intros deployer m1 m2 m3 m4 m5 h h2 A B docType Hh Hh2 Hne HA HB HAB Ho2 Ho5.
  assert (Ehh2 : Z.eqb h h2 = false) by (apply Z.eqb_neq; exact Hne).
  assert (Eh2h : Z.eqb h2 h = false) by (apply Z.eqb_neq; congruence).
  assert (EAB : String.eqb A B = false) by (apply String.eqb_neq; exact HAB).
  assert (EBA : String.eqb B A = false) by (apply String.eqb_neq; congruence).
  cbv zeta. unfold KYCVerification.run. cbn [fold_left KYCVerification.apply_tx].
  (* registration of [h] for [A] *)
  rewrite (registerVerification_succeeds m1 h A docType (KYCVerification.constructor deployer)
             Hh HA eq_refl eq_refl).
  cbn [snd KYCVerification.constructor KYCVerification.verifications KYCVerification.userVerifications KYCVerification.isUserVerified
       KYCVerification.totalVerifications KYCVerification.owner KYCVerification.logs KYCVerification.sender List.app Z.add].
  (* revocation of [h] *)
  rewrite (revokeVerification_succeeds m2 h);
    [| exact Ho2 | cbn [KYCVerification.verifications]; rewrite set_slot_same; reflexivity].
  cbn [snd KYCVerification.verifications KYCVerification.userVerifications KYCVerification.isUserVerified
       KYCVerification.totalVerifications KYCVerification.owner KYCVerification.logs].
  rewrite !set_slot_same.
  cbn [KYCVerification.verificationHash KYCVerification.userId KYCVerification.documentType KYCVerification.timestamp KYCVerification.verifier].
  rewrite !set_user_slot_same. cbn [existsb]. rewrite !set_slot_same.
  cbn [KYCVerification.isValid orb].
  (* registration of [h] for [B] *)
  rewrite (registerVerification_succeeds m3 h B docType _ Hh HB);
    [| cbn [KYCVerification.verifications]; rewrite set_slot_same; reflexivity | reflexivity].
  cbn [snd KYCVerification.verifications KYCVerification.userVerifications KYCVerification.isUserVerified
       KYCVerification.totalVerifications KYCVerification.owner KYCVerification.logs].
  (* registration of [h2] for [A] *)
  rewrite (registerVerification_succeeds m4 h2 A docType _ Hh2 HA);
    [| cbn [KYCVerification.verifications]; rewrite !(set_slot_other _ _ _ _ Eh2h); reflexivity
     | reflexivity].
  cbn [snd KYCVerification.verifications KYCVerification.userVerifications KYCVerification.isUserVerified
       KYCVerification.totalVerifications KYCVerification.owner KYCVerification.logs].
  (* revocation of [h2] *)
  rewrite (revokeVerification_succeeds m5 h2);
    [| exact Ho5 | cbn [KYCVerification.verifications]; rewrite set_slot_same; reflexivity].
  unfold KYCVerification.isVerified, KYCVerification.getUserVerifications.
  cbn [snd KYCVerification.verifications KYCVerification.userVerifications KYCVerification.isUserVerified].
  rewrite !set_slot_same.
  cbn [KYCVerification.verificationHash KYCVerification.userId KYCVerification.documentType KYCVerification.timestamp KYCVerification.verifier KYCVerification.isValid].
  rewrite !set_user_slot_same.
  rewrite !(set_user_slot_other _ B A) by exact HA || congruence.
  rewrite !set_user_slot_same.
  cbn [List.app existsb].
  rewrite !(set_slot_other _ h2 h) by exact Ehh2.
  rewrite !set_slot_same. cbn [KYCVerification.isValid orb].
  split; [reflexivity|]. split; [reflexivity|]. split; [reflexivity|].
  intros x. unfold KYCVerification.set_slot.
  destruct (Z.eqb x h2); [intros H; discriminate H|].
  destruct (Z.eqb x h) eqn:Ex; [|intros H; discriminate H].
  intros _. apply Z.eqb_eq in Ex. split; [exact Ex | reflexivity].
Qed.

(** X18 with two hashes and the users ["alice"] and ["bob"]. *)
Lemma revoked_hash_keeps_old_user_flagged_witness :
  KYCVerification.isVerified "alice"
    (KYCVerification.run (KYCVerification.mkMsg 1%Z 0%Z)
       [KYCVerification.Tx_register (KYCVerification.mkMsg 7%Z 10%Z) 5%Z "alice" "aadhaar";
        KYCVerification.Tx_revoke (KYCVerification.mkMsg 1%Z 20%Z) 5%Z;
        KYCVerification.Tx_register (KYCVerification.mkMsg 7%Z 30%Z) 5%Z "bob" "aadhaar";
        KYCVerification.Tx_register (KYCVerification.mkMsg 7%Z 40%Z) 6%Z "alice" "aadhaar";
        KYCVerification.Tx_revoke (KYCVerification.mkMsg 1%Z 50%Z) 6%Z])
  = true.
Proof.
  refine (proj1 (revoked_hash_keeps_old_user_flagged
                   (KYCVerification.mkMsg 1%Z 0%Z) (KYCVerification.mkMsg 7%Z 10%Z)
                   (KYCVerification.mkMsg 1%Z 20%Z) (KYCVerification.mkMsg 7%Z 30%Z)
                   (KYCVerification.mkMsg 7%Z 40%Z) (KYCVerification.mkMsg 1%Z 50%Z)
                   5%Z 6%Z "alice" "bob" "aadhaar" _ _ _ _ _ _ eq_refl eq_refl));
    discriminate.
Defined.

(** ** The repair route *)

Lemma In_update_first_other {A : Type} (p : A -> bool) (f : A -> A) (l : list A)
      (x : A) :
  In x l -> p x = false -> In x (update_first p f l).
Proof.
  intros Hin Hp. induction l as [|y l IH]; [contradiction|].
  cbn [update_first]. destruct Hin as [->|Hin].
  - rewrite Hp. left. reflexivity.
  - destruct (p y); right; [exact Hin | apply IH; exact Hin].
Qed.

Lemma findById_In (db : DB) (r : KYCRecord) :
  NoDup (map _id (records db)) -> In r (records db) -> findById db (_id r) = Some r.
Proof.
  unfold findById. induction (records db) as [|x l IH]; intros Hnd Hin;
    [contradiction|].
  cbn [map] in Hnd. apply NoDup_cons_iff in Hnd. destruct Hnd as [Hnotin Hnd].
  cbn [find]. destruct Hin as [->|Hin].
  - rewrite String.eqb_refl. reflexivity.
  - destruct (String.eqb (_id x) (_id r)) eqn:E.
    + exfalso. apply String.eqb_eq in E. apply Hnotin. rewrite E.
      apply in_map. exact Hin.
    + apply IH; assumption.
Qed.

Lemma findById_is_In (db : DB) (id : string) (r : KYCRecord) :
  findById db id = Some r -> In r (records db) /\ _id r = id.
Proof.
  intros H. unfold findById in H. apply find_some in H. destruct H as [Hin Hid].
  split; [exact Hin | apply String.eqb_eq; exact Hid].
Qed.

Lemma records_ids_of_submission_data (db db' : DB) :
  map submission_data (records db') = map submission_data (records db) ->
  map _id (records db') = map _id (records db).
Proof.
  intros H.
  assert (E : forall l, map _id l
                        = map (fun t => fst (fst (fst (fst (fst (fst (fst (fst (fst
                                   (fst (fst t))))))))))) (map submission_data l)).
  { intros l. rewrite map_map. reflexivity. }
  rewrite (E (records db')), (E (records db)), H. reflexivity.
Qed.

Lemma find_update_first_defined {A : Type} (p q : A -> bool) (f : A -> A)
      (l : list A) :
  (forall x, p (f x) = p x) ->
  find p l <> None -> find p (update_first q f l) <> None.
Proof.
  intros Hp. induction l as [|x l IH]; [intros H; exact H|].
  cbn [update_first find]. destruct (q x).
  - cbn [find]. rewrite Hp. destruct (p x); [discriminate | exact (fun H => H)].
  - cbn [find]. destruct (p x); [discriminate | exact IH].
Qed.

Lemma user_stays_verified (db : DB) (id uid : string) :
  option_map kycStatus (findUserById db uid) = Some kyc_verified ->
  option_map kycStatus
    (findUserById (User_findByIdAndUpdate id (set_kycStatus kyc_verified) db) uid)
  = Some kyc_verified.
Proof.
  unfold findUserById, User_findByIdAndUpdate. cbn [users].
  induction (users db) as [|x l IH]; [intros H; discriminate H|].
  cbn [update_first find].
  destruct (String.eqb (user_id x) id) eqn:Eid; cbn [find].
  - change (user_id (set_kycStatus kyc_verified x)) with (user_id x).
    destruct (String.eqb (user_id x) uid); [reflexivity | exact (fun H => H)].
  - destruct (String.eqb (user_id x) uid); [exact (fun H => H) | exact IH].
Qed.

Lemma user_becomes_verified (db : DB) (uid : string) :
  findUserById db uid <> None ->
  option_map kycStatus
    (findUserById (User_findByIdAndUpdate uid (set_kycStatus kyc_verified) db) uid)
  = Some kyc_verified.
Proof.
  intros H. rewrite findUserById_User_findByIdAndUpdate by reflexivity.
  destruct (findUserById db uid); [reflexivity | contradiction].
Qed.

Section RepairFacts.

Variable env : Env.
Variable random : nat -> string.

Lemma fix_record_spec (tick : nat) (rec : KYCRecord) (user : option User) (db : DB) :
  NoDup (map _id (records db)) ->
  In rec (records db) ->
  (forall u, user = Some u -> findUserById db (user_id u) <> None) ->
  let res := Repair.fix_record env random tick (rec, user) db in
  map submission_data (records (snd res)) = map submission_data (records db)
  /\ (forall r, In r (records db) -> String.eqb (_id r) (_id rec) = false ->
                In r (records (snd res)))
  /\ (forall uid,
         option_map kycStatus (findUserById db uid) = Some kyc_verified ->
         option_map kycStatus (findUserById (snd res) uid) = Some kyc_verified)
  /\ (forall uid, findUserById db uid <> None -> findUserById (snd res) uid <> None)
  /\ exists r',
      findById (snd res) (_id rec) = Some r'
      /\ Repair.turn_outcome env tick rec user r' (fst res) (snd res).
Proof.
  intros Hnd Hin Huser. cbv zeta. unfold Repair.fix_record.
  pose proof (findById_In db rec Hnd Hin) as Hfind.
  set (f1 := Repair.mock_credential_update (clock env tick) (random tick)).
  assert (Hfind1 : findById (findByIdAndUpdate (_id rec) f1 db) (_id rec)
                   = Some (f1 rec)).
  { rewrite findById_findByIdAndUpdate by reflexivity. rewrite Hfind. reflexivity. }
  assert (Hdata1 : map submission_data (records (findByIdAndUpdate (_id rec) f1 db))
                   = map submission_data (records db)).
  { unfold findByIdAndUpdate. cbn [records]. apply map_update_first.
    intros x. reflexivity. }
  assert (Hother1 : forall r, In r (records db) ->
                              String.eqb (_id r) (_id rec) = false ->
                              In r (records (findByIdAndUpdate (_id rec) f1 db))).
  { intros r Hr Hid. unfold findByIdAndUpdate. cbn [records].
    apply In_update_first_other; assumption. }
  destruct user as [u|].
  - destruct (registerKYCOnBlockchain env (user_id u)
                (Repair.repair_blockchainData rec) (clock env (S tick)))
      as [res|m] eqn:Hreg; cbn [fst snd].
    + set (f2 := completed_update (clock env (S (S tick))) res).
      split; [|split; [|split; [|split]]].
      * unfold User_findByIdAndUpdate, findByIdAndUpdate. cbn [records].
        rewrite map_update_first by (intros x; reflexivity).
        apply map_update_first. intros x. reflexivity.
      * intros r Hr Hid. unfold User_findByIdAndUpdate. cbn [records].
        unfold findByIdAndUpdate at 1. cbn [records].
        apply In_update_first_other; [|exact Hid]. apply Hother1; assumption.
      * intros uid Hv. apply user_stays_verified.
        rewrite !findUserById_findByIdAndUpdate. exact Hv.
      * intros uid Hex. unfold findUserById, User_findByIdAndUpdate. cbn [users].
        apply find_update_first_defined; [intros x; reflexivity | exact Hex].
      * exists (f2 (f1 rec)). split.
        -- rewrite findById_User_findByIdAndUpdate.
           rewrite findById_findByIdAndUpdate by reflexivity.
           rewrite Hfind1. reflexivity.
        -- unfold Repair.turn_outcome. rewrite Hreg. repeat split.
           apply user_becomes_verified.
           rewrite !findUserById_findByIdAndUpdate. apply Huser. reflexivity.
    + split; [exact Hdata1|]. split; [exact Hother1|].
      split; [intros uid Hv; rewrite findUserById_findByIdAndUpdate; exact Hv|].
      split; [intros uid Hex; rewrite findUserById_findByIdAndUpdate; exact Hex|].
      exists (f1 rec). split; [exact Hfind1|].
      unfold Repair.turn_outcome. rewrite Hreg. repeat split.
  - cbn [fst snd].
    split; [exact Hdata1|]. split; [exact Hother1|].
    split; [intros uid Hv; rewrite findUserById_findByIdAndUpdate; exact Hv|].
    split; [intros uid Hex; rewrite findUserById_findByIdAndUpdate; exact Hex|].
    exists (f1 rec). split; [exact Hfind1|]. unfold Repair.turn_outcome. repeat split.
Qed.

Lemma fix_loop_spec (todo : list Populated) :
  forall (tick : nat) (db : DB) (results : Repair.Results),
    NoDup (map _id (records db)) ->
    NoDup (map (fun p => _id (fst p)) todo) ->
    (forall rec user,
        In (rec, user) todo ->
        In rec (records db)
        /\ forall u, user = Some u -> findUserById db (user_id u) <> None) ->
    let res := Repair.fix_loop env random todo tick db results in
    map submission_data (records (snd res)) = map submission_data (records db)
    /\ (forall r, In r (records db) ->
                  (forall p, In p todo -> String.eqb (_id r) (_id (fst p)) = false) ->
                  In r (records (snd res)))
    /\ (forall uid,
           option_map kycStatus (findUserById db uid) = Some kyc_verified ->
           option_map kycStatus (findUserById (snd res) uid) = Some kyc_verified)
    /\ List.length (Repair.fixed (fst res)) + List.length (Repair.failed (fst res))
       = List.length (Repair.fixed results) + List.length (Repair.failed results)
         + List.length todo
    /\ (forall e, In e (Repair.fixed results) -> In e (Repair.fixed (fst res)))
    /\ (forall e, In e (Repair.failed results) -> In e (Repair.failed (fst res)))
    /\ (forall rec user,
           In (rec, user) todo ->
           exists r',
             findById (snd res) (_id rec) = Some r'
             /\ Repair.repaired env rec user r' (fst res) (snd res)).
Proof.
  induction todo as [|[rec user] rest IH]; intros tick db results Hnd Htodo Hin;
    cbv zeta.
  - cbn [Repair.fix_loop fst snd List.length]. repeat split; try tauto.
    + lia.
    + intros rec user [].
  - cbn [Repair.fix_loop].
    cbn [map fst] in Htodo. apply NoDup_cons_iff in Htodo.
    destruct Htodo as [Hfresh Htodo].
    destruct (Hin rec user (or_introl eq_refl)) as [Hrec Huser].
    pose proof (fix_record_spec tick rec user db Hnd Hrec Huser) as Hturn.
    cbv zeta in Hturn.
    destruct Hturn as (Hdata1 & Hother1 & Hver1 & Hex1 & r1 & Hfind1 & Hout).
    assert (Hnd1 : NoDup (map _id
                      (records (snd (Repair.fix_record env random tick (rec, user) db))))).
    { rewrite (records_ids_of_submission_data _ _ Hdata1). exact Hnd. }
    assert (Hrest_ne : forall p, In p rest ->
                                 String.eqb (_id (fst p)) (_id rec) = false).
    { intros p Hp. apply String.eqb_neq. intros E. apply Hfresh. rewrite <- E.
      apply (in_map (fun p => _id (fst p))). exact Hp. }
    assert (Hin1 : forall rec2 user2,
               In (rec2, user2) rest ->
               In rec2 (records (snd (Repair.fix_record env random tick (rec, user) db)))
               /\ forall u, user2 = Some u ->
                            findUserById
                              (snd (Repair.fix_record env random tick (rec, user) db))
                              (user_id u) <> None).
    { intros rec2 user2 Hp.
      destruct (Hin rec2 user2 (or_intror Hp)) as [Hrec2 Huser2]. split.
      - apply Hother1; [exact Hrec2|]. apply (Hrest_ne (rec2, user2) Hp).
      - intros u Hu. apply Hex1. apply (Huser2 u Hu). }
    destruct (findById_is_In _ _ _ Hfind1) as [Hr1in Hr1id].
    destruct Hout as (Hsd & Hreason & Hcred & Hnot & Hcases).
    assert (Hgoal : forall e results1,
               fst (Repair.fix_record env random tick (rec, user) db) = e ->
               (forall x, In x (Repair.fixed results) -> In x (Repair.fixed results1)) ->
               (forall x, In x (Repair.failed results) -> In x (Repair.failed results1)) ->
               (forall x, e = inl x -> In x (Repair.fixed results1)) ->
               (forall x, e = inr x -> In x (Repair.failed results1)) ->
               List.length (Repair.fixed results1) + List.length (Repair.failed results1)
               = S (List.length (Repair.fixed results)
                    + List.length (Repair.failed results)) ->
               let res := Repair.fix_loop env random rest (3 + tick)
                            (snd (Repair.fix_record env random tick (rec, user) db))
                            results1 in
               map submission_data (records (snd res))
               = map submission_data (records db)
               /\ (forall r, In r (records db) ->
                             (forall p, In p ((rec, user) :: rest) ->
                                        String.eqb (_id r) (_id (fst p)) = false) ->
                             In r (records (snd res)))
               /\ (forall uid,
                      option_map kycStatus (findUserById db uid) = Some kyc_verified ->
                      option_map kycStatus (findUserById (snd res) uid)
                      = Some kyc_verified)
               /\ List.length (Repair.fixed (fst res))
                  + List.length (Repair.failed (fst res))
                  = List.length (Repair.fixed results)
                    + List.length (Repair.failed results)
                    + List.length ((rec, user) :: rest)
               /\ (forall x, In x (Repair.fixed results) -> In x (Repair.fixed (fst res)))
               /\ (forall x, In x (Repair.failed results) -> In x (Repair.failed (fst res)))
               /\ (forall rec0 user0,
                      In (rec0, user0) ((rec, user) :: rest) ->
                      exists r',
                        findById (snd res) (_id rec0) = Some r'
                        /\ Repair.repaired env rec0 user0 r' (fst res) (snd res))).
    { intros e results1 He Hfx Hfl Hel Her Hlen. cbv zeta.
      pose proof (IH (3 + tick) _ results1 Hnd1 Htodo Hin1) as H. cbv zeta in H.
      destruct H as (Hdata & Hother & Hver & Hlens & Hmfx & Hmfl & Hrep).
      split; [rewrite Hdata; exact Hdata1|].
      split.
      { intros r Hr Hne. apply Hother.
        - apply Hother1; [exact Hr|]. apply (Hne (rec, user)). left. reflexivity.
        - intros p Hp. apply Hne. right. exact Hp. }
      split; [intros uid Hv; apply Hver; apply Hver1; exact Hv|].
      split; [unfold Populated in *; cbn [List.length]; lia|].
      split; [intros x Hx; apply Hmfx; apply Hfx; exact Hx|].
      split; [intros x Hx; apply Hmfl; apply Hfl; exact Hx|].
      intros rec0 user0 [E|Hp]; [|apply Hrep; exact Hp].
      injection E as <- <-. exists r1.
      assert (Hr1final : In r1 (records (snd (Repair.fix_loop env random rest
                 (3 + tick)
                 (snd (Repair.fix_record env random tick (rec, user) db)) results1)))).
      { apply Hother; [exact Hr1in|]. intros p Hp. rewrite Hr1id, String.eqb_sym.
        apply Hrest_ne. exact Hp. }
      split.
      - rewrite <- Hr1id. apply findById_In; [|exact Hr1final].
        rewrite (records_ids_of_submission_data _ _ Hdata). exact Hnd1.
      - unfold Repair.repaired. split; [exact Hsd|]. split; [exact Hreason|].
        split; [exact Hcred|]. exists (S tick).
        destruct user as [u|].
        + destruct (registerKYCOnBlockchain env (user_id u)
                      (Repair.repair_blockchainData rec) (clock env (S tick)))
            as [lr|m].
          * destruct Hcases as (Hst & Htx & Hvh & Hentry & Hu).
            split; [exact Hst|]. split; [exact Htx|]. split; [exact Hvh|].
            split; [apply Hmfx; apply Hel; rewrite <- He; exact Hentry|].
            apply Hver. exact Hu.
          * destruct Hcases as (Hst & Hentry).
            split; [exact Hst|]. apply Hmfl. apply Her. rewrite <- He. exact Hentry.
        + destruct Hcases as (Hst & Hentry).
          split; [exact Hst|]. apply Hmfl. apply Her. rewrite <- He. exact Hentry. }
    destruct (Repair.fix_record env random tick (rec, user) db) as [[e|e] db1] eqn:Hfix;
      cbn [fst snd] in *.
    + apply (Hgoal (inl e)); try reflexivity; cbn [Repair.fixed Repair.failed].
      * intros x Hx. apply in_or_app. left. exact Hx.
      * intros x Hx. exact Hx.
      * intros x Hx. injection Hx as <-. apply in_or_app. right. left. reflexivity.
      * intros x Hx. discriminate Hx.
      * rewrite length_app. cbn [List.length]. lia.
    + apply (Hgoal (inr e)); try reflexivity; cbn [Repair.fixed Repair.failed].
      * intros x Hx. exact Hx.
      * intros x Hx. apply in_or_app. left. exact Hx.
      * intros x Hx. discriminate Hx.
      * intros x Hx. injection Hx as <-. apply in_or_app. right. left. reflexivity.
      * rewrite length_app. cbn [List.length]. lia.
Qed.

End RepairFacts.

Lemma is_stuck_record_spec (r : KYCRecord) :
  Repair.is_stuck_record r = true
  <-> status r = ai_verified /\ rejectionReason r <> None.
Proof.
  unfold Repair.is_stuck_record. rewrite andb_true_iff, Status_eqb_eq.
  destruct (rejectionReason r) as [s|]; cbn [Repair.reason_matches Repair.reason_set].
  - rewrite orb_true_r. split; intros [H _]; (split; [exact H|]);
      [discriminate | reflexivity].
  - split; intros [H1 H2]; [discriminate H2 | contradiction].
Qed.

Lemma stuck_ids_distinct (l : list KYCRecord) :
  NoDup (map _id l) -> NoDup (map _id (filter Repair.is_stuck_record l)).
Proof.
  induction l as [|x l IH]; intros H; [exact H|].
  cbn [map] in H. apply NoDup_cons_iff in H. destruct H as [Hx Hl].
  cbn [filter]. destruct (Repair.is_stuck_record x); [|apply IH; exact Hl].
  cbn [map]. apply NoDup_cons_iff. split; [|apply IH; exact Hl].
  intros Hin. apply Hx. apply in_map_iff in Hin. destruct Hin as (y & Hy & Hyin).
  apply in_map_iff. exists y. split; [exact Hy|].
  apply filter_In in Hyin. apply Hyin.
Qed.

Lemma filter_none {A : Type} (p : A -> bool) (l : list A) :
  (forall x, In x l -> p x = false) -> filter p l = [].
Proof.
  induction l as [|x l IH]; intros H; [reflexivity|].
  cbn [filter]. rewrite (H x (or_introl eq_refl)). apply IH.
  intros y Hy. apply H. right. exact Hy.
Qed.

Lemma same_id_same_record (db : DB) (r1 r2 : KYCRecord) :
  NoDup (map _id (records db)) ->
  In r1 (records db) -> In r2 (records db) -> _id r1 = _id r2 -> r1 = r2.
Proof.
  intros Hnd H1 H2 Hid.
  pose proof (findById_In db r1 Hnd H1) as F1.
  pose proof (findById_In db r2 Hnd H2) as F2.
  rewrite Hid in F1. congruence.
Qed.

Lemma fix_stuck_kyc_effect :
  forall (env : Env) (random : nat -> string) (db : DB),
    NoDup (map _id (records db)) ->
    let res := Repair.fix_stuck_kyc env random db in
    (forall r, Repair.is_stuck_record r = true
               <-> status r = ai_verified /\ rejectionReason r <> None)
    /\ map submission_data (records (snd res)) = map submission_data (records db)
    /\ (forall r, In r (records db) -> Repair.is_stuck_record r = false ->
                  In r (records (snd res)))
    /\ (forall r', In r' (records (snd res)) -> Repair.is_stuck_record r' = false)
    /\ List.length (Repair.fixed (fst res)) + List.length (Repair.failed (fst res))
       = List.length (filter Repair.is_stuck_record (records db))
    /\ (forall r,
           In r (records db) -> Repair.is_stuck_record r = true ->
           exists r',
             findById (snd res) (_id r) = Some r'
             /\ Repair.repaired env r (findUserById db (userId r)) r'
                                (fst res) (snd res))
    /\ (forall random',
           Repair.fix_stuck_kyc env random' (snd res)
           = (Repair.mkResults [] [], snd res)).
Proof.
  intros env random db Hnd. cbv zeta.
  split; [exact is_stuck_record_spec|].
  change (Repair.fix_stuck_kyc env random db)
    with (Repair.fix_loop env random (Repair.stuckRecords db) 0 db
                          (Repair.mkResults [] [])).
  assert (Hids : map (fun p : Populated => _id (fst p)) (Repair.stuckRecords db)
                 = map _id (filter Repair.is_stuck_record (records db))).
  { unfold Repair.stuckRecords. rewrite map_map. reflexivity. }
  assert (Htodo : NoDup (map (fun p : Populated => _id (fst p))
                             (Repair.stuckRecords db))).
  { rewrite Hids. apply stuck_ids_distinct. exact Hnd. }
  assert (Hin : forall rec user,
             In (rec, user) (Repair.stuckRecords db) ->
             In rec (records db)
             /\ forall u, user = Some u -> findUserById db (user_id u) <> None).
  { intros rec user Hp. unfold Repair.stuckRecords in Hp.
    apply in_map_iff in Hp. destruct Hp as (r & E & Hr). injection E as <- <-.
    apply filter_In in Hr. destruct Hr as [Hr _]. split; [exact Hr|].
    intros u Hu.
    assert (user_id u = userId r)
      by (apply String.eqb_eq; apply (find_some _ _ Hu)).
    congruence. }
  pose proof (fix_loop_spec env random (Repair.stuckRecords db) 0 db
                (Repair.mkResults [] []) Hnd Htodo Hin) as H.
  cbv zeta in H. destruct H as (Hdata & Hother & _ & Hlen & _ & _ & Hrep).
  set (res := Repair.fix_loop env random (Repair.stuckRecords db) 0 db
                              (Repair.mkResults [] [])) in *.
  assert (Hnd' : NoDup (map _id (records (snd res)))).
  { rewrite (records_ids_of_submission_data _ _ Hdata). exact Hnd. }
  assert (Hkept : forall r, In r (records db) -> Repair.is_stuck_record r = false ->
                            In r (records (snd res))).
  { intros r Hr Hns. apply Hother; [exact Hr|].
    intros [rec user] Hp. cbn [fst]. apply String.eqb_neq. intros E.
    destruct (Hin rec user Hp) as [Hrec _].
    assert (r = rec) by (apply (same_id_same_record db); assumption). subst rec.
    unfold Repair.stuckRecords in Hp. apply in_map_iff in Hp.
    destruct Hp as (r0 & E0 & Hr0). injection E0 as -> _.
    apply filter_In in Hr0. destruct Hr0 as [_ Hst]. congruence. }
  assert (Hfixed : forall r,
             In r (records db) -> Repair.is_stuck_record r = true ->
             exists r',
               findById (snd res) (_id r) = Some r'
               /\ Repair.repaired env r (findUserById db (userId r)) r'
                                  (fst res) (snd res)).
  { intros r Hr Hst. apply Hrep. unfold Repair.stuckRecords.
    apply in_map_iff. exists r. split; [reflexivity|].
    apply filter_In. split; assumption. }
  assert (Hnone : forall r', In r' (records (snd res)) ->
                             Repair.is_stuck_record r' = false).
  { intros r' Hr'.
    assert (Hid : In (_id r') (map _id (records db))).
    { rewrite <- (records_ids_of_submission_data _ _ Hdata). apply in_map. exact Hr'. }
    apply in_map_iff in Hid. destruct Hid as (r & Hid & Hr).
    destruct (Repair.is_stuck_record r) eqn:Hst.
    - destruct (Hfixed r Hr Hst) as (r'' & Hfind & _ & Hreason & _).
      destruct (findById_is_In _ _ _ Hfind) as [Hin'' Hid''].
      assert (r'' = r')
        by (apply (same_id_same_record (snd res)); try assumption; congruence).
      subst r''. unfold Repair.is_stuck_record. rewrite Hreason.
      apply andb_false_r.
    - assert (r = r')
        by (apply (same_id_same_record (snd res)); try assumption;
            apply Hkept; assumption).
      subst r'. exact Hst. }
  split; [exact Hdata|]. split; [exact Hkept|]. split; [exact Hnone|].
  split.
  { rewrite Hlen. cbn [Repair.fixed Repair.failed List.length Nat.add].
    unfold Repair.stuckRecords. rewrite length_map. reflexivity. }
  split; [exact Hfixed|].
  intros random'. unfold Repair.fix_stuck_kyc, Repair.stuckRecords.
  rewrite (filter_none _ _ Hnone). reflexivity.
Qed.

(** X19. The repair route. Its query selects the records in
    [ai_verified] that carry a rejection reason (the pattern on the reason
    adds nothing). When the ids of the records are distinct, the route
    changes no submission data and no record outside the selection; every
    selected record ends with no rejection reason and the credential
    data it had (the route writes the ids and the issue time of a
    credential, not its data), [completed] with the transaction of the ledger and its owner verified
    when the owner is found and the ledger registers it, and otherwise
    [credential_issued] with an entry in [failed]; [fixed] and [failed]
    together have one entry per selected record; and afterwards no record
    is selected any more, so a second call does nothing. *)
Theorem fix_stuck_kyc_repairs :
  forall (env : Env) (random : nat -> string) (db : DB),
    NoDup (map _id (records db)) ->
    let res := Repair.fix_stuck_kyc env random db in
    (forall r, Repair.is_stuck_record r = true
               <-> status r = ai_verified /\ rejectionReason r <> None)
    /\ map submission_data (records (snd res)) = map submission_data (records db)
    /\ (forall r, In r (records db) -> Repair.is_stuck_record r = false ->
                  In r (records (snd res)))
    /\ (forall r', In r' (records (snd res)) -> Repair.is_stuck_record r' = false)
    /\ List.length (Repair.fixed (fst res)) + List.length (Repair.failed (fst res))
       = List.length (filter Repair.is_stuck_record (records db))
    /\ (forall r,
           In r (records db) -> Repair.is_stuck_record r = true ->
           exists r',
             findById (snd res) (_id r) = Some r'
             /\ Repair.repaired env r (findUserById db (userId r)) r'
                                (fst res) (snd res))
    /\ (forall random',
           Repair.fix_stuck_kyc env random' (snd res)
           = (Repair.mkResults [] [], snd res)).
Proof. exact fix_stuck_kyc_effect. Qed.

(** X19 on a collection with one stuck record and one completed. *)
Lemma fix_stuck_kyc_repairs_witness :
  List.length
    (Repair.fixed
       (fst (Repair.fix_stuck_kyc (Sample.env Sample.ai_pass Sample.mined)
               (fun _ => "k3j9x0q2a")
               (mkDB [Sample.record "rec0" completed;
                      set_rejectionReason (Some "Credential issuance failed: down")
                                          (Sample.record "rec1" ai_verified)]
                     [Sample.alice]))))
  + List.length
      (Repair.failed
         (fst (Repair.fix_stuck_kyc (Sample.env Sample.ai_pass Sample.mined)
                 (fun _ => "k3j9x0q2a")
                 (mkDB [Sample.record "rec0" completed;
                        set_rejectionReason (Some "Credential issuance failed: down")
                                            (Sample.record "rec1" ai_verified)]
                       [Sample.alice]))))
  = 1.
Proof.
  assert (Hnd : NoDup (map _id
                         (records
                            (mkDB [Sample.record "rec0" completed;
                                   set_rejectionReason
                                     (Some "Credential issuance failed: down")
                                     (Sample.record "rec1" ai_verified)]
                                  [Sample.alice])))).
  { apply NoDup_cons; [intros [H|[]]; discriminate H|].
    apply NoDup_cons; [intros [] | apply NoDup_nil]. }
  pose proof (fix_stuck_kyc_repairs (Sample.env Sample.ai_pass Sample.mined)
                (fun _ => "k3j9x0q2a") _ Hnd) as H.
  cbv zeta in H. destruct H as (_ & _ & _ & _ & Hlen & _).
  exact Hlen.
Defined.

(** The database the pipeline leaves when the credential agent fails in
    production. *)
Lemma issuer_failure_run (env : Env) (task : Task) (db : DB) (r : KYCRecord)
      (u : User) (a : AIResult) (message : string) :
  present db (task_kycRecordId task) r u ->
  ai_answer env task = Returns a ->
  verified a = true ->
  SKIP_ARIES_CREDENTIAL env || NODE_ENV_development env = false ->
  createConnectionInvitation env = Throws message ->
  exists d,
    m_db (run_pipeline env task enough_steps (start_machine db))
    = findByIdAndUpdate (task_kycRecordId task) (credential_failed_update message)
        (findByIdAndUpdate (task_kycRecordId task) (ai_update (clock env 4) a d)
           (findByIdAndUpdate (task_kycRecordId task) quality_update
              (findByIdAndUpdate (task_kycRecordId task) processing_update db))).
Proof.
  intros Hp Hai Hok Hskip Hinv.
  destruct (pipeline_until_verdict env task db) as (d & calls & H4 & Hcalls).
  rewrite Hai in H4.
  pose proof (present_until_verdict db _ r u Hp) as P0.
  assert (Hdev : NODE_ENV_development env = false)
    by (apply orb_false_iff in Hskip; apply Hskip).
  eassert (Hrun : run_pipeline env task 4
                    (mkMachine
                       (findByIdAndUpdate (task_kycRecordId task) quality_update
                          (findByIdAndUpdate (task_kycRecordId task)
                                             processing_update db))
                       timer_armed H_idle (P_ai d (Returns a)) calls 4)
                  = _).
  { rewrite run_pipeline_S, (step_P_ai_returns env task _ _ _ _ _ d a _ u P0).
    rewrite run_pipeline_S,
      (step_P_save_ai_invite env task _ _ _ _ _ a _ u Hok Hskip).
    rewrite run_pipeline_S,
      (step_A_invitation_throws env task _ _ _ _ _ _ (Some u) message Hinv Hdev).
    rewrite run_pipeline_S, (step_last env task _ _ _ _ _ _ (or_intror eq_refl)).
    cbn [run_pipeline]. reflexivity. }
  exists d.
  rewrite (run_pipeline_from_start env task db 4 _ _ H4 ltac:(lia) Hrun eq_refl).
  reflexivity.
Qed.

(** X20. The pipeline and the repair route together. The record that
    a failure of the credential agent leaves in [ai_verified] is one the
    repair route selects; when the ledger then registers it, the route
    leaves it [completed], with no rejection reason, the credential data
    it had before the pipeline and the transaction of the ledger, its
    submission data being those of the submission, and its owner
    verified. *)
Theorem repair_completes_a_record_the_issuer_failed :
  forall (env env' : Env) (task : Task) (db : DB) (r : KYCRecord) (u : User)
         (aiResult : AIResult) (message : string) (random : nat -> string)
         (h : string) (b : Z) (g : string),
    NoDup (map _id (records db)) ->
    findById db (task_kycRecordId task) = Some r ->
    findUserById db (userId r) = Some u ->
    ai_answer env task = Returns aiResult ->
    verified aiResult = true ->
    SKIP_ARIES_CREDENTIAL env || NODE_ENV_development env = false ->
    createConnectionInvitation env = Throws message ->
    initializeBlockchain_error env' = None ->
    (forall call, chain env' call = Mined h b g) ->
    let db1 := m_db (run_pipeline env task enough_steps (start_machine db)) in
    let res := Repair.fix_stuck_kyc env' random db1 in
    (exists r1, findById db1 (task_kycRecordId task) = Some r1
                /\ Repair.is_stuck_record r1 = true)
    /\ exists r',
        findById (snd res) (task_kycRecordId task) = Some r'
        /\ status r' = completed
        /\ rejectionReason r' = None
        /\ cred_credentialData (ariesCredential r')
           = cred_credentialData (ariesCredential r)
        /\ transactionHash (blockchainVerification r') = Some h
        /\ submission_data r' = submission_data r
        /\ In (Repair.mkFixedEntry (task_kycRecordId task) (user_id u) h)
              (Repair.fixed (fst res))
        /\ option_map kycStatus (findUserById (snd res) (user_id u))
           = Some kyc_verified.
Proof.
  intros env env' task db r u a message random h b g Hnd Hr Hu Hai Hok Hskip Hinv
         Hinit Hchain. cbv zeta.
  destruct (issuer_failure_run env task db r u a message (conj Hr Hu) Hai Hok
              Hskip Hinv) as (d & Hdb).
  rewrite Hdb.
  pose proof (present_until_verdict db (task_kycRecordId task) r u (conj Hr Hu))
    as P0.
  set (tid := task_kycRecordId task) in *.
  set (db0 := findByIdAndUpdate tid quality_update
                (findByIdAndUpdate tid processing_update db)) in *.
  set (r0 := quality_update (processing_update r)) in *.
  pose proof (present_write db0 tid r0 u (ai_update (clock env 4) a d)
                (fun _ => eq_refl) eq_refl P0) as Pa.
  set (ra := ai_update (clock env 4) a d r0) in *.
  set (dba := findByIdAndUpdate tid (ai_update (clock env 4) a d) db0) in *.
  pose proof (present_write dba tid ra u (credential_failed_update message)
                (fun _ => eq_refl) eq_refl Pa) as P1.
  set (r1 := credential_failed_update message ra) in *.
  set (db1 := findByIdAndUpdate tid (credential_failed_update message) dba) in *.
  clear P0 Pa.
  assert (Hnd1 : NoDup (map _id (records db1))).
  { subst db1 dba db0. unfold findByIdAndUpdate. cbn [records].
    rewrite !map_update_first by (intros x; reflexivity). exact Hnd. }
  destruct P1 as [Hr1 Hu1].
  destruct (findById_is_In _ _ _ Hr1) as [Hin1 Hid1].
  assert (Hst1 : Repair.is_stuck_record r1 = true)
    by (apply is_stuck_record_spec; split; [reflexivity | discriminate]).
  split; [exists r1; split; assumption|].
  pose proof (fix_stuck_kyc_effect env' random db1 Hnd1) as H. cbv zeta in H.
  destruct H as (_ & _ & _ & _ & _ & Hfixed & _).
  destruct (Hfixed r1 Hin1 Hst1) as (r' & Hfind & Hsd & Hreason & Hcred & tick & Hcase).
  rewrite Hid1 in Hfind.
  change (userId r1) with (userId r) in Hcase. 
  assert (Hu1' : findUserById db1 (userId r) = Some u) by exact Hu1.
  rewrite Hu1' in Hcase.
  unfold registerKYCOnBlockchain in Hcase. rewrite Hinit, Hchain in Hcase.
  cbn [lr_transactionHash lr_verificationHash] in Hcase.
  destruct Hcase as (Hst & Htx & _ & Hentry & Huser).
  rewrite Hid1 in Hentry.
  exists r'. repeat split; assumption.
Qed.

(** X20 on the sample submission: the agent is down during the
    pipeline, the chain answers during the repair. *)
Lemma repair_completes_a_record_the_issuer_failed_witness :
  exists r',
    findById
      (snd (Repair.fix_stuck_kyc (Sample.env Sample.ai_pass Sample.mined)
              (fun _ => "k3j9x0q2a")
              (m_db (run_pipeline (Cases.production_env (Throws "agent unreachable"))
                       Sample.task enough_steps
                       (start_machine
                          (Sample.db_with (Sample.record "rec1" submitted)))))))
      "rec1" = Some r'
    /\ status r' = completed
    /\ rejectionReason r' = None.
Proof.
  assert (Hnd : NoDup (map _id (records
                                  (Sample.db_with (Sample.record "rec1" submitted))))).
  { apply NoDup_cons; [intros [] | apply NoDup_nil]. }
  pose proof (repair_completes_a_record_the_issuer_failed
                (Cases.production_env (Throws "agent unreachable"))
                (Sample.env Sample.ai_pass Sample.mined) Sample.task
                (Sample.db_with (Sample.record "rec1" submitted))
                (Sample.record "rec1" submitted) Sample.alice
                (mkAIResult true (Some (95 # 100)%Q) (Some (92 # 100)%Q) None
                            (Some []))
                "agent unreachable" (fun _ => "k3j9x0q2a") "0xabc" 42%Z "21000"
                Hnd eq_refl eq_refl eq_refl eq_refl eq_refl eq_refl eq_refl
                (fun _ => eq_refl)) as H.
  cbv zeta in H.
  destruct H as (_ & r' & Hfind & Hst & Hreason & _).
  exists r'. repeat split; assumption.
Defined.

(** ** Authentication and the status lookups *)

Lemma latest_spec (l : list KYCRecord) :
  forall best r,
    Lookup.latest l best = Some r ->
    (In r l \/ best = Some r)
    /\ (forall x, In x l \/ best = Some x -> (submittedAt x <= submittedAt r)%Z).
Proof.
  induction l as [|y l IH]; intros best r H; cbn [Lookup.latest] in H.
  - split; [right; exact H|].
    intros x [[]|Hx]. rewrite Hx in H. injection H as ->. apply Z.le_refl.
  - destruct best as [b|].
    + destruct (Z.ltb (submittedAt b) (submittedAt y)) eqn:E.
      * destruct (IH _ _ H) as [Hin Hmax]. split.
        -- destruct Hin as [Hin|Hin]; [left; right; exact Hin|].
           injection Hin as ->. left. left. reflexivity.
        -- intros x [[->|Hx]|Hx].
           ++ apply Hmax. right. reflexivity.
           ++ apply Hmax. left. exact Hx.
           ++ injection Hx as ->. apply Z.ltb_lt in E.
              assert (submittedAt y <= submittedAt r)%Z
                by (apply Hmax; right; reflexivity). lia.
      * destruct (IH _ _ H) as [Hin Hmax]. split.
        -- destruct Hin as [Hin|Hin]; [left; right; exact Hin | right; exact Hin].
        -- intros x [[->|Hx]|Hx].
           ++ apply Z.ltb_ge in E.
              assert (submittedAt b <= submittedAt r)%Z
                by (apply Hmax; right; reflexivity). lia.
           ++ apply Hmax. left. exact Hx.
           ++ apply Hmax. right. exact Hx.
    + destruct (IH _ _ H) as [Hin Hmax]. split.
      * destruct Hin as [Hin|Hin]; [left; right; exact Hin|].
        injection Hin as ->. left. left. reflexivity.
      * intros x [[->|Hx]|Hx].
        -- apply Hmax. right. reflexivity.
        -- apply Hmax. left. exact Hx.
        -- discriminate Hx.
Qed.

Lemma latest_none (l : list KYCRecord) :
  forall best, Lookup.latest l best = None -> l = [] /\ best = None.
Proof.
  induction l as [|y l IH]; intros best H; cbn [Lookup.latest] in H.
  - split; [reflexivity | exact H].
  - destruct best as [b|].
    + destruct (Z.ltb (submittedAt b) (submittedAt y));
        destruct (IH _ H) as [_ Hb]; discriminate Hb.
    + destruct (IH _ H) as [_ Hb]. discriminate Hb.
Qed.

Lemma findLatestOf_spec (db : DB) (uid : string) (r : KYCRecord) :
  Lookup.findLatestOf db uid = Some r ->
  In r (records db) /\ userId r = uid
  /\ forall x, In x (records db) -> userId x = uid ->
               (submittedAt x <= submittedAt r)%Z.
Proof.
  unfold Lookup.findLatestOf. intros H.
  destruct (latest_spec _ _ _ H) as [[Hin|Hin] Hmax]; [|discriminate Hin].
  apply filter_In in Hin. destruct Hin as [Hin Huid].
  split; [exact Hin|]. split; [apply String.eqb_eq; exact Huid|].
  intros x Hx Hxu. apply Hmax. left. apply filter_In. split; [exact Hx|].
  apply String.eqb_eq. exact Hxu.
Qed.

Lemma not_own_nor_admin_false (req : Lookup.Request) (owner : string) :
  Lookup.not_own_nor_admin req owner = false ->
  owner = Lookup.user_id_ req \/ Lookup.user_role req = "admin".
Proof.
  unfold Lookup.not_own_nor_admin. intros H. apply andb_false_iff in H.
  destruct H as [H|H]; apply negb_false_iff in H; apply String.eqb_eq in H;
    [left | right]; exact H.
Qed.

Lemma status_of_user_shows (castObjectId : string -> option string)
      (uid : string) (db : DB) (v : Lookup.View) :
  Lookup.status_of_user castObjectId uid db = Lookup.OK (Some v) ->
  exists id r,
    castObjectId uid = Some id
    /\ In r (records db) /\ userId r = id /\ v = Lookup.view true r
    /\ forall x, In x (records db) -> userId x = id ->
                 (submittedAt x <= submittedAt r)%Z.
Proof.
  unfold Lookup.status_of_user, Lookup.no_record.
  destruct (castObjectId uid) as [id|]; [|intros H; discriminate H].
  destruct (Lookup.findLatestOf db id) as [r|] eqn:Hf; [|intros H; discriminate H].
  intros H. injection H as <-.
  destruct (findLatestOf_spec db id r Hf) as (Hin & Hu & Hmax).
  exists id, r. repeat split; assumption.
Qed.

Lemma status_of_record_shows (with_ipfs : bool) (req : Lookup.Request) (db : DB)
      (r : KYCRecord) (v : Lookup.View) :
  Lookup.status_of_record with_ipfs req db r = Lookup.OK (Some v) ->
  v = Lookup.view with_ipfs r
  /\ (userId r = Lookup.user_id_ req \/ Lookup.user_role req = "admin").
Proof.
  unfold Lookup.status_of_record.
  destruct (findUserById db (userId r)) as [owner|] eqn:Ho;
    [|intros H; discriminate H].
  destruct (Lookup.not_own_nor_admin req (user_id owner)) eqn:Hauth;
    [intros H; discriminate H|].
  intros H. injection H as <-. split; [reflexivity|].
  assert (user_id owner = userId r)
    by (apply String.eqb_eq; apply (find_some _ _ Ho)).
  destruct (not_own_nor_admin_false req _ Hauth) as [H1|H1];
    [left; congruence | right; exact H1].
Qed.

(** X21. The three status lookups show a record only to its owner or to
    an admin: whenever [getKYCStatus], [getKYCStatusByRecordId] or
    [getMyKYCStatus] answers 200 with a record, that record is in the
    collection and either belongs to the requesting user or the
    requester has the role [admin]. The id of the requester is the id
    of a stored user, which casts to itself. *)
Theorem status_lookup_shows_own_records_only :
  forall (castObjectId : string -> option string) (route : Lookup.Route)
         (req : Lookup.Request) (db : DB) (v : Lookup.View),
    castObjectId (Lookup.user_id_ req) = Some (Lookup.user_id_ req) ->
    Lookup.lookup castObjectId route req db = Lookup.OK (Some v) ->
    exists r,
      In r (records db)
      /\ (v = Lookup.view true r \/ v = Lookup.view false r)
      /\ (userId r = Lookup.user_id_ req \/ Lookup.user_role req = "admin").
Proof.
  intros cast route req db v Hcast.
  assert (Huser : forall uid,
             Lookup.not_own_nor_admin req uid = false ->
             Lookup.status_of_user cast uid db = Lookup.OK (Some v) ->
             exists r,
               In r (records db)
               /\ (v = Lookup.view true r \/ v = Lookup.view false r)
               /\ (userId r = Lookup.user_id_ req \/ Lookup.user_role req = "admin")).
  { intros uid Hauth H.
    destruct (status_of_user_shows cast uid db v H) as (id & r & Hid & Hin & Hu & Hv & _).
    exists r. split; [exact Hin|]. split; [left; exact Hv|].
    destruct (not_own_nor_admin_false req uid Hauth) as [H1|H1];
      [left | right; exact H1].
    subst uid. rewrite Hcast in Hid. injection Hid as <-. exact Hu. }
  assert (Hrecord : forall with_ipfs id,
             match findById db id with
             | None => Lookup.NotFound "KYC record not found"
             | Some kycRecord => Lookup.status_of_record with_ipfs req db kycRecord
             end = Lookup.OK (Some v) ->
             exists r,
               In r (records db)
               /\ (v = Lookup.view true r \/ v = Lookup.view false r)
               /\ (userId r = Lookup.user_id_ req \/ Lookup.user_role req = "admin")).
  { intros with_ipfs id H.
    destruct (findById db id) as [r|] eqn:Hr; [|discriminate H].
    destruct (status_of_record_shows with_ipfs req db r v H) as [Hv Hown].
    exists r. split; [apply (find_some _ _ Hr)|].
    split; [destruct with_ipfs; [left | right]; exact Hv | exact Hown]. }
  destruct route; cbn [Lookup.lookup].
  - unfold Lookup.getKYCStatus.
    destruct (Lookup.isValidObjectId (Lookup.param req)).
    + destruct (cast (Lookup.param req)) as [id|]; [|intros H; discriminate H].
      destruct (findById db id) as [r|] eqn:Hr.
      * intros H. apply (Hrecord true id). rewrite Hr. exact H.
      * destruct (Lookup.not_own_nor_admin req (Lookup.param req)) eqn:Hauth;
          [intros H; discriminate H|].
        apply Huser. exact Hauth.
    + destruct (Lookup.not_own_nor_admin req (Lookup.param req)) eqn:Hauth;
        [intros H; discriminate H|].
      apply Huser. exact Hauth.
  - unfold Lookup.getKYCStatusByRecordId.
    destruct (cast (Lookup.param req)) as [id|]; [|intros H; discriminate H].
    apply Hrecord.
  - unfold Lookup.getMyKYCStatus. apply Huser.
    unfold Lookup.not_own_nor_admin. rewrite String.eqb_refl. reflexivity.
Qed.

Lemma status_lookup_shows_own_records_only_witness :
  exists r,
    In r (records (Sample.db_with (Sample.record "rec1" completed)))
    /\ (Lookup.view true (Sample.record "rec1" completed) = Lookup.view true r
        \/ Lookup.view true (Sample.record "rec1" completed) = Lookup.view false r)
    /\ (userId r = "u1" \/ "user" = "admin").
Proof.
  apply (status_lookup_shows_own_records_only
           (fun s => Some s) Lookup.by_user (Lookup.mkRequest "u1" "user" "u1")
           (Sample.db_with (Sample.record "rec1" completed))
           (Lookup.view true (Sample.record "rec1" completed)));
    reflexivity.
Defined.

(** X22. [getMyKYCStatus] answers 200 in every case: with [null]
    exactly when the user has no record, and otherwise with a record of
    the user that no other record of the user is later than. *)
Theorem getMyKYCStatus_shows_latest_submission :
  forall (castObjectId : string -> option string) (req : Lookup.Request) (db : DB),
    castObjectId (Lookup.user_id_ req) = Some (Lookup.user_id_ req) ->
    (Lookup.getMyKYCStatus castObjectId req db = Lookup.OK None
     <-> forall r, In r (records db) -> userId r <> Lookup.user_id_ req)
    /\ ((exists r,
            In r (records db) /\ userId r = Lookup.user_id_ req
            /\ Lookup.getMyKYCStatus castObjectId req db
               = Lookup.OK (Some (Lookup.view true r))
            /\ forall x, In x (records db) -> userId x = Lookup.user_id_ req ->
                         (submittedAt x <= submittedAt r)%Z)
        \/ Lookup.getMyKYCStatus castObjectId req db = Lookup.OK None).
Proof.
  intros cast req db Hcast.
  unfold Lookup.getMyKYCStatus, Lookup.status_of_user, Lookup.no_record.
  rewrite Hcast.
  destruct (Lookup.findLatestOf db (Lookup.user_id_ req)) as [r|] eqn:Hf.
  - destruct (findLatestOf_spec _ _ _ Hf) as (Hin & Hu & Hmax). split.
    + split; [intros H; discriminate H|].
      intros H. exfalso. apply (H r Hin Hu).
    + left. exists r. repeat split; assumption.
  - split; [|right; reflexivity].
    split; [|reflexivity]. intros _ r Hin Hu.
    unfold Lookup.findLatestOf in Hf. apply latest_none in Hf. destruct Hf as [Hf _].
    assert (In r (filter (fun r => String.eqb (userId r) (Lookup.user_id_ req))
                         (records db)))
      by (apply filter_In; split; [exact Hin | apply String.eqb_eq; exact Hu]).
    rewrite Hf in H. contradiction.
Qed.

Lemma getMyKYCStatus_shows_latest_submission_witness :
  (Lookup.getMyKYCStatus (fun s => Some s) (Lookup.mkRequest "u1" "user" "")
     (mkDB [Sample.record "rec1" rejected; Sample.record "rec2" completed]
           [Sample.alice]) = Lookup.OK None
   <-> forall r,
      In r (records (mkDB [Sample.record "rec1" rejected;
                           Sample.record "rec2" completed] [Sample.alice])) ->
      userId r <> "u1")
  /\ ((exists r,
          In r (records (mkDB [Sample.record "rec1" rejected;
                               Sample.record "rec2" completed] [Sample.alice]))
          /\ userId r = "u1"
          /\ Lookup.getMyKYCStatus (fun s => Some s)
               (Lookup.mkRequest "u1" "user" "")
               (mkDB [Sample.record "rec1" rejected; Sample.record "rec2" completed]
                     [Sample.alice])
             = Lookup.OK (Some (Lookup.view true r))
          /\ forall x,
              In x (records (mkDB [Sample.record "rec1" rejected;
                                   Sample.record "rec2" completed] [Sample.alice])) ->
              userId x = "u1" -> (submittedAt x <= submittedAt r)%Z)
      \/ Lookup.getMyKYCStatus (fun s => Some s) (Lookup.mkRequest "u1" "user" "")
           (mkDB [Sample.record "rec1" rejected; Sample.record "rec2" completed]
                 [Sample.alice]) = Lookup.OK None).
Proof.
  apply (getMyKYCStatus_shows_latest_submission
           (fun s => Some s) (Lookup.mkRequest "u1" "user" "")
           (mkDB [Sample.record "rec1" rejected; Sample.record "rec2" completed]
                 [Sample.alice])).
  reflexivity.
Defined.






(** X24. The handler of an admin-only route runs exactly when the
    [Authorization] header begins with [Bearer], its second piece is a
    non-empty token that verifies, the user of the token is found in
    time, and that user has the role [admin]; the handler is then run
    for that user. *)
Theorem admin_route_admits_admins_only :
  forall (A : Type) (verifyToken : string -> outcome string)
         (answers_in_time : bool) (role_of : User -> string)
         (handler : User -> A) (authorization : option string) (db : DB)
         (answer : A),
    Auth.admin_route verifyToken answers_in_time role_of handler authorization db
    = inr answer
    <-> exists header token id u,
      authorization = Some header
      /\ String.prefix "Bearer" header = true
      /\ nth_error (Auth.split_on " "%char header EmptyString) 1 = Some token
      /\ token <> EmptyString
      /\ verifyToken token = Returns id
      /\ answers_in_time = true
      /\ findUserById db id = Some u
      /\ role_of u = "admin"
      /\ answer = handler u.
Proof.
  intros A verifyToken in_time role_of handler authorization db answer.
  unfold Auth.admin_route, Auth.protect, Auth.bearer_token. split.
  - destruct authorization as [[|c h]|]; try (intros H; discriminate H).
    destruct (String.prefix "Bearer" (String c h)) eqn:Hprefix;
      [|intros H; discriminate H].
    destruct (nth_error (Auth.split_on " "%char (String c h) EmptyString) 1)
      as [[|c' t]|] eqn:Htoken; try (intros H; discriminate H).
    destruct (verifyToken (String c' t)) as [id|m] eqn:Hverify;
      [|intros H; discriminate H].
    destruct in_time; cbn [negb]; [|intros H; discriminate H].
    destruct (findUserById db id) as [u|] eqn:Hu; [|intros H; discriminate H].
    unfold Auth.authorize, Validation.includes. cbn [existsb].
    rewrite orb_false_r.
    destruct (String.eqb (role_of u) "admin") eqn:Hrole; cbn [negb];
      [|intros H; discriminate H].
    intros H. injection H as <-.
    exists (String c h), (String c' t), id, u.
    repeat split; try assumption; try reflexivity.
    + discriminate.
    + apply String.eqb_eq. exact Hrole.
  - intros (header & token & id & u & -> & Hprefix & Htoken & Hne & Hverify
            & -> & Hu & Hrole & ->).
    destruct header as [|c h]; [discriminate Hprefix|].
    rewrite Hprefix, Htoken.
    destruct token as [|c' t]; [contradiction Hne; reflexivity|].
    rewrite Hverify. cbn [negb]. rewrite Hu.
    unfold Auth.authorize, Validation.includes. cbn [existsb].
    rewrite Hrole. reflexivity.
Qed.

(** ** Submissions in flight: one call alone, two calls interleaved *)

Lemma run_done (c : Submit.Call) (k : nat) (response : SubmitResponse)
      (task : option Task) (db : DB) :
  Submit.run c k (Submit.S_done response task, db) = (Submit.S_done response task, db).
Proof. induction k as [|k IH]; [reflexivity | exact IH]. Qed.

Lemma run_add (c : Submit.Call) (j k : nat) (state : Submit.PC * DB) :
  Submit.run c (j + k) state = Submit.run c k (Submit.run c j state).
Proof.
  revert state. induction j as [|j IH]; intros state; [reflexivity|].
  cbn [Nat.add Submit.run]. apply IH.
Qed.

(** From the creation on, two steps of the machine do what
    [create_submission] does. *)
Lemma issue_create_run (c : Submit.Call) (docType docNumber : string)
      (files : Files) (db : DB) :
  Submit.run c 2 (Submit.issue_create c docType docNumber files db)
  = (Submit.S_done
       (fst (fst (create_submission (Submit.call_env c) (Submit.call_now c)
                    (req_user_id (Submit.call_req c)) docType docNumber files
                    (Submit.call_req c) db)))
       (snd (create_submission (Submit.call_env c) (Submit.call_now c)
               (req_user_id (Submit.call_req c)) docType docNumber files
               (Submit.call_req c) db)),
     snd (fst (create_submission (Submit.call_env c) (Submit.call_now c)
                 (req_user_id (Submit.call_req c)) docType docNumber files
                 (Submit.call_req c) db))).
Proof.
  unfold Submit.issue_create, Submit.build_record, create_submission.
  destruct (first_path files "documentImages[front]") as [fp|]; [|reflexivity].
  destruct (first_path files "documentImages[selfie]") as [sp|]; [|reflexivity].
  destruct (files_get files "documentImages[back]") as [[|b bs]|]; [reflexivity | |].
  - destruct (readFileSync (Submit.call_env c) fp); [|reflexivity].
    destruct (readFileSync (Submit.call_env c) sp); [|reflexivity].
    destruct (truthy (Some (path b)));
      [destruct (readFileSync (Submit.call_env c)
                   (or_else (Some (path b)) EmptyString)); [|reflexivity]|];
      (destruct (Validation.includes schema_documentTypes docType); reflexivity).
  - destruct (readFileSync (Submit.call_env c) fp); [|reflexivity].
    destruct (readFileSync (Submit.call_env c) sp); [|reflexivity].
    cbn [truthy falsy_opt negb].
    destruct (Validation.includes schema_documentTypes docType); reflexivity.
Qed.

(** The function [submitKYC] is the run of a call that nothing
    interrupts. *)
Lemma run_alone_is_submitKYC (c : Submit.Call) (db : DB) :
  Submit.run_alone c db
  = (Submit.S_done
       (fst (fst (submitKYC (Submit.call_env c) (Submit.call_now c)
                            (Submit.call_req c) db)))
       (snd (submitKYC (Submit.call_env c) (Submit.call_now c)
                       (Submit.call_req c) db)),
     snd (fst (submitKYC (Submit.call_env c) (Submit.call_now c)
                         (Submit.call_req c) db))).
Proof.
  unfold Submit.run_alone, submitKYC.
  change (Submit.run c 5 (Submit.S_start, db))
    with (Submit.run c 4 (Submit.step c Submit.S_start db)).
  cbn [Submit.step].
  destruct (body_documentType (Submit.call_req c)) as [[|c1 t]|];
    try solve [destruct (body_documentNumber (Submit.call_req c)) as [[|? ?]|];
               apply run_done].
  destruct (body_documentNumber (Submit.call_req c)) as [[|c2 n]|];
    try apply run_done.
  destruct (req_files (Submit.call_req c)) as [files|]; [|apply run_done].
  destruct (files_get files "documentImages[front]"); [|apply run_done].
  destruct (files_get files "documentImages[selfie]"); [|apply run_done].
  destruct (findOne_in_flight db (req_user_id (Submit.call_req c))) as [existing|].
  - change (Submit.run c 4 ?s)
      with (Submit.run c 3 (Submit.step c (fst s) (snd s))).
    cbn [fst snd Submit.step].
    destruct (is_stuck existing (Submit.call_now c)); [|apply run_done].
    change (Submit.run c 3 ?s)
      with (Submit.run c 2 (Submit.step c (fst s) (snd s))).
    cbn [fst snd Submit.step]. apply issue_create_run.
  - change (Submit.run c 4 ?s)
      with (Submit.run c 3 (Submit.step c (fst s) (snd s))).
    cbn [fst snd Submit.step].
    rewrite (run_add c 2 1), issue_create_run. apply run_done.
Qed.

Lemma build_record_fields (env : Env) (now : Z) (uid docType docNumber : string)
      (files : Files) (req : Request) (r : KYCRecord) :
  Submit.build_record env now uid docType docNumber files req = inr r ->
  _id r = newObjectId env /\ userId r = uid /\ status r = submitted
  /\ submittedAt r = now /\ documentType r = docType.
Proof.
  unfold Submit.build_record.
  destruct (first_path files "documentImages[front]") as [fp|];
    [|intros H; discriminate H].
  destruct (first_path files "documentImages[selfie]") as [sp|];
    [|intros H; discriminate H].
  destruct (files_get files "documentImages[back]") as [[|b bs]|];
    [intros H; discriminate H | |].
  - destruct (readFileSync env fp); [|intros H; discriminate H].
    destruct (readFileSync env sp); [|intros H; discriminate H].
    destruct (truthy (Some (path b)));
      [destruct (readFileSync env (or_else (Some (path b)) EmptyString));
       [|intros H; discriminate H]|];
      intros H; injection H as <-; repeat split.
  - destruct (readFileSync env fp); [|intros H; discriminate H].
    destruct (readFileSync env sp); [|intros H; discriminate H].
    cbn [truthy falsy_opt negb]. intros H. injection H as <-. repeat split.
Qed.

(** A creation that is answered 201 is one whose document is built and
    accepted by the schema. *)
Lemma create_submission_201 (env : Env) (now : Z) (uid docType docNumber : string)
      (files : Files) (req : Request) (db : DB) :
  is_201 (fst (fst (create_submission env now uid docType docNumber files req db)))
  = true ->
  exists r,
    Submit.build_record env now uid docType docNumber files req = inr r
    /\ Validation.includes schema_documentTypes docType = true.
Proof.
  unfold Submit.build_record, create_submission.
  destruct (first_path files "documentImages[front]") as [fp|];
    [|intros H; discriminate H].
  destruct (first_path files "documentImages[selfie]") as [sp|];
    [|intros H; discriminate H].
  destruct (files_get files "documentImages[back]") as [[|b bs]|];
    [intros H; discriminate H | |].
  - destruct (readFileSync env fp); [|intros H; discriminate H].
    destruct (readFileSync env sp); [|intros H; discriminate H].
    destruct (truthy (Some (path b)));
      [destruct (readFileSync env (or_else (Some (path b)) EmptyString));
       [|intros H; discriminate H]|];
      (destruct (Validation.includes schema_documentTypes docType); cbn [negb];
       [intros _; eexists; split; reflexivity | intros H; discriminate H]).
  - destruct (readFileSync env fp); [|intros H; discriminate H].
    destruct (readFileSync env sp); [|intros H; discriminate H].
    cbn [truthy falsy_opt negb].
    destruct (Validation.includes schema_documentTypes docType); cbn [negb];
      [intros _; eexists; split; reflexivity | intros H; discriminate H].
Qed.

(** The first step of a call that would be answered 201, on a database
    with no record of the user in flight: it is suspended at [findOne],
    which has found nothing. *)
Lemma start_progress (c : Submit.Call) (db : DB) :
  findOne_in_flight db (req_user_id (Submit.call_req c)) = None ->
  is_201 (fst (fst (submitKYC (Submit.call_env c) (Submit.call_now c)
                              (Submit.call_req c) db))) = true ->
  exists docType docNumber files r,
    Submit.step c Submit.S_start db
    = (Submit.progress docType docNumber files r 0, db)
    /\ Submit.build_record (Submit.call_env c) (Submit.call_now c)
         (req_user_id (Submit.call_req c)) docType docNumber files
         (Submit.call_req c) = inr r
    /\ Validation.includes schema_documentTypes docType = true.
Proof.
  intros Hnone. unfold submitKYC. cbn [Submit.step Submit.progress].
  destruct (body_documentType (Submit.call_req c)) as [[|c1 t]|];
    try solve [destruct (body_documentNumber (Submit.call_req c)) as [[|? ?]|];
               intros H; discriminate H].
  destruct (body_documentNumber (Submit.call_req c)) as [[|c2 n]|];
    try solve [intros H; discriminate H].
  destruct (req_files (Submit.call_req c)) as [files|]; [|intros H; discriminate H].
  destruct (files_get files "documentImages[front]"); [|intros H; discriminate H].
  destruct (files_get files "documentImages[selfie]"); [|intros H; discriminate H].
  rewrite Hnone. intros H.
  destruct (create_submission_201 _ _ _ _ _ _ _ _ H) as (r & Hbuild & Hschema).
  exists (String c1 t), (String c2 n), files, r.
  split; [reflexivity|]. split; assumption.
Qed.

Section Progress.

Variable c : Submit.Call.
Variables docType docNumber : string.
Variable files : Files.
Variable r : KYCRecord.
Hypothesis built :
  Submit.build_record (Submit.call_env c) (Submit.call_now c)
    (req_user_id (Submit.call_req c)) docType docNumber files (Submit.call_req c)
  = inr r.
Hypothesis accepted : Validation.includes schema_documentTypes docType = true.

Lemma step_progress (k : nat) (db : DB) :
  fst (Submit.step c (Submit.progress docType docNumber files r k) db)
  = Submit.progress docType docNumber files r (S k)
  /\ in_flight_records
       (snd (Submit.step c (Submit.progress docType docNumber files r k) db))
       (req_user_id (Submit.call_req c))
     = List.app (in_flight_records db (req_user_id (Submit.call_req c)))
                (Submit.created_by_step r k).
Proof.
  destruct (build_record_fields _ _ _ _ _ _ _ _ built) as (_ & Hu & Hs & _).
  destruct k as [|[|[|k]]]; cbn [Submit.progress Submit.step Submit.created_by_step].
  - unfold Submit.issue_create. rewrite built, accepted. cbn [negb fst snd].
    split; [reflexivity|].
    unfold in_flight_records, KYCRecord_create. cbn [records].
    rewrite filter_app. cbn [filter]. rewrite Hu, Hs, String.eqb_refl. reflexivity.
  - cbn [fst snd]. split; [reflexivity|]. unfold in_flight_records.
    cbn [User_findByIdAndUpdate records]. rewrite app_nil_r. reflexivity.
  - cbn [fst snd]. rewrite app_nil_r. split; reflexivity.
  - cbn [fst snd]. rewrite app_nil_r. split; reflexivity.
Qed.

Lemma progress_done (k : nat) :
  3 <= k ->
  Submit.progress docType docNumber files r k
  = Submit.S_done (Response_201 (_id r) (status r) (submittedAt r) (documentType r))
      (Some (mkTask (_id r) (documentImages r) (documentType r)
                    (documentNumber r))).
Proof. intros H. destruct k as [|[|[|k]]]; [lia | lia | lia | reflexivity]. Qed.

End Progress.

Lemma run_two_progress (c1 c2 : Submit.Call) (dt1 dn1 dt2 dn2 : string)
      (files1 files2 : Files) (r1 r2 : KYCRecord) :
  req_user_id (Submit.call_req c1) = req_user_id (Submit.call_req c2) ->
  Submit.build_record (Submit.call_env c1) (Submit.call_now c1)
    (req_user_id (Submit.call_req c1)) dt1 dn1 files1 (Submit.call_req c1) = inr r1 ->
  Validation.includes schema_documentTypes dt1 = true ->
  Submit.build_record (Submit.call_env c2) (Submit.call_now c2)
    (req_user_id (Submit.call_req c2)) dt2 dn2 files2 (Submit.call_req c2) = inr r2 ->
  Validation.includes schema_documentTypes dt2 = true ->
  forall (schedule : list bool) (k1 k2 : nat) (db : DB),
    let s := Submit.run_two c1 c2 schedule
               (Submit.mkSystem (Submit.progress dt1 dn1 files1 r1 k1)
                                (Submit.progress dt2 dn2 files2 r2 k2) db) in
    Submit.first_call s
    = Submit.progress dt1 dn1 files1 r1 (k1 + count_occ bool_dec schedule true)
    /\ Submit.second_call s
       = Submit.progress dt2 dn2 files2 r2 (k2 + count_occ bool_dec schedule false)
    /\ List.length (in_flight_records (Submit.sys_db s)
                                      (req_user_id (Submit.call_req c1)))
       + Submit.created_so_far k1 + Submit.created_so_far k2
       = List.length (in_flight_records db (req_user_id (Submit.call_req c1)))
         + Submit.created_so_far (k1 + count_occ bool_dec schedule true)
         + Submit.created_so_far (k2 + count_occ bool_dec schedule false)
    /\ (forall x, In x (in_flight_records db (req_user_id (Submit.call_req c1))) ->
                  In x (in_flight_records (Submit.sys_db s)
                                          (req_user_id (Submit.call_req c1))))
    /\ (k1 = 0 -> 1 <= count_occ bool_dec schedule true ->
        In r1 (in_flight_records (Submit.sys_db s)
                                 (req_user_id (Submit.call_req c1))))
    /\ (k2 = 0 -> 1 <= count_occ bool_dec schedule false ->
        In r2 (in_flight_records (Submit.sys_db s)
                                 (req_user_id (Submit.call_req c1)))).
Proof.
  intros Huid B1 A1 B2 A2 schedule.
  induction schedule as [|who rest IH]; intros k1 k2 db; cbv zeta.
  - cbn [Submit.run_two fold_left count_occ Submit.first_call Submit.second_call
         Submit.sys_db].
    rewrite !Nat.add_0_r. repeat split; try reflexivity; try tauto; lia.
  - change (Submit.run_two c1 c2 (who :: rest) ?s)
      with (Submit.run_two c1 c2 rest (Submit.turn c1 c2 s who)).
    destruct who; unfold Submit.turn;
      cbn [Submit.first_call Submit.second_call Submit.sys_db].
    + destruct (step_progress c1 dt1 dn1 files1 r1 B1 A1 k1 db) as [Hpc Hdb].
      rewrite Hpc.
      specialize (IH (S k1) k2
                     (snd (Submit.step c1 (Submit.progress dt1 dn1 files1 r1 k1) db))).
      cbv zeta in IH. destruct IH as (I1 & I2 & I3 & I4 & _ & I6).
      rewrite Hdb in I3, I4. rewrite length_app in I3.
      cbn [count_occ]. destruct (bool_dec true true) as [_|N]; [|contradiction].
      destruct (bool_dec true false) as [E|_]; [discriminate E|].
      rewrite <- !Nat.add_succ_comm.
      split; [exact I1|]. split; [exact I2|].
      split; [destruct k1; cbn [Submit.created_by_step Submit.created_so_far List.length] in *; lia|].
      split; [intros x Hx; apply I4; apply in_or_app; left; exact Hx|].
      split; [|exact I6].
      intros -> _. apply I4. apply in_or_app. right. left. reflexivity.
    + rewrite Huid.
      destruct (step_progress c2 dt2 dn2 files2 r2 B2 A2 k2 db) as [Hpc Hdb].
      rewrite Hpc.
      specialize (IH k1 (S k2)
                     (snd (Submit.step c2 (Submit.progress dt2 dn2 files2 r2 k2) db))).
      cbv zeta in IH. rewrite Huid in IH.
      destruct IH as (I1 & I2 & I3 & I4 & I5 & _).
      rewrite Hdb in I3, I4. rewrite length_app in I3.
      cbn [count_occ]. destruct (bool_dec false false) as [_|N]; [|contradiction].
      destruct (bool_dec false true) as [E|_]; [discriminate E|].
      rewrite <- !Nat.add_succ_comm.
      split; [exact I1|]. split; [exact I2|].
      split; [destruct k2; cbn [Submit.created_by_step Submit.created_so_far List.length] in *; lia|].
      split; [intros x Hx; apply I4; apply in_or_app; left; exact Hx|].
      split; [exact I5|].
      intros -> _. apply I4. apply in_or_app. right. left. reflexivity.
Qed.

(** X8. Two submissions of one user that interleave both create a
    record. On a database where the user has no record in flight, take
    two calls of [submitKYC] for that user, each of which would be
    answered 201 if it ran alone. When each call has issued its
    [findOne] before the other has created its record, and both then run
    to their end in any order, both are answered 201 and the user has two
    records in flight: the check of the in-flight record and the creation
    are separated by an [await], and nothing in the collection forbids
    the second record. *)
Theorem interleaved_submissions_both_create :
  forall (c1 c2 : Submit.Call) (db : DB) (who : bool) (rest : list bool),
    req_user_id (Submit.call_req c1) = req_user_id (Submit.call_req c2) ->
    findOne_in_flight db (req_user_id (Submit.call_req c1)) = None ->
    is_201 (fst (fst (submitKYC (Submit.call_env c1) (Submit.call_now c1)
                                (Submit.call_req c1) db))) = true ->
    is_201 (fst (fst (submitKYC (Submit.call_env c2) (Submit.call_now c2)
                                (Submit.call_req c2) db))) = true ->
    3 <= count_occ bool_dec rest true ->
    3 <= count_occ bool_dec rest false ->
    let s := Submit.run_two c1 c2 (who :: negb who :: rest)
               (Submit.mkSystem Submit.S_start Submit.S_start db) in
    exists r1 r2,
      Submit.first_call s
      = Submit.S_done
          (Response_201 (_id r1) submitted (Submit.call_now c1) (documentType r1))
          (Some (mkTask (_id r1) (documentImages r1) (documentType r1)
                        (documentNumber r1)))
      /\ Submit.second_call s
         = Submit.S_done
             (Response_201 (_id r2) submitted (Submit.call_now c2) (documentType r2))
             (Some (mkTask (_id r2) (documentImages r2) (documentType r2)
                           (documentNumber r2)))
      /\ _id r1 = newObjectId (Submit.call_env c1)
      /\ _id r2 = newObjectId (Submit.call_env c2)
      /\ In r1 (in_flight_records (Submit.sys_db s)
                                  (req_user_id (Submit.call_req c1)))
      /\ In r2 (in_flight_records (Submit.sys_db s)
                                  (req_user_id (Submit.call_req c1)))
      /\ List.length (in_flight_records (Submit.sys_db s)
                                        (req_user_id (Submit.call_req c1))) = 2.
Proof.
  intros c1 c2 db who rest Huid Hnone H1 H2 Hn1 Hn2. cbv zeta.
  assert (Hnone2 : findOne_in_flight db (req_user_id (Submit.call_req c2)) = None)
    by (rewrite <- Huid; exact Hnone).
  destruct (start_progress c1 db Hnone H1)
    as (dt1 & dn1 & files1 & r1 & S1 & B1 & A1).
  destruct (start_progress c2 db Hnone2 H2)
    as (dt2 & dn2 & files2 & r2 & S2 & B2 & A2).
  assert (Hstart : Submit.run_two c1 c2 (who :: negb who :: rest)
                     (Submit.mkSystem Submit.S_start Submit.S_start db)
                   = Submit.run_two c1 c2 rest
                       (Submit.mkSystem (Submit.progress dt1 dn1 files1 r1 0)
                                        (Submit.progress dt2 dn2 files2 r2 0) db)).
  { change (Submit.run_two c1 c2 (who :: negb who :: rest) ?s)
      with (Submit.run_two c1 c2 rest
              (Submit.turn c1 c2 (Submit.turn c1 c2 s who) (negb who))).
    destruct who; unfold Submit.turn;
      cbn [negb Submit.first_call Submit.second_call Submit.sys_db];
      rewrite ?S1, ?S2; cbn [fst snd]; rewrite ?S1, ?S2; reflexivity. }
  rewrite Hstart.
  pose proof (run_two_progress c1 c2 dt1 dn1 dt2 dn2 files1 files2 r1 r2
                Huid B1 A1 B2 A2 rest 0 0 db) as H.
  cbv zeta in H. destruct H as (P1 & P2 & Hlen & _ & In1 & In2).
  destruct (build_record_fields _ _ _ _ _ _ _ _ B1) as (Hid1 & _ & Hs1 & Ht1 & _).
  destruct (build_record_fields _ _ _ _ _ _ _ _ B2) as (Hid2 & _ & Hs2 & Ht2 & _).
  cbn [Nat.add] in P1, P2, Hlen.
  rewrite (progress_done dt1 dn1 files1 r1 _ Hn1) in P1.
  rewrite (progress_done dt2 dn2 files2 r2 _ Hn2) in P2.
  rewrite Hs1, Ht1 in P1. rewrite Hs2, Ht2 in P2.
  exists r1, r2.
  split; [exact P1|]. split; [exact P2|]. split; [exact Hid1|]. split; [exact Hid2|].
  split; [apply In1; [reflexivity | lia]|].
  split; [apply In2; [reflexivity | lia]|].
  unfold in_flight_records at 2 in Hlen. unfold findOne_in_flight in Hnone.
  rewrite (find_none_filter _ _ Hnone) in Hlen.
  destruct (count_occ bool_dec rest true); [lia|].
  destruct (count_occ bool_dec rest false); [lia|].
  cbn [Submit.created_so_far List.length] in Hlen. lia.
Qed.

(** X8 on two requests of the sample user, whose steps alternate. *)
Lemma interleaved_submissions_both_create_witness :
  exists r1 r2,
    Submit.first_call
      (Submit.run_two (Submit.sample_call "rec2" 1000) (Submit.sample_call "rec3" 1001)
         [true; false; true; false; true; false; true; false]
         (Submit.mkSystem Submit.S_start Submit.S_start
            (Sample.db_with (Sample.record "rec1" completed))))
    = Submit.S_done (Response_201 (_id r1) submitted 1000 (documentType r1))
        (Some (mkTask (_id r1) (documentImages r1) (documentType r1)
                      (documentNumber r1)))
    /\ Submit.second_call
         (Submit.run_two (Submit.sample_call "rec2" 1000)
            (Submit.sample_call "rec3" 1001)
            [true; false; true; false; true; false; true; false]
            (Submit.mkSystem Submit.S_start Submit.S_start
               (Sample.db_with (Sample.record "rec1" completed))))
       = Submit.S_done (Response_201 (_id r2) submitted 1001 (documentType r2))
           (Some (mkTask (_id r2) (documentImages r2) (documentType r2)
                         (documentNumber r2)))
    /\ _id r1 = "rec2"
    /\ _id r2 = "rec3"
    /\ In r1 (in_flight_records
                (Submit.sys_db
                   (Submit.run_two (Submit.sample_call "rec2" 1000)
                      (Submit.sample_call "rec3" 1001)
                      [true; false; true; false; true; false; true; false]
                      (Submit.mkSystem Submit.S_start Submit.S_start
                         (Sample.db_with (Sample.record "rec1" completed)))))
                "u1")
    /\ In r2 (in_flight_records
                (Submit.sys_db
                   (Submit.run_two (Submit.sample_call "rec2" 1000)
                      (Submit.sample_call "rec3" 1001)
                      [true; false; true; false; true; false; true; false]
                      (Submit.mkSystem Submit.S_start Submit.S_start
                         (Sample.db_with (Sample.record "rec1" completed)))))
                "u1")
    /\ List.length
         (in_flight_records
            (Submit.sys_db
               (Submit.run_two (Submit.sample_call "rec2" 1000)
                  (Submit.sample_call "rec3" 1001)
                  [true; false; true; false; true; false; true; false]
                  (Submit.mkSystem Submit.S_start Submit.S_start
                     (Sample.db_with (Sample.record "rec1" completed)))))
            "u1") = 2.
Proof.
  apply (interleaved_submissions_both_create
           (Submit.sample_call "rec2" 1000) (Submit.sample_call "rec3" 1001)
           (Sample.db_with (Sample.record "rec1" completed)) true
           [true; false; true; false; true; false]).
  - reflexivity.
  - reflexivity.
  - reflexivity.
  - reflexivity.
  - cbn. lia.
  - cbn. lia.
Defined.

(** X25. A call of [submitKYC] that nothing interrupts ends, within
    five steps, with the answer, the background task and the database
    that the function [submitKYC] gives; and when the ids of the records
    are distinct and a user has at most one record in flight, this is
    still so after such a call. *)
Theorem uninterrupted_submission_keeps_single_in_flight :
  forall (c : Submit.Call) (db : DB) (u : string),
    NoDup (map _id (records db)) ->
    List.length (in_flight_records db u) <= 1 ->
    Submit.run_alone c db
    = (Submit.S_done
         (fst (fst (submitKYC (Submit.call_env c) (Submit.call_now c)
                              (Submit.call_req c) db)))
         (snd (submitKYC (Submit.call_env c) (Submit.call_now c)
                         (Submit.call_req c) db)),
       snd (fst (submitKYC (Submit.call_env c) (Submit.call_now c)
                           (Submit.call_req c) db)))
    /\ List.length (in_flight_records (snd (Submit.run_alone c db)) u) <= 1.
Proof.
  intros c db u Hnd Hone. split; [apply run_alone_is_submitKYC|].
  rewrite run_alone_is_submitKYC. cbn [snd].
  apply submitKYC_single_in_flight_of_one_call; assumption.
Qed.

(** X25 on the sample user with a stuck record: the stuck record is
    rejected and the new one is the only one in flight. *)
Lemma uninterrupted_submission_keeps_single_in_flight_witness :
  List.length
    (in_flight_records
       (snd (Submit.run_alone (Submit.sample_call "rec2" Sample.eleven_minutes)
               (Sample.db_with (Sample.record "rec1" ai_processing))))
       "u1") <= 1.
Proof.
  apply (uninterrupted_submission_keeps_single_in_flight
           (Submit.sample_call "rec2" Sample.eleven_minutes)
           (Sample.db_with (Sample.record "rec1" ai_processing)) "u1").
  - repeat constructor. intros [].
  - apply Nat.le_refl.
Defined.
